(** * Invoice engine: validation, computation, formatting and the pipeline

    A shallow embedding of [packages/invoice-engine/src] (validate.ts,
    compute.ts, format.ts, index.ts) together with the part of the
    JavaScript runtime those files rely on: strings ([trim], [toUpperCase],
    code-unit comparison), IEEE-754 binary64 numbers ([parseFloat], [<],
    [===]), and [Date] (parsing of ISO calendar dates, the UTC accessors and
    [toISOString]). *)

From Stdlib Require Import List String Ascii ZArith Bool Lia Floats DecimalString.
Import ListNotations.

Local Open Scope string_scope.
Local Open Scope Z_scope.

(* ====================================================================== *)
(** * The JavaScript runtime *)
(* ====================================================================== *)

(** ** Strings

    A JavaScript string is modelled by a [string] whose characters are its
    code units; the model covers the code units below 256. *)
Module JsString.

Definition code (c : ascii) : N := N_of_ascii c.

(** WhiteSpace and LineTerminator code units (ECMA-262, TrimString):
    TAB, LF, VT, FF, CR, SP and NBSP. *)
Definition isWhiteSpace (c : ascii) : bool :=
  let n := code c in
  (N.leb 9 n && N.leb n 13) || N.eqb n 32 || N.eqb n 160.

Definition isEmpty (s : string) : bool :=
  match s with EmptyString => true | String _ _ => false end.

Fixpoint trimStart (s : string) : string :=
  match s with
  | EmptyString => EmptyString
  | String c r => if isWhiteSpace c then trimStart r else s
  end.

Fixpoint trimEnd (s : string) : string :=
  match s with
  | EmptyString => EmptyString
  | String c r =>
      let r' := trimEnd r in
      if isWhiteSpace c && isEmpty r' then EmptyString else String c r'
  end.

(** [String.prototype.trim] *)
Definition trim (s : string) : string := trimEnd (trimStart s).

(** The capital of one code unit: [a]..[z] and the letters of Latin-1
    from [0xE0] to [0xFE] (the division sign [0xF7] apart) are 32 below;
    the sharp s, [0xDF], becomes [SS].  Two letters of the model have a
    capital that is not a code unit below 256 (the micro sign [0xB5] and
    [0xFF], y with diaeresis): they are left in place, a string that
    holds one of them or its capital being different from every string of
    ASCII letters, the only strings the result is ever compared with.
    Every other code unit has no capital. *)
Definition upperChar (c : ascii) : string :=
  let n := code c in
  if N.leb 97 n && N.leb n 122 then String (ascii_of_N (n - 32)) EmptyString
  else if N.eqb n 223 then "SS"
  else if N.leb 224 n && N.leb n 254 && negb (N.eqb n 247)
  then String (ascii_of_N (n - 32)) EmptyString
  else String c EmptyString.

(** [String.prototype.toUpperCase] *)
Fixpoint toUpperCase (s : string) : string :=
  match s with
  | EmptyString => EmptyString
  | String c r => upperChar c ++ toUpperCase r
  end.

(** The relational operator [<] on two strings: lexicographic on code
    units. *)
Definition lt (a b : string) : bool := String.ltb a b.

Definition isDigit (c : ascii) : bool :=
  let n := code c in N.leb 48 n && N.leb n 57.

Definition digitVal (c : ascii) : Z := Z.of_N (code c) - 48.

(** Decimal rendering of an array index, as in a template literal. *)
Definition ofNat (n : nat) : string := NilEmpty.string_of_uint (Nat.to_uint n).

End JsString.

(** ** Numbers

    The Number type is IEEE-754 binary64: the kernel's primitive [float]. *)
Module JsNumber.

Definition number := float.

(** [Number.isNaN] *)
Definition isNaN (x : number) : bool := PrimFloat.is_nan x.

(** [x < y], [x > y] and [x === y] on numbers. *)
Definition lt (x y : number) : bool := PrimFloat.ltb x y.
Definition gt (x y : number) : bool := PrimFloat.ltb y x.
Definition strictEq (x y : number) : bool := PrimFloat.eqb x y.

(** The Number value of the exact rational [m * 10^e], [m >= 0]: rounded
    to nearest, ties to even. *)
Definition ofDecimal (m e : Z) : number :=
  match m with
  | Z0 => PrimFloat.zero
  | Zneg _ => PrimFloat.nan
  | Zpos _ =>
      if 0 <=? e
      then SF2Prim (binary_normalize prec emax (m * 10 ^ e) 0 false)
      else
        let '(q, e', l) := SFdiv_core_binary prec emax m 0 (10 ^ (- e)) 0 in
        SF2Prim (binary_round_aux prec emax false q e' l)
  end.

(** A parsed StrUnsignedDecimalLiteral. *)
Inductive literal :=
| LInfinity
| LDecimal (mantissa exponent : Z).

(** Reads the longest run of decimal digits at the head of [s]: the value
    of [acc] followed by these digits, their number, and the rest. *)
Fixpoint readDigits (s : string) (acc : Z) (n : Z) : Z * Z * string :=
  match s with
  | String c r =>
      if JsString.isDigit c
      then readDigits r (10 * acc + JsString.digitVal c) (n + 1)
      else (acc, n, s)
  | EmptyString => (acc, n, s)
  end.

(** ExponentPart(opt): the exponent when [s] starts with [e] or [E], an
    optional sign and at least one digit; 0 otherwise. *)
Definition readExponent (s : string) : Z :=
  match s with
  | String c r =>
      if (Ascii.eqb c "e" || Ascii.eqb c "E")%bool
      then
        let '(neg, r') :=
          match r with
          | String "-" r1 => (true, r1)
          | String "+" r1 => (false, r1)
          | _ => (false, r)
          end in
        let '(v, n, _) := readDigits r' 0 0 in
        if n =? 0 then 0 else if neg then - v else v
      else 0
  | EmptyString => 0
  end.

(** The longest prefix of [s] that is a StrUnsignedDecimalLiteral. *)
Definition readUnsigned (s : string) : option literal :=
  if String.prefix "Infinity" s then Some LInfinity
  else
    let '(i, ni, r) := readDigits s 0 0 in
    match r with
    | String "." r1 =>
        let '(m, nf, r2) := readDigits r1 i 0 in
        if (ni =? 0) && (nf =? 0) then None
        else Some (LDecimal m (readExponent r2 - nf))
    | _ =>
        if ni =? 0 then None else Some (LDecimal i (readExponent r))
    end.

Definition literalValue (l : literal) : number :=
  match l with
  | LInfinity => PrimFloat.infinity
  | LDecimal m e => ofDecimal m e
  end.

(** The global [parseFloat] applied to a string. *)
Definition parseFloat (s : string) : number :=
  let t := JsString.trimStart s in
  let '(neg, u) :=
    match t with
    | String "-" r => (true, r)
    | String "+" r => (false, r)
    | _ => (false, t)
    end in
  match readUnsigned u with
  | None => PrimFloat.nan
  | Some l => if neg then PrimFloat.opp (literalValue l) else literalValue l
  end.

(** *** Number::toString and [toFixed(0)] *)

(** [|x| = num / den] for a finite [x] that is not a zero. *)
Definition magnitude (x : number) : option (Z * Z) :=
  match Prim2SF x with
  | S754_finite _ m e =>
      Some (if 0 <=? e then (Zpos m * 2 ^ e, 1) else (Zpos m, 2 ^ (- e)))
  | _ => None
  end.

Definition digitsOf (z : Z) : string :=
  NilZero.string_of_uint (N.to_uint (Z.to_N z)).

Definition numDigits (z : Z) : Z :=
  if z <=? 0 then 0 else Z.of_nat (String.length (digitsOf z)).

(** The [n] with [10^(n-1) <= num/den < 10^n]. *)
Definition decimalExponent (num den : Z) : Z :=
  if den <=? num then numDigits (num / den)
  else 1 - numDigits ((den + num - 1) / num - 1).

(** [num/den] scaled by [10^(-p)], as a fraction. *)
Definition scaled (num den p : Z) : Z * Z :=
  if 0 <=? p then (num, den * 10 ^ p) else (num * 10 ^ (- p), den).

(** The decimal [s * 10^p] with [k] digits that reads back as [x] and is
    closest to [num/den], if there is one. *)
Definition candidate (x : number) (num den n k : Z) : option (Z * Z) :=
  let p := n - k in
  let '(a, b) := scaled num den p in
  let lo := a / b in
  let hi := lo + 1 in
  let okLo := PrimFloat.eqb (ofDecimal lo p) x in
  let okHi := PrimFloat.eqb (ofDecimal hi p) x in
  let r := a - lo * b in
  if okLo && okHi then
    if 2 * r <? b then Some (lo, p)
    else if b <? 2 * r then Some (hi, p)
    else Some (if Z.even lo then lo else hi, p)
  else if okLo then Some (lo, p)
  else if okHi then Some (hi, p)
  else None.

Fixpoint shortest (fuel : nat) (x : number) (num den n k : Z) : Z * Z :=
  match candidate x num den n k with
  | Some sp => sp
  | None =>
      match fuel with
      | O => (fst (scaled num den (n - k)) / snd (scaled num den (n - k)), n - k)
      | S fuel' => shortest fuel' x num den n (k + 1)
      end
  end.

Fixpoint stripZeros (fuel : nat) (s p : Z) : Z * Z :=
  match fuel with
  | O => (s, p)
  | S fuel' =>
      if (s mod 10 =? 0) && negb (s =? 0)
      then stripZeros fuel' (s / 10) (p + 1) else (s, p)
  end.

Definition zeros (n : Z) : string :=
  String.concat "" (List.repeat "0" (Z.to_nat n)).

Definition showExponent (e : Z) : string :=
  (if e <? 0 then "e-" else "e+") ++ digitsOf (Z.abs e).

(** Number::toString of a positive finite number given by its shortest
    digits. *)
Definition render (s p : Z) : string :=
  let d := digitsOf s in
  let k := Z.of_nat (String.length d) in
  let n := p + k in
  if (k <=? n) && (n <=? 21) then d ++ zeros (n - k)
  else if (0 <? n) && (n <=? 21)
  then String.substring 0 (Z.to_nat n) d ++ "."
         ++ String.substring (Z.to_nat n) (Z.to_nat (k - n)) d
  else if (-6 <? n) && (n <=? 0) then "0." ++ zeros (- n) ++ d
  else if k =? 1 then d ++ showExponent (n - 1)
  else String.substring 0 1 d ++ "."
         ++ String.substring 1 (Z.to_nat (k - 1)) d ++ showExponent (n - 1).

(** Number::toString(x): what a template literal writes for a number. *)
Definition toString (x : number) : string :=
  if isNaN x then "NaN"
  else if PrimFloat.eqb x PrimFloat.zero then "0"
  else
    let sign := if PrimFloat.ltb x PrimFloat.zero then "-" else "" in
    match magnitude x with
    | None => sign ++ "Infinity"
    | Some (num, den) =>
        let ax := PrimFloat.abs x in
        let '(s, p) := shortest 16 ax num den (decimalExponent num den) 1 in
        let '(s, p) := stripZeros 20 s p in
        sign ++ render s p
    end.

(** [x.toFixed(0)] *)
Definition toFixed0 (x : number) : string :=
  if isNaN x then "NaN"
  else
    match magnitude x with
    | None =>
        if PrimFloat.eqb x PrimFloat.zero then "0" else toString x
    | Some (num, den) =>
        if 1000000000000000000000 * den <=? num then toString x
        else
          let sign := if PrimFloat.ltb x PrimFloat.zero then "-" else "" in
          sign ++ digitsOf ((2 * num + den) / (2 * den))
    end.

End JsNumber.

(** ** Dates

    A time value is a number of milliseconds since the epoch, or NaN for an
    invalid [Date]: [option Z] with [None] for NaN.  Day numbers, years,
    months and days of the month follow ECMA-262 (21.4.1). *)
Module JsDate.

Definition msPerDay : Z := 86400000.

Definition Day (t : Z) : Z := t / msPerDay.

Definition DayFromYear (y : Z) : Z :=
  365 * (y - 1970) + (y - 1969) / 4 - (y - 1901) / 100 + (y - 1601) / 400.

Definition isLeapYear (y : Z) : bool :=
  if negb (y mod 4 =? 0) then false
  else if negb (y mod 100 =? 0) then true
  else y mod 400 =? 0.

(** InLeapYear: 1 in a leap year and 0 otherwise. *)
Definition leapDays (y : Z) : Z := if isLeapYear y then 1 else 0.

Definition DaysInYear (y : Z) : Z := 365 + leapDays y.

(** The largest [y] with [DayFromYear y <= d] (see [YearFromDay_spec]):
    one of the three years around the estimate [d / 365.2425]. *)
Definition YearFromDay (d : Z) : Z :=
  let y0 := 1970 + (400 * d) / 146097 in
  if DayFromYear (y0 + 1) <=? d then y0 + 1
  else if DayFromYear y0 <=? d then y0
  else y0 - 1.

Definition YearFromTime (t : Z) : Z := YearFromDay (Day t).

Definition DayWithinYear (t : Z) : Z := Day t - DayFromYear (YearFromTime t).

(** The day within the year on which month [m] (0..11) starts; [leap] is
    InLeapYear. *)
Definition monthStart (leap m : Z) : Z :=
  match m with
  | 0 => 0
  | 1 => 31
  | 2 => 59 + leap
  | 3 => 90 + leap
  | 4 => 120 + leap
  | 5 => 151 + leap
  | 6 => 181 + leap
  | 7 => 212 + leap
  | 8 => 243 + leap
  | 9 => 273 + leap
  | 10 => 304 + leap
  | 11 => 334 + leap
  | _ => 365 + leap
  end.

Definition monthOfDay (leap dy : Z) : Z :=
  if dy <? 31 then 0
  else if dy <? 59 + leap then 1
  else if dy <? 90 + leap then 2
  else if dy <? 120 + leap then 3
  else if dy <? 151 + leap then 4
  else if dy <? 181 + leap then 5
  else if dy <? 212 + leap then 6
  else if dy <? 243 + leap then 7
  else if dy <? 273 + leap then 8
  else if dy <? 304 + leap then 9
  else if dy <? 334 + leap then 10
  else 11.

Definition MonthFromTime (t : Z) : Z :=
  monthOfDay (leapDays (YearFromTime t)) (DayWithinYear t).

Definition DateFromTime (t : Z) : Z :=
  DayWithinYear t
  - monthStart (leapDays (YearFromTime t)) (MonthFromTime t) + 1.

(** MakeDay for a month number in 0..11. *)
Definition MakeDay (year month date : Z) : Z :=
  DayFromYear year + monthStart (leapDays year) month + date - 1.

(** [getUTCFullYear], [getUTCMonth] and [getUTCDate] of a valid date. *)
Definition getUTCFullYear (t : Z) : Z := YearFromTime t.
Definition getUTCMonth (t : Z) : Z := MonthFromTime t.
Definition getUTCDate (t : Z) : Z := DateFromTime t.

(** [new Date(s + 'T00:00:00Z')] for the date string with year [y], month
    [m] and day [d]: the parser (V8's, which Node runs) refuses a
    month outside 1..12 and a day outside 1..31 (Invalid Date) and
    otherwise builds the time value with MakeDay, so that a day beyond
    the end of the month rolls over into the next one. *)
Definition ofCalendar (y m d : Z) : option Z :=
  if (1 <=? m) && (m <=? 12) && (1 <=? d) && (d <=? 31)
  then Some (msPerDay * MakeDay y (m - 1) d)
  else None.

Definition digitChar (d : Z) : ascii := ascii_of_N (Z.to_N (48 + d mod 10)).

Definition pad2 (n : Z) : string :=
  String (digitChar (n / 10)) (String (digitChar n) EmptyString).

Definition pad4 (n : Z) : string :=
  String (digitChar (n / 1000)) (String (digitChar (n / 100)) (pad2 n)).

Definition pad6 (n : Z) : string :=
  String (digitChar (n / 100000)) (String (digitChar (n / 10000)) (pad4 n)).

(** The year of [toISOString]: four digits for 0..9999, otherwise a sign
    and six digits. *)
Definition isoYear (y : Z) : string :=
  if (0 <=? y) && (y <=? 9999) then pad4 y
  else if y <? 0 then String "-" (pad6 (- y))
  else String "+" (pad6 y).

(** [toISOString().split('T')[0]] of a valid date. *)
Definition isoDatePart (t : Z) : string :=
  isoYear (YearFromTime t) ++ "-" ++ pad2 (MonthFromTime t + 1)
    ++ "-" ++ pad2 (DateFromTime t).

(** [ISO_DATE_REGEX.test(s)] for [/^\d{4}-\d{2}-\d{2}$/], and on a match
    the three numbers of [s.split('-').map(Number)]. *)
Definition isoDateParts (s : string) : option (Z * Z * Z) :=
  match s with
  | String y1 (String y2 (String y3 (String y4 (String s1
      (String m1 (String m2 (String s2
        (String d1 (String d2 EmptyString))))))))) =>
      if forallb JsString.isDigit [y1; y2; y3; y4; m1; m2; d1; d2]
         && Ascii.eqb s1 "-" && Ascii.eqb s2 "-"
      then
        let v := JsString.digitVal in
        Some (1000 * v y1 + 100 * v y2 + 10 * v y3 + v y4,
              10 * v m1 + v m2,
              10 * v d1 + v d2)
      else None
  | _ => None
  end.

(** The text of a calendar date from its eight digits. *)
Definition isoText (y1 y2 y3 y4 m1 m2 d1 d2 : ascii) : string :=
  String y1 (String y2 (String y3 (String y4 (String "-"
    (String m1 (String m2 (String "-" (String d1 (String d2 EmptyString))))))))).

(** The year, month and day of a date string come back from the date built
    for them: the string names a real calendar date. *)
Definition roundTrips (y m d : Z) : bool :=
  match ofCalendar y m d with
  | Some date =>
      (getUTCFullYear date =? y) && (getUTCMonth date + 1 =? m)
      && (getUTCDate date =? d)
  | None => false
  end.

(** TimeClip: a time value further than 8.64e15 milliseconds from the
    epoch is NaN. *)
Definition maxTime : Z := 8640000000000000.

Definition TimeClip (t : Z) : option Z :=
  if Z.abs t <=? maxTime then Some t else None.

Definition twoDigits (a b : ascii) : option Z :=
  if JsString.isDigit a && JsString.isDigit b
  then Some (10 * JsString.digitVal a + JsString.digitVal b)
  else None.

(** The year of a date of the Date Time String Format (ECMA-262,
    21.4.1.32) and what follows it: four digits, or a sign and six digits
    (an expanded year).  [None] when the string does not start with a year
    of the format; the year [-000000] is of the format and illegal:
    [Some (None, _)]. *)
Definition yearField (s : string) : option (option Z * string) :=
  let v := JsString.digitVal in
  match s with
  | String c r =>
      if Ascii.eqb c "+" || Ascii.eqb c "-" then
        match r with
        | String y1 (String y2 (String y3 (String y4 (String y5
            (String y6 r'))))) =>
            if forallb JsString.isDigit [y1; y2; y3; y4; y5; y6] then
              let y := 100000 * v y1 + 10000 * v y2 + 1000 * v y3
                       + 100 * v y4 + 10 * v y5 + v y6 in
              if Ascii.eqb c "+" then Some (Some y, r')
              else if y =? 0 then Some (None, r')
              else Some (Some (- y), r')
            else None
        | _ => None
        end
      else
        match s with
        | String y1 (String y2 (String y3 (String y4 r'))) =>
            if forallb JsString.isDigit [y1; y2; y3; y4]
            then Some (Some (1000 * v y1 + 100 * v y2 + 10 * v y3 + v y4), r')
            else None
        | _ => None
        end
  | EmptyString => None
  end.

(** What follows the year in a date of the format: nothing, [-MM] or
    [-MM-DD]; a month or a day that is left out is 1. *)
Definition monthAndDay (s : string) : option (Z * Z) :=
  match s with
  | EmptyString => Some (1, 1)
  | String s1 (String m1 (String m2 r)) =>
      if Ascii.eqb s1 "-" then
        match twoDigits m1 m2 with
        | Some m =>
            match r with
            | EmptyString => Some (m, 1)
            | String s2 (String d1 (String d2 EmptyString)) =>
                if Ascii.eqb s2 "-" then
                  match twoDigits d1 d2 with
                  | Some d => Some (m, d)
                  | None => None
                  end
                else None
            | _ => None
            end
        | None => None
        end
      else None
  | _ => None
  end.

(** [new Date(isoDate + 'T00:00:00Z')] when [isoDate] is a date of the
    Date Time String Format: the time value, or [None] for an Invalid Date
    (an illegal year, month or day, or a time value that TimeClip
    refuses).  The outer [None] says that [isoDate] is not a date of the
    format: what [Date.parse] makes of the string is then left to the
    host. *)
Definition parseUtcMidnight (s : string) : option (option Z) :=
  match yearField s with
  | Some (year, r) =>
      match monthAndDay r with
      | Some (m, d) =>
          Some (match year with
                | Some y =>
                    match ofCalendar y m d with
                    | Some t => TimeClip t
                    | None => None
                    end
                | None => None
                end)
      | None => None
      end
  | None => None
  end.

End JsDate.

(** ** Values

    What [unknown] input can be: parsed JSON, extended with [undefined] and
    native [Date] objects.  An object is the list of its own properties. *)
#[warnings="-register-all"]
Inductive value :=
| VUndefined
| VNull
| VBool (b : bool)
| VNum (x : JsNumber.number)
| VStr (s : string)
| VDate (t : option Z)
| VArr (items : list value)
| VObj (fields : list (string * value)).

Fixpoint lookup (fields : list (string * value)) (key : string) : value :=
  match fields with
  | [] => VUndefined
  | (k, v) :: rest => if String.eqb key k then v else lookup rest key
  end.

(** [obj[field]]; a [Date] has none of the properties the engine reads. *)
Definition getField (obj : value) (field : string) : value :=
  match obj with
  | VObj fields => lookup fields field
  | _ => VUndefined
  end.

(* ====================================================================== *)
(** * types.ts *)
(* ====================================================================== *)

Module Business.
Record t := mk {
  name : string;
  address : string;
  email : string;
  phone : option string;
  logoUrl : option string;
  taxId : option string }.
End Business.

Module Client.
Record t := mk {
  name : string;
  address : string;
  email : option string }.
End Client.

Module InvoiceHeader.
Record t := mk {
  invoiceNumber : string;
  issueDate : string;
  dueDate : option string;
  currency : string;
  taxRate : option JsNumber.number;
  notes : option string }.
End InvoiceHeader.

Module LineItem.
Record t := mk {
  description : string;
  quantity : JsNumber.number;
  unitPrice : JsNumber.number;
  unit : option string }.
End LineItem.

Module InvoiceDraft.
Record t := mk {
  business : Business.t;
  client : Client.t;
  header : InvoiceHeader.t;
  lineItems : list LineItem.t }.
End InvoiceDraft.

Module ComputedTotals.
Record t := mk {
  lineItemAmounts : list JsNumber.number;
  subtotal : JsNumber.number;
  taxAmount : JsNumber.number;
  total : JsNumber.number }.
End ComputedTotals.

(** [InvoiceComputed extends InvoiceDraft] with [computed]. *)
Module InvoiceComputed.
Record t := mk {
  business : Business.t;
  client : Client.t;
  header : InvoiceHeader.t;
  lineItems : list LineItem.t;
  computed : ComputedTotals.t }.
End InvoiceComputed.

Inductive IssueCode :=
| MISSING_REQUIRED
| INVALID_TYPE
| INVALID_FORMAT
| INVALID_VALUE
| INVALID_DATE
| DATE_ORDER
| EMPTY_ARRAY
| NEGATIVE_NUMBER
| UNKNOWN.

Module Issue.
Record t := mk {
  code : IssueCode;
  path : string;
  message : string;
  hint : option string }.
End Issue.

Inductive ValidationResult :=
| Valid (draft : InvoiceDraft.t)
| Invalid (issues : list Issue.t).

(* ====================================================================== *)
(** * validate.ts *)
(* ====================================================================== *)

(** The validators share one [issues] array and only ever [push] to it: a
    validator is a state transformer over the list of issues so far. *)
Definition V (A : Type) : Type := list Issue.t -> A * list Issue.t.

Definition ret {A} (a : A) : V A := fun issues => (a, issues).

Definition bind {A B} (m : V A) (k : A -> V B) : V B :=
  fun issues => let '(a, issues') := m issues in k a issues'.

(** [issues.push(i)] *)
Definition push (i : Issue.t) : V unit := fun issues => (tt, (issues ++ [i])%list).

Declare Scope validate_scope.
Delimit Scope validate_scope with V.
Notation "x <- m ;; k" := (bind m (fun x => k))
  (at level 61, m at next level, right associativity) : validate_scope.
Notation "m ;; k" := (bind m (fun _ => k))
  (at level 61, right associativity) : validate_scope.
Local Open Scope validate_scope.

(** The result of a validator and the issues it reports when it starts from
    an empty array. *)
Definition resultOf {A} (m : V A) : A := fst (m []).
Definition issuesOf {A} (m : V A) : list Issue.t := snd (m []).

(** ** Constants *)

Definition SUPPORTED_CURRENCIES : list string :=
  [ "EUR"; "USD"; "GBP"; "CHF"; "CAD"; "AUD"; "JPY"; "CNY"; "INR"; "BRL";
    "MXN"; "KRW"; "SEK"; "NOK"; "DKK"; "PLN"; "CZK"; "HUF"; "RON"; "BGN";
    "HRK"; "RUB"; "TRY"; "ZAR"; "NZD"; "SGD"; "HKD"; "THB"; "MYR"; "PHP" ].

(** [SUPPORTED_CURRENCIES.has(code)] *)
Definition isSupportedCurrency (code : string) : bool :=
  existsb (String.eqb code) SUPPORTED_CURRENCIES.

(** ** Issue builder *)

(** An empty hint is falsy and is left out. *)
Definition issue (code : IssueCode) (path message : string)
    (hint : option string) : Issue.t :=
  match hint with
  | Some h =>
      if JsString.isEmpty h then Issue.mk code path message None
      else Issue.mk code path message (Some h)
  | None => Issue.mk code path message None
  end.

(** ** Type guards *)

Definition isObject (v : value) : bool :=
  match v with
  | VObj _ | VDate _ => true
  | _ => false
  end.

Definition isString (v : value) : bool :=
  match v with VStr _ => true | _ => false end.

Definition isNumber (v : value) : bool :=
  match v with VNum x => negb (JsNumber.isNaN x) | _ => false end.

Definition isArray (v : value) : bool :=
  match v with VArr _ => true | _ => false end.

(** [value === undefined || value === null] *)
Definition isNullish (v : value) : bool :=
  match v with VUndefined | VNull => true | _ => false end.

(** [value === undefined || value === null || value === ''] *)
Definition isBlank (v : value) : bool :=
  match v with
  | VUndefined | VNull => true
  | VStr s => JsString.isEmpty s
  | _ => false
  end.

(** [!s] for [s : string | undefined]. *)
Definition falsy (s : option string) : bool :=
  match s with
  | None => true
  | Some s => JsString.isEmpty s
  end.

(** [...(s && { key: s })]: the property is set when [s] is truthy. *)
Definition whenTruthy (s : option string) : option string :=
  if falsy s then None else s.

(** ** Field validators *)

Definition validateRequiredString (obj : value) (field path : string)
    : V (option string) :=
  let value := getField obj field in
  if isNullish value then
    push (issue MISSING_REQUIRED path (field ++ " is required") None) ;;
    ret None
  else
    match value with
    | VStr s =>
        let trimmed := JsString.trim s in
        if JsString.isEmpty trimmed then
          push (issue MISSING_REQUIRED path (field ++ " cannot be empty") None) ;;
          ret None
        else ret (Some trimmed)
    | _ =>
        push (issue INVALID_TYPE path (field ++ " must be a string") None) ;;
        ret None
    end.

Definition validateOptionalString (obj : value) (field path : string)
    : V (option string) :=
  let value := getField obj field in
  if isBlank value then ret None
  else
    match value with
    | VStr s => ret (whenTruthy (Some (JsString.trim s)))
    | _ =>
        push (issue INVALID_TYPE path (field ++ " must be a string") None) ;;
        ret None
    end.

(** [options?: { allowNegative?: boolean; allowZero?: boolean }] *)
Record RequiredNumberOptions := {
  rn_allowNegative : option bool;
  rn_allowZero : option bool }.

Definition orDefault {A} (o : option A) (d : A) : A :=
  match o with Some a => a | None => d end.

Definition validateNumberValue (value : JsNumber.number) (field path : string)
    (options : option RequiredNumberOptions) : V (option JsNumber.number) :=
  let allowNegative :=
    orDefault (match options with Some o => rn_allowNegative o | None => None end)
      false in
  let allowZero :=
    orDefault (match options with Some o => rn_allowZero o | None => None end)
      true in
  if negb allowNegative && JsNumber.lt value PrimFloat.zero then
    push (issue NEGATIVE_NUMBER path (field ++ " cannot be negative")
            (Some "Use a positive number")) ;;
    ret None
  else if negb allowZero && JsNumber.strictEq value PrimFloat.zero then
    push (issue INVALID_VALUE path (field ++ " cannot be zero") None) ;;
    ret None
  else ret (Some value).

Definition validateRequiredNumber (obj : value) (field path : string)
    (options : option RequiredNumberOptions) : V (option JsNumber.number) :=
  let value := getField obj field in
  if isNullish value then
    push (issue MISSING_REQUIRED path (field ++ " is required") None) ;;
    ret None
  else
    let invalidType :=
      push (issue INVALID_TYPE path (field ++ " must be a number") None) ;;
      ret None in
    match value with
    | VNum x =>
        if JsNumber.isNaN x then invalidType
        else validateNumberValue x field path options
    | VStr s =>
        let parsed := JsNumber.parseFloat s in
        if negb (JsNumber.isNaN parsed)
        then validateNumberValue parsed field path options
        else invalidType
    | _ => invalidType
    end.

(** [options?: { allowNegative?: boolean; min?: number; max?: number }] *)
Record OptionalNumberOptions := {
  on_allowNegative : option bool;
  on_min : option JsNumber.number;
  on_max : option JsNumber.number }.

Definition validateOptionalNumber (obj : value) (field path : string)
    (options : option OptionalNumberOptions) : V (option JsNumber.number) :=
  let value := getField obj field in
  if isBlank value then ret None
  else
    let invalidType :=
      push (issue INVALID_TYPE path (field ++ " must be a number") None) ;;
      ret None in
    let check (num : JsNumber.number) : V (option JsNumber.number) :=
      let allowNegative :=
        orDefault
          (match options with Some o => on_allowNegative o | None => None end)
          false in
      let min := match options with Some o => on_min o | None => None end in
      let max := match options with Some o => on_max o | None => None end in
      (* [min !== undefined && num < min], [max !== undefined && num > max] *)
      let belowMin :=
        match min with
        | Some lo => if JsNumber.lt num lo then Some lo else None
        | None => None
        end in
      let aboveMax :=
        match max with
        | Some hi => if JsNumber.gt num hi then Some hi else None
        | None => None
        end in
      if negb allowNegative && JsNumber.lt num PrimFloat.zero then
        push (issue NEGATIVE_NUMBER path (field ++ " cannot be negative") None) ;;
        ret None
      else
        match belowMin with
        | Some lo =>
            push (issue INVALID_VALUE path
                    (field ++ " must be at least " ++ JsNumber.toString lo)
                    None) ;;
            ret None
        | None =>
            match aboveMax with
            | Some hi =>
                push (issue INVALID_VALUE path
                        (field ++ " must be at most " ++ JsNumber.toString hi)
                        None) ;;
                ret None
            | None => ret (Some num)
            end
        end in
    match value with
    | VNum x => if JsNumber.isNaN x then invalidType else check x
    | VStr s =>
        let parsed := JsNumber.parseFloat s in
        if JsNumber.isNaN parsed then invalidType else check parsed
    | _ => invalidType
    end.

Definition validateIsoDate (obj : value) (field path : string)
    (required : bool) : V (option string) :=
  let value := getField obj field in
  if isBlank value then
    if required then
      push (issue MISSING_REQUIRED path (field ++ " is required") None) ;;
      ret None
    else ret None
  else
    match value with
    | VDate t =>
        (* Handle Date objects *)
        match t with
        | None =>
            push (issue INVALID_DATE path (field ++ " is not a valid date") None) ;;
            ret None
        | Some t => ret (Some (JsDate.isoDatePart t))
        end
    | VStr s =>
        let trimmed := JsString.trim s in
        match JsDate.isoDateParts trimmed with
        | None =>
            push (issue INVALID_FORMAT path
                    (field ++ " must be in YYYY-MM-DD format")
                    (Some "Example: 2025-01-15")) ;;
            ret None
        | Some (year, month, day) =>
            (* Validate it's a real date *)
            match JsDate.ofCalendar year month day with
            | None =>
                push (issue INVALID_DATE path
                        (field ++ " is not a valid date") None) ;;
                ret None
            | Some date =>
                (* Check the date didn't roll over *)
                if negb (JsDate.getUTCFullYear date =? year)
                   || negb (JsDate.getUTCMonth date + 1 =? month)
                   || negb (JsDate.getUTCDate date =? day)
                then
                  push (issue INVALID_DATE path
                          (field ++ " is not a valid calendar date") None) ;;
                  ret None
                else ret (Some trimmed)
            end
        end
    | _ =>
        push (issue INVALID_TYPE path
                (field ++ " must be a date string (YYYY-MM-DD)") None) ;;
        ret None
    end.

Definition quote : string := String (ascii_of_nat 34) EmptyString.

Definition validateCurrency (obj : value) (field path : string)
    : V (option string) :=
  value <- validateRequiredString obj field path ;;
  match value with
  | None => ret None
  | Some v =>
      if JsString.isEmpty v then ret None
      else
        let upper := JsString.toUpperCase v in
        if negb (isSupportedCurrency upper) then
          push (issue INVALID_VALUE path
                  (field ++ " " ++ quote ++ v ++ quote
                     ++ " is not a recognized currency code")
                  (Some "Use ISO 4217 codes like EUR, USD, GBP")) ;;
          ret None
        else ret (Some upper)
  end.

(** ** Object validators *)

Definition validateBusiness (input : value) (basePath : string)
    : V (option Business.t) :=
  if negb (isObject input) then
    push (issue INVALID_TYPE basePath "business must be an object" None) ;;
    ret None
  else
    name <- validateRequiredString input "name" (basePath ++ ".name") ;;
    address <- validateRequiredString input "address" (basePath ++ ".address") ;;
    email <- validateRequiredString input "email" (basePath ++ ".email") ;;
    phone <- validateOptionalString input "phone" (basePath ++ ".phone") ;;
    logoUrl <- validateOptionalString input "logoUrl" (basePath ++ ".logoUrl") ;;
    taxId <- validateOptionalString input "taxId" (basePath ++ ".taxId") ;;
    match name, address, email with
    | Some name, Some address, Some email =>
        if JsString.isEmpty name || JsString.isEmpty address
           || JsString.isEmpty email
        then ret None
        else
          ret (Some (Business.mk name address email (whenTruthy phone)
                       (whenTruthy logoUrl) (whenTruthy taxId)))
    | _, _, _ => ret None
    end.

Definition validateClient (input : value) (basePath : string)
    : V (option Client.t) :=
  if negb (isObject input) then
    push (issue INVALID_TYPE basePath "client must be an object" None) ;;
    ret None
  else
    name <- validateRequiredString input "name" (basePath ++ ".name") ;;
    address <- validateRequiredString input "address" (basePath ++ ".address") ;;
    email <- validateOptionalString input "email" (basePath ++ ".email") ;;
    match name, address with
    | Some name, Some address =>
        if JsString.isEmpty name || JsString.isEmpty address then ret None
        else ret (Some (Client.mk name address (whenTruthy email)))
    | _, _ => ret None
    end.

Definition taxRateOptions : option OptionalNumberOptions :=
  Some {| on_allowNegative := Some false;
          on_min := Some PrimFloat.zero;
          on_max := Some PrimFloat.one |}.

Definition validateHeader (input : value) (basePath : string)
    : V (option InvoiceHeader.t) :=
  if negb (isObject input) then
    push (issue INVALID_TYPE basePath "header must be an object" None) ;;
    ret None
  else
    invoiceNumber <-
      validateRequiredString input "invoiceNumber" (basePath ++ ".invoiceNumber") ;;
    issueDate <- validateIsoDate input "issueDate" (basePath ++ ".issueDate") true ;;
    dueDate <- validateIsoDate input "dueDate" (basePath ++ ".dueDate") false ;;
    currency <- validateCurrency input "currency" (basePath ++ ".currency") ;;
    taxRate <-
      validateOptionalNumber input "taxRate" (basePath ++ ".taxRate")
        taxRateOptions ;;
    notes <- validateOptionalString input "notes" (basePath ++ ".notes") ;;
    (* Cross-field validation: dueDate must be >= issueDate *)
    (match issueDate, dueDate with
     | Some i, Some d =>
         if negb (JsString.isEmpty i) && negb (JsString.isEmpty d)
            && JsString.lt d i
         then
           push (issue DATE_ORDER (basePath ++ ".dueDate")
                   "Due date cannot be before issue date"
                   (Some "Set due date on or after the issue date"))
         else ret tt
     | _, _ => ret tt
     end) ;;
    match invoiceNumber, issueDate, currency with
    | Some invoiceNumber, Some issueDate, Some currency =>
        if JsString.isEmpty invoiceNumber || JsString.isEmpty issueDate
           || JsString.isEmpty currency
        then ret None
        else
          ret (Some (InvoiceHeader.mk invoiceNumber issueDate
                       (whenTruthy dueDate) currency taxRate (whenTruthy notes)))
    | _, _, _ => ret None
    end.

Definition quantityOptions : option RequiredNumberOptions :=
  Some {| rn_allowNegative := Some false; rn_allowZero := Some false |}.

Definition unitPriceOptions : option RequiredNumberOptions :=
  Some {| rn_allowNegative := Some false; rn_allowZero := None |}.

Definition validateLineItem (input : value) (basePath : string)
    : V (option LineItem.t) :=
  if negb (isObject input) then
    push (issue INVALID_TYPE basePath "line item must be an object" None) ;;
    ret None
  else
    description <-
      validateRequiredString input "description" (basePath ++ ".description") ;;
    quantity <-
      validateRequiredNumber input "quantity" (basePath ++ ".quantity")
        quantityOptions ;;
    unitPrice <-
      validateRequiredNumber input "unitPrice" (basePath ++ ".unitPrice")
        unitPriceOptions ;;
    unit <- validateOptionalString input "unit" (basePath ++ ".unit") ;;
    match description, quantity, unitPrice with
    | Some description, Some quantity, Some unitPrice =>
        if JsString.isEmpty description then ret None
        else
          ret (Some (LineItem.mk description quantity unitPrice
                       (whenTruthy unit)))
    | _, _, _ => ret None
    end.

(** The body of the [for] loop, from index [i] on: [rest] is what is left
    of [input], [items] and [hasError] are the loop's two variables. *)
Fixpoint validateLineItemsLoop (rest : list value) (basePath : string)
    (i : nat) (items : list LineItem.t) (hasError : bool)
    : V (list LineItem.t * bool) :=
  match rest with
  | [] => ret (items, hasError)
  | x :: rest' =>
      item <- validateLineItem x
                (basePath ++ "[" ++ JsString.ofNat i ++ "]") ;;
      match item with
      | Some it =>
          validateLineItemsLoop rest' basePath (S i) (items ++ [it])%list hasError
      | None => validateLineItemsLoop rest' basePath (S i) items true
      end
  end.

Definition validateLineItems (input : value) (basePath : string)
    : V (option (list LineItem.t)) :=
  match input with
  | VArr elements =>
      match elements with
      | [] =>
          push (issue EMPTY_ARRAY basePath "At least one line item is required"
                  (Some "Add at least one item to the invoice")) ;;
          ret None
      | _ =>
          r <- validateLineItemsLoop elements basePath 0 [] false ;;
          let '(items, hasError) := r in
          ret (if hasError then None else Some items)
      end
  | _ =>
      push (issue INVALID_TYPE basePath "lineItems must be an array" None) ;;
      ret None
  end.

(** ** Main validation entry point *)

(** The four group validators, in the order in which [validateDraft] calls
    them on its [issues] array. *)
Definition validateGroups (input : value)
    : V (option Business.t * option Client.t * option InvoiceHeader.t
         * option (list LineItem.t)) :=
  business <- validateBusiness (getField input "business") "business" ;;
  client <- validateClient (getField input "client") "client" ;;
  header <- validateHeader (getField input "header") "header" ;;
  lineItems <- validateLineItems (getField input "lineItems") "lineItems" ;;
  ret (business, client, header, lineItems).

Definition validateDraft (input : value) : ValidationResult :=
  if negb (isObject input) then
    Invalid [issue INVALID_TYPE "" "Input must be an object" None]
  else
    let '(business, client, header, lineItems, issues) :=
      validateGroups input [] in
    match issues, business, client, header, lineItems with
    | [], Some business, Some client, Some header, Some lineItems =>
        Valid (InvoiceDraft.mk business client header lineItems)
    | _, _, _, _, _ => Invalid issues
    end.

(* ====================================================================== *)
(** * compute.ts *)
(* ====================================================================== *)

Definition computeInvoice (draft : InvoiceDraft.t) : InvoiceComputed.t :=
  let lineItemAmounts :=
    map (fun item => PrimFloat.mul (LineItem.quantity item) (LineItem.unitPrice item))
      (InvoiceDraft.lineItems draft) in
  let subtotal :=
    fold_left (fun sum amount => PrimFloat.add sum amount) lineItemAmounts
      PrimFloat.zero in
  let taxRate :=
    orDefault (InvoiceHeader.taxRate (InvoiceDraft.header draft)) PrimFloat.zero in
  let taxAmount := PrimFloat.mul subtotal taxRate in
  let total := PrimFloat.add subtotal taxAmount in
  let computed := ComputedTotals.mk lineItemAmounts subtotal taxAmount total in
  InvoiceComputed.mk (InvoiceDraft.business draft) (InvoiceDraft.client draft)
    (InvoiceDraft.header draft) (InvoiceDraft.lineItems draft) computed.

(** [const { computed: _oldComputed, ...draft } = invoice] *)
Definition draftOf (invoice : InvoiceComputed.t) : InvoiceDraft.t :=
  InvoiceDraft.mk (InvoiceComputed.business invoice)
    (InvoiceComputed.client invoice) (InvoiceComputed.header invoice)
    (InvoiceComputed.lineItems invoice).

Definition recomputeInvoice (invoice : InvoiceComputed.t) : InvoiceComputed.t :=
  computeInvoice (draftOf invoice).

(** [lineItems] are read through [quantity] and [unitPrice] only;
    [taxRate] is [None] when the argument is left out. *)
Definition computeTotals (lineItems : list (JsNumber.number * JsNumber.number))
    (taxRate : option JsNumber.number) : ComputedTotals.t :=
  let taxRate := orDefault taxRate PrimFloat.zero in
  let lineItemAmounts :=
    map (fun item => PrimFloat.mul (fst item) (snd item)) lineItems in
  let subtotal :=
    fold_left (fun sum amount => PrimFloat.add sum amount) lineItemAmounts
      PrimFloat.zero in
  let taxAmount := PrimFloat.mul subtotal taxRate in
  let total := PrimFloat.add subtotal taxAmount in
  ComputedTotals.mk lineItemAmounts subtotal taxAmount total.

(* ====================================================================== *)
(** * format.ts *)
(* ====================================================================== *)

Module FormattedBusiness.
Record t := mk {
  name : string;
  address : string;
  email : string;
  phone : string;
  logoUrl : string;
  taxId : string }.
End FormattedBusiness.

Module FormattedClient.
Record t := mk {
  name : string;
  address : string;
  email : string }.
End FormattedClient.

Module FormattedHeader.
Record t := mk {
  invoiceNumber : string;
  issueDate : string;
  dueDate : string;
  currency : string;
  taxRateDisplay : string;
  notes : string }.
End FormattedHeader.

Module FormattedLineItem.
Record t := mk {
  description : string;
  quantity : string;
  unitPrice : string;
  amount : string;
  unit : string }.
End FormattedLineItem.

Module FormattedTotals.
Record t := mk {
  subtotal : string;
  taxAmount : string;
  total : string }.
End FormattedTotals.

Module FormattedInvoice.
Record t := mk {
  business : FormattedBusiness.t;
  client : FormattedClient.t;
  header : FormattedHeader.t;
  lineItems : list FormattedLineItem.t;
  totals : FormattedTotals.t }.
End FormattedInvoice.

(** ['short' | 'medium' | 'long'] *)
Module DateStyle.
Inductive t := short | medium | long.
End DateStyle.

(** ['symbol' | 'code' | 'name'] *)
Module CurrencyDisplay.
Inductive t := symbol | code | name.
End CurrencyDisplay.

Module FormatOptions.
Record t := mk {
  locale : option string;
  dateFormat : option DateStyle.t;
  currencyDisplay : option CurrencyDisplay.t }.

(** [{}] *)
Definition empty : t := mk None None None.
End FormatOptions.

Inductive ProcessResult :=
| Processed (invoice : FormattedInvoice.t) (computed : InvoiceComputed.t)
| Rejected (issues : list Issue.t).

Definition CURRENCY_LOCALE_MAP : list (string * string) :=
  [ ("EUR", "de-DE"); ("USD", "en-US"); ("GBP", "en-GB"); ("CHF", "de-CH");
    ("CAD", "en-CA"); ("AUD", "en-AU"); ("JPY", "ja-JP"); ("CNY", "zh-CN");
    ("INR", "en-IN"); ("BRL", "pt-BR"); ("MXN", "es-MX"); ("KRW", "ko-KR");
    ("SEK", "sv-SE"); ("NOK", "nb-NO"); ("DKK", "da-DK"); ("PLN", "pl-PL");
    ("CZK", "cs-CZ"); ("HUF", "hu-HU"); ("RON", "ro-RO"); ("BGN", "bg-BG");
    ("RUB", "ru-RU"); ("TRY", "tr-TR"); ("ZAR", "en-ZA"); ("NZD", "en-NZ");
    ("SGD", "en-SG"); ("HKD", "zh-HK"); ("THB", "th-TH"); ("MYR", "ms-MY");
    ("PHP", "en-PH") ].

Definition DEFAULT_LOCALE : string := "en-US".

Fixpoint localeOf (table : list (string * string)) (key : string)
    : option string :=
  match table with
  | [] => None
  | (k, v) :: rest => if String.eqb key k then Some v else localeOf rest key
  end.

Definition getLocaleForCurrency (currency : string) : string :=
  orDefault (localeOf CURRENCY_LOCALE_MAP (JsString.toUpperCase currency))
    DEFAULT_LOCALE.

(** [x ?? ''] *)
Definition orEmpty (s : option string) : string := orDefault s "".

Definition formatBusiness (business : Business.t) : FormattedBusiness.t :=
  FormattedBusiness.mk (Business.name business) (Business.address business)
    (Business.email business) (orEmpty (Business.phone business))
    (orEmpty (Business.logoUrl business)) (orEmpty (Business.taxId business)).

Definition formatClient (client : Client.t) : FormattedClient.t :=
  FormattedClient.mk (Client.name client) (Client.address client)
    (orEmpty (Client.email client)).

(** The [Intl] formatters belong to the host.  A formatter is modelled by
    its [format] method; its constructor throws a RangeError on a locale or
    a currency code that is not well formed, and [DateTimeFormat]'s [format]
    throws one on an Invalid Date: [None] stands for the exception. *)
Section Intl.

(** [new Intl.NumberFormat(locale, { style: 'currency', currency,
    currencyDisplay, minimumFractionDigits: 2, maximumFractionDigits: 2 })] *)
Variable NumberFormat_currency :
  string -> string -> CurrencyDisplay.t -> option (JsNumber.number -> string).

(** [new Intl.NumberFormat(locale, { minimumFractionDigits: 0,
    maximumFractionDigits: 2 })] *)
Variable NumberFormat_decimal : string -> option (JsNumber.number -> string).

(** [new Intl.DateTimeFormat(locale, { year: 'numeric', month, day:
    'numeric' })], with [month] 'numeric', 'short' or 'long' for the
    styles [short], [medium] and [long]; applied to a valid time value. *)
Variable DateTimeFormat : string -> DateStyle.t -> option (Z -> string).

(** [Date.parse] on a string that is not of the Date Time String Format:
    ECMA-262 leaves it to the host, which may fall back to formats of its
    own; [None] is NaN. *)
Variable Date_parse_fallback : string -> option Z.

Definition createCurrencyFormatter (currency locale : string)
    (display : option CurrencyDisplay.t) : option (JsNumber.number -> string) :=
  NumberFormat_currency locale currency (orDefault display CurrencyDisplay.symbol).

Definition createNumberFormatter (locale : string)
    : option (JsNumber.number -> string) :=
  NumberFormat_decimal locale.

Definition createDateFormatter (locale : string) (style : option DateStyle.t)
    : option (Z -> string) :=
  DateTimeFormat locale (orDefault style DateStyle.medium).

(** The time value of [new Date(isoDate + 'T00:00:00Z')], [None] for an
    Invalid Date. *)
Definition parseIsoDate (isoDate : string) : option Z :=
  match JsDate.parseUtcMidnight isoDate with
  | Some date => date
  | None => Date_parse_fallback (isoDate ++ "T00:00:00Z")
  end.

Definition formatDate (isoDate : string) (formatter : Z -> string)
    : option string :=
  match parseIsoDate isoDate with
  | Some date => Some (formatter date)
  | None => None
  end.

Definition formatHeader (header : InvoiceHeader.t)
    (dateFormatter : Z -> string) : option FormattedHeader.t :=
  let taxRateDisplay :=
    match InvoiceHeader.taxRate header with
    | Some taxRate =>
        JsNumber.toFixed0 (PrimFloat.mul taxRate 100%float)
    | None => ""
    end in
  match formatDate (InvoiceHeader.issueDate header) dateFormatter with
  | None => None
  | Some issueDate =>
      let dueDate :=
        match InvoiceHeader.dueDate header with
        | Some d =>
            if JsString.isEmpty d then Some ""
            else formatDate d dateFormatter
        | None => Some ""
        end in
      match dueDate with
      | None => None
      | Some dueDate =>
          Some (FormattedHeader.mk (InvoiceHeader.invoiceNumber header)
                  issueDate dueDate (InvoiceHeader.currency header)
                  taxRateDisplay (orEmpty (InvoiceHeader.notes header)))
      end
  end.

(** [lineItems.map((item, index) => ...)], from index [index] on. *)
Fixpoint formatLineItemsFrom (index : nat) (lineItems : list LineItem.t)
    (amounts : list JsNumber.number)
    (currencyFormatter numberFormatter : JsNumber.number -> string)
    : list FormattedLineItem.t :=
  match lineItems with
  | [] => []
  | item :: rest =>
      FormattedLineItem.mk (LineItem.description item)
        (numberFormatter (LineItem.quantity item))
        (currencyFormatter (LineItem.unitPrice item))
        (currencyFormatter (nth index amounts PrimFloat.zero))
        (orEmpty (LineItem.unit item))
      :: formatLineItemsFrom (S index) rest amounts currencyFormatter
           numberFormatter
  end.

Definition formatLineItems (lineItems : list LineItem.t)
    (amounts : list JsNumber.number)
    (currencyFormatter numberFormatter : JsNumber.number -> string)
    : list FormattedLineItem.t :=
  formatLineItemsFrom 0 lineItems amounts currencyFormatter numberFormatter.

Definition formatTotals (computed : ComputedTotals.t)
    (currencyFormatter : JsNumber.number -> string) : FormattedTotals.t :=
  FormattedTotals.mk (currencyFormatter (ComputedTotals.subtotal computed))
    (currencyFormatter (ComputedTotals.taxAmount computed))
    (currencyFormatter (ComputedTotals.total computed)).

(** [options] is [None] when the argument is left out: the default [{}]. *)
Definition formatInvoice (invoice : InvoiceComputed.t)
    (options : option FormatOptions.t) : option FormattedInvoice.t :=
  let options := orDefault options FormatOptions.empty in
  let currency := InvoiceHeader.currency (InvoiceComputed.header invoice) in
  let locale :=
    orDefault (FormatOptions.locale options) (getLocaleForCurrency currency) in
  let dateStyle := orDefault (FormatOptions.dateFormat options) DateStyle.medium in
  let currencyDisplay :=
    orDefault (FormatOptions.currencyDisplay options) CurrencyDisplay.symbol in
  match createCurrencyFormatter currency locale (Some currencyDisplay),
        createNumberFormatter locale,
        createDateFormatter locale (Some dateStyle) with
  | Some currencyFormatter, Some numberFormatter, Some dateFormatter =>
      match formatHeader (InvoiceComputed.header invoice) dateFormatter with
      | Some header =>
          Some (FormattedInvoice.mk
                  (formatBusiness (InvoiceComputed.business invoice))
                  (formatClient (InvoiceComputed.client invoice))
                  header
                  (formatLineItems (InvoiceComputed.lineItems invoice)
                     (ComputedTotals.lineItemAmounts
                        (InvoiceComputed.computed invoice))
                     currencyFormatter numberFormatter)
                  (formatTotals (InvoiceComputed.computed invoice)
                     currencyFormatter))
      | None => None
      end
  | _, _, _ => None
  end.

Definition getLocale (currency : string) : string :=
  getLocaleForCurrency currency.

(** [locale] is [None] when the argument is left out or nullish. *)
Definition formatCurrency (amount : JsNumber.number) (currency : string)
    (locale : option string) : option string :=
  let resolvedLocale := orDefault locale (getLocaleForCurrency currency) in
  match createCurrencyFormatter currency resolvedLocale None with
  | Some formatter => Some (formatter amount)
  | None => None
  end.

(** [locale] and [style] are [None] when the argument is left out: the
    defaults [DEFAULT_LOCALE] and ['medium']. *)
Definition formatIsoDate (isoDate : string) (locale : option string)
    (style : option DateStyle.t) : option string :=
  match createDateFormatter (orDefault locale DEFAULT_LOCALE)
          (Some (orDefault style DateStyle.medium)) with
  | Some formatter => formatDate isoDate formatter
  | None => None
  end.

(* ==================================================================== *)
(** * index.ts *)
(* ==================================================================== *)

Definition processInvoice (input : value) (options : option FormatOptions.t)
    : option ProcessResult :=
  (* Step 1: Validate *)
  match validateDraft input with
  | Invalid issues => Some (Rejected issues)
  | Valid draft =>
      (* Step 2: Compute *)
      let computed := computeInvoice draft in
      (* Step 3: Format *)
      match formatInvoice computed options with
      | Some invoice => Some (Processed invoice computed)
      | None => None
      end
  end.

Definition processDraft (draft : InvoiceDraft.t)
    (options : option FormatOptions.t)
    : option (InvoiceComputed.t * FormattedInvoice.t) :=
  let computed := computeInvoice draft in
  match formatInvoice computed options with
  | Some invoice => Some (computed, invoice)
  | None => None
  end.

End Intl.

(* ====================================================================== *)
(** * More of the runtime: character classes, [parseInt], inherited
      properties *)
(* ====================================================================== *)

(** Character classes and the pieces of the regular expressions that the
    command line and the Sheets adapter use.  None of these expressions
    has a flag other than [g], so they work code unit by code unit. *)
Module JsRegExp.

(** [\d] *)
Definition isDigit (c : ascii) : bool := JsString.isDigit c.

(** [[A-Z]] *)
Definition isUpper (c : ascii) : bool :=
  let n := JsString.code c in N.leb 65 n && N.leb n 90.

(** [[a-z]] *)
Definition isLower (c : ascii) : bool :=
  let n := JsString.code c in N.leb 97 n && N.leb n 122.

(** [\w]: a letter, a digit or the underscore. *)
Definition isWord (c : ascii) : bool :=
  isUpper c || isLower c || isDigit c || Ascii.eqb c "_".

(** Every code unit of [s] is in the class [p]. *)
Fixpoint all (p : ascii -> bool) (s : string) : bool :=
  match s with
  | EmptyString => true
  | String c r => p c && all p r
  end.

(** The longest prefix of [s] in the class [p], and the rest: what a
    greedy [p+] or [p*] takes when what follows it in the expression
    cannot start with a code unit of [p]. *)
Fixpoint span (p : ascii -> bool) (s : string) : string * string :=
  match s with
  | EmptyString => (EmptyString, EmptyString)
  | String c r =>
      if p c then let '(taken, rest) := span p r in (String c taken, rest)
      else (EmptyString, s)
  end.

(** What is left of [s] after the literal [prefix], if [s] starts with
    it. *)
Fixpoint after (prefix s : string) : option string :=
  match prefix with
  | EmptyString => Some s
  | String c prefix' =>
      match s with
      | String d s' => if Ascii.eqb c d then after prefix' s' else None
      | EmptyString => None
      end
  end.

(** [s.replace(/[^...]/g, r)] for a class [p] of single code units: every
    code unit outside [p] becomes [r]. *)
Fixpoint replaceOutside (p : ascii -> bool) (r : ascii) (s : string) : string :=
  match s with
  | EmptyString => EmptyString
  | String c s' => String (if p c then c else r) (replaceOutside p r s')
  end.

(** [s.replace(/[...]/g, '')] for a class [p] of single code units: the
    code units of [p] are taken out. *)
Fixpoint remove (p : ascii -> bool) (s : string) : string :=
  match s with
  | EmptyString => EmptyString
  | String c r => if p c then remove p r else String c (remove p r)
  end.

End JsRegExp.

(** [s.slice(0, n)] *)
Fixpoint sliceTo (n : nat) (s : string) : string :=
  match n, s with
  | S n', String c r => String c (sliceTo n' r)
  | _, _ => EmptyString
  end.

(** [parseInt(s, 10)]: leading blanks, a sign and the longest run of
    decimal digits; NaN when there is no digit; the integer read is
    rounded to the nearest Number. *)
Definition parseInt10 (s : string) : JsNumber.number :=
  let t := JsString.trimStart s in
  let '(neg, u) :=
    match t with
    | String "-" r => (true, r)
    | String "+" r => (false, r)
    | _ => (false, t)
    end in
  let '(v, n, _) := JsNumber.readDigits u 0 0 in
  if n =? 0 then PrimFloat.nan
  else if neg then PrimFloat.opp (JsNumber.ofDecimal v 0)
  else JsNumber.ofDecimal v 0.

(** The own properties of [Object.prototype]: what [table[key]] finds in
    an object literal that has no own property [key].  Each of them is a
    function or an object: truthy, not [undefined], and NaN as a number. *)
Definition OBJECT_PROTOTYPE : list string :=
  [ "constructor"; "__defineGetter__"; "__defineSetter__"; "hasOwnProperty";
    "__lookupGetter__"; "__lookupSetter__"; "isPrototypeOf";
    "propertyIsEnumerable"; "toString"; "valueOf"; "__proto__";
    "toLocaleString" ].

(** The outcome of [table[key]] on an object literal. *)
Inductive property (A : Type) :=
| Own (a : A)
| Inherited
| Missing.
Arguments Own {A} a.
Arguments Inherited {A}.
Arguments Missing {A}.

Fixpoint ownProperty {A} (table : list (string * A)) (key : string) : option A :=
  match table with
  | [] => None
  | (k, v) :: rest => if String.eqb key k then Some v else ownProperty rest key
  end.

Definition getProperty {A} (table : list (string * A)) (key : string)
    : property A :=
  match ownProperty table key with
  | Some v => Own v
  | None =>
      if existsb (String.eqb key) OBJECT_PROTOTYPE then Inherited else Missing
  end.

(** The first entry of [Object.entries(table)] whose value passes [p]: its
    key. *)
Fixpoint firstEntry {A} (p : A -> bool) (table : list (string * A))
    : option string :=
  match table with
  | [] => None
  | (k, v) :: rest => if p v then Some k else firstEntry p rest
  end.

(* ====================================================================== *)
(** * google-addon: adapters/sheets/cellMap.ts and main.ts *)
(* ====================================================================== *)

Module CellMap.

Definition METADATA_CELLS : list (string * string) :=
  [ ("header.invoiceNumber", "B3");
    ("header.issueDate", "B4");
    ("header.dueDate", "B5");
    ("header.currency", "B6");
    ("header.taxRate", "B7");
    ("client.name", "B10");
    ("client.address", "B11");
    ("client.email", "B12") ].

(** [LINE_ITEMS_CONFIG]: [headerRow], [firstDataRow] and [columns]. *)
Definition headerRow : JsNumber.number := 15%float.
Definition firstDataRow : JsNumber.number := 16%float.
Definition columns : list (string * Z) :=
  [ ("description", 0); ("quantity", 1); ("unitPrice", 2); ("amount", 3) ].

(** The loop of [columnToLetter]: [temp] and [letter] are its two
    variables, [fuel] bounds the number of turns.  The column index is a
    safe integer (below 2^53 in absolute value), as every index of
    [columns] is.  On these integers [%], [Math.floor(temp / 26)] and
    [- 1] are the operations of [Z]: the remainder and the difference are
    exact, and the quotient is below 2^49, where two neighbouring doubles
    are at most 2^-4 apart, so that rounding it never reaches the next
    integer (the fraction is at most 25/26).  From 2^53 on the code
    computes with rounded doubles and is not described by this
    definition. *)
Fixpoint columnLetters (fuel : nat) (temp : Z) (letter : string) : string :=
  match fuel with
  | O => letter
  | S fuel' =>
      if 0 <=? temp then
        columnLetters fuel' (temp / 26 - 1)
          (String (ascii_of_N (Z.to_N (temp mod 26 + 65))) letter)
      else letter
  end.

(** [columnToLetter(col)]; the loop ends within [log2 col + 2] turns
    (see [columnToLetter_loop]). *)
Definition columnToLetter (col : Z) : string :=
  columnLetters (Z.to_nat (Z.log2 col) + 2) col "".

(** [path.match(/^lineItems\[(\d+)\]\.(\w+)$/)]: the two groups. *)
Definition matchLineItemPath (path : string) : option (string * string) :=
  match JsRegExp.after "lineItems[" path with
  | Some r =>
      let '(digits, r1) := JsRegExp.span JsRegExp.isDigit r in
      if JsString.isEmpty digits then None
      else
        match JsRegExp.after "]." r1 with
        | Some field =>
            if negb (JsString.isEmpty field) && JsRegExp.all JsRegExp.isWord field
            then Some (digits, field)
            else None
        | None => None
        end
  | None => None
  end.

(** [cell.match(/^([A-Z]+)(\d+)$/)]: the two groups. *)
Definition matchCell (cell : string) : option (string * string) :=
  let '(col, digits) := JsRegExp.span JsRegExp.isUpper cell in
  if negb (JsString.isEmpty col) && negb (JsString.isEmpty digits)
     && JsRegExp.all JsRegExp.isDigit digits
  then Some (col, digits)
  else None.

(** What [pathToCell] returns: a string, or, for a path that names a
    property of [Object.prototype], the value of that property. *)
Inductive cell :=
| Text (s : string)
| Foreign (property : string).

Definition pathToCell (path : string) : cell :=
  (* Check for line item pattern: lineItems[N].field *)
  let lineItem :=
    match matchLineItemPath path with
    | Some (digits, field) =>
        let index := parseInt10 digits in
        let row := PrimFloat.add firstDataRow index in
        match getProperty columns field with
        | Own colIndex => Text (columnToLetter colIndex ++ JsNumber.toString row)
        | Inherited =>
            (* [columnToLetter] of what is not a number: no turn of the loop *)
            Text ("" ++ JsNumber.toString row)
        | Missing => Text path
        end
    | None => Text path
    end in
  (* Check metadata cells first *)
  match getProperty METADATA_CELLS path with
  | Own ref => if JsString.isEmpty ref then lineItem else Text ref
  | Inherited => Foreign path
  | Missing => lineItem
  end.

Definition cellToPath (cell : string) : option string :=
  (* Check metadata cells *)
  match firstEntry (fun ref => String.eqb ref cell) METADATA_CELLS with
  | Some path => Some path
  | None =>
      (* Check for line item cells *)
      match matchCell cell with
      | Some (col, digits) =>
          let row := parseInt10 digits in
          if PrimFloat.leb firstDataRow row then
            let index := PrimFloat.sub row firstDataRow in
            match firstEntry
                    (fun colIndex => String.eqb (columnToLetter colIndex) col)
                    columns with
            | Some field =>
                Some ("lineItems[" ++ JsNumber.toString index ++ "]." ++ field)
            | None => None
            end
          else None
      | None => None
      end
  end.

(** main.ts: [issues.map(issue => ({ cell: pathToCell(issue.path) ||
    issue.path, message: issue.message }))] *)
Definition mapIssuesToCells (issues : list Issue.t) : list (cell * string) :=
  map (fun issue =>
         (match pathToCell (Issue.path issue) with
          | Text s => if JsString.isEmpty s then Text (Issue.path issue) else Text s
          | Foreign p => Foreign p
          end,
          Issue.message issue))
    issues.

End CellMap.

(* ====================================================================== *)
(** * cli-demo: cli.ts *)
(* ====================================================================== *)

Module Cli.

Record CliArgs := mk {
  input : string;
  out : string;
  print : bool;
  help : bool }.

Definition defaults : CliArgs := mk "" "./out" false false.

(** The [for] loop of [parseArgs] over what is left of [args]: a flag that
    takes a value skips it ([i++]), and [next ?? ...] stands in when the
    flag is the last argument. *)
Fixpoint parseArgsLoop (args : list string) (result : CliArgs) : CliArgs :=
  match args with
  | [] => result
  | arg :: rest =>
      if String.eqb arg "--input" || String.eqb arg "-i" then
        match rest with
        | next :: rest' =>
            parseArgsLoop rest' (mk next (out result) (print result) (help result))
        | [] => mk "" (out result) (print result) (help result)
        end
      else if String.eqb arg "--out" || String.eqb arg "-o" then
        match rest with
        | next :: rest' =>
            parseArgsLoop rest' (mk (input result) next (print result) (help result))
        | [] => mk (input result) "./out" (print result) (help result)
        end
      else if String.eqb arg "--print" || String.eqb arg "-p" then
        parseArgsLoop rest (mk (input result) (out result) true (help result))
      else if String.eqb arg "--help" || String.eqb arg "-h" then
        parseArgsLoop rest (mk (input result) (out result) (print result) true)
      else parseArgsLoop rest result
  end.

Definition parseArgs (args : list string) : CliArgs :=
  parseArgsLoop args defaults.

(** The class [[a-zA-Z0-9-_]]: the letters, the digits, the hyphen and
    the underscore. *)
Definition isFilenameChar (c : ascii) : bool :=
  JsRegExp.isLower c || JsRegExp.isUpper c || JsRegExp.isDigit c
  || Ascii.eqb c "-" || Ascii.eqb c "_".

(** [s.replace(/[^a-zA-Z0-9-_]/g, '_')] *)
Definition sanitize (s : string) : string :=
  JsRegExp.replaceOutside isFilenameChar "_" s.

Definition generateOutputFilename (invoice : FormattedInvoice.t) : string :=
  (* Sanitize invoice number for filename *)
  let sanitizedNumber :=
    sanitize (FormattedHeader.invoiceNumber (FormattedInvoice.header invoice)) in
  (* Sanitize client name *)
  let sanitizedClient :=
    sliceTo 30 (sanitize (FormattedClient.name (FormattedInvoice.client invoice))) in
  "Invoice_" ++ sanitizedNumber ++ "_" ++ sanitizedClient ++ ".pdf".

End Cli.

(* ====================================================================== *)
(** * cli-demo: render/htmlTemplate.ts *)
(* ====================================================================== *)

Module HtmlTemplate.

Definition doubleQuote : ascii := ascii_of_nat 34.

(** [escapeMap[char] ?? char] *)
Definition escapeChar (c : ascii) : string :=
  if Ascii.eqb c "&" then "&amp;"
  else if Ascii.eqb c "<" then "&lt;"
  else if Ascii.eqb c ">" then "&gt;"
  else if Ascii.eqb c doubleQuote then "&quot;"
  else if Ascii.eqb c "'" then "&#39;"
  else String c EmptyString.

(** [text.replace(..., char => escapeMap[char] ?? char)], the pattern
    being the class of the ampersand, the two angle brackets and the two
    quotes, with the flag [g]. *)
Fixpoint escapeHtml (text : string) : string :=
  match text with
  | EmptyString => EmptyString
  | String c r => escapeChar c ++ escapeHtml r
  end.

End HtmlTemplate.

(* ====================================================================== *)
(** * google-addon: adapters/sheets/parseSheet.ts *)
(* ====================================================================== *)

Module SheetParser.

Section Sheet.

(** [String(value)] for a value that is not a primitive: what a [Date]
    writes depends on the host and its time zone. *)
Variable objectText : value -> string.

(** The active sheet: [sheet.getRange(cellRef).getValue()] for each cell
    reference. *)
Variable sheet : string -> value.

(** [String(value)] *)
Definition text (v : value) : string :=
  match v with
  | VUndefined => "undefined"
  | VNull => "null"
  | VBool true => "true"
  | VBool false => "false"
  | VNum x => JsNumber.toString x
  | VStr s => s
  | VDate _ | VArr _ | VObj _ => objectText v
  end.

Definition getCellValue (cellRef : string) : value := sheet cellRef.

(** [value === '' || value === null || value === undefined] *)
Definition isEmpty (v : value) : bool :=
  match v with
  | VStr s => JsString.isEmpty s
  | VNull | VUndefined => true
  | _ => false
  end.

Definition formatCellValue (v : value) : string :=
  if isEmpty v then "" else JsString.trim (text v).

(** [/[,\s]/]: a comma or white space. *)
Definition isSeparator (c : ascii) : bool :=
  Ascii.eqb c "," || JsString.isWhiteSpace c.

Definition parseNumber (v : value) : option JsNumber.number :=
  if isEmpty v then None
  else
    match v with
    | VNum x => Some x
    | _ =>
        let str := JsRegExp.remove isSeparator (JsString.trim (text v)) in
        let num := JsNumber.parseFloat str in
        if JsNumber.isNaN num then None else Some num
    end.

(** A property of type [number | undefined]. *)
Definition numberOrUndefined (x : option JsNumber.number) : value :=
  match x with
  | Some x => VNum x
  | None => VUndefined
  end.

(** One turn of the loop of [readLineItems] at row [row]: the item to
    push, or [None] when the row is fully empty and the loop breaks.  The
    row is a small integer, written in a cell reference by its decimal
    digits. *)
Definition readRow (row : nat) : option value :=
  let description := getCellValue ("A" ++ JsString.ofNat row) in
  let quantity := getCellValue ("B" ++ JsString.ofNat row) in
  let unitPrice := getCellValue ("C" ++ JsString.ofNat row) in
  if isEmpty description && isEmpty quantity && isEmpty unitPrice then None
  else
    Some (VObj [ ("description", VStr (formatCellValue description));
                 ("quantity", numberOrUndefined (parseNumber quantity));
                 ("unitPrice", numberOrUndefined (parseNumber unitPrice)) ]).

(** The [while] loop from row [row] on, with [turns] rows left before
    [firstDataRow + maxRows]. *)
Fixpoint readRows (turns : nat) (row : nat) : list value :=
  match turns with
  | O => []
  | S turns' =>
      match readRow row with
      | None => []
      | Some item => item :: readRows turns' (S row)
      end
  end.

Definition maxRows : nat := 100.

(** [firstDataRow] is 16. *)
Definition readLineItems : list value := readRows maxRows 16.

End Sheet.

End SheetParser.

(* ====================================================================== *)
(** * Every field checked on its own *)
(* ====================================================================== *)

(** The reading of section 4.1 of the specification that the validator is
    compared with: every rule is applied to its field on its own, starting
    from no issue at all, each element of [lineItems] under its own indexed
    path, and a check never depends on what another check reported.  A
    report is the list of issues of one such check. *)
Module Exhaustive.

Definition businessReports (input : value) (basePath : string)
    : list (list Issue.t) :=
  if isObject input then
    [ issuesOf (validateRequiredString input "name" (basePath ++ ".name"));
      issuesOf (validateRequiredString input "address" (basePath ++ ".address"));
      issuesOf (validateRequiredString input "email" (basePath ++ ".email"));
      issuesOf (validateOptionalString input "phone" (basePath ++ ".phone"));
      issuesOf (validateOptionalString input "logoUrl" (basePath ++ ".logoUrl"));
      issuesOf (validateOptionalString input "taxId" (basePath ++ ".taxId")) ]
  else [ [ issue INVALID_TYPE basePath "business must be an object" None ] ].

Definition clientReports (input : value) (basePath : string)
    : list (list Issue.t) :=
  if isObject input then
    [ issuesOf (validateRequiredString input "name" (basePath ++ ".name"));
      issuesOf (validateRequiredString input "address" (basePath ++ ".address"));
      issuesOf (validateOptionalString input "email" (basePath ++ ".email")) ]
  else [ [ issue INVALID_TYPE basePath "client must be an object" None ] ].

(** The cross-field rule, on the two dates as each validates alone. *)
Definition dateOrderReport (input : value) (basePath : string)
    : list Issue.t :=
  match resultOf (validateIsoDate input "issueDate" (basePath ++ ".issueDate") true),
        resultOf (validateIsoDate input "dueDate" (basePath ++ ".dueDate") false)
  with
  | Some issueDate, Some dueDate =>
      if JsString.lt dueDate issueDate then
        [ issue DATE_ORDER (basePath ++ ".dueDate")
            "Due date cannot be before issue date"
            (Some "Set due date on or after the issue date") ]
      else []
  | _, _ => []
  end.

Definition headerReports (input : value) (basePath : string)
    : list (list Issue.t) :=
  if isObject input then
    [ issuesOf (validateRequiredString input "invoiceNumber"
                  (basePath ++ ".invoiceNumber"));
      issuesOf (validateIsoDate input "issueDate" (basePath ++ ".issueDate") true);
      issuesOf (validateIsoDate input "dueDate" (basePath ++ ".dueDate") false);
      issuesOf (validateCurrency input "currency" (basePath ++ ".currency"));
      issuesOf (validateOptionalNumber input "taxRate" (basePath ++ ".taxRate")
                  taxRateOptions);
      issuesOf (validateOptionalString input "notes" (basePath ++ ".notes"));
      dateOrderReport input basePath ]
  else [ [ issue INVALID_TYPE basePath "header must be an object" None ] ].

Definition lineItemReports (input : value) (basePath : string)
    : list (list Issue.t) :=
  if isObject input then
    [ issuesOf (validateRequiredString input "description"
                  (basePath ++ ".description"));
      issuesOf (validateRequiredNumber input "quantity" (basePath ++ ".quantity")
                  quantityOptions);
      issuesOf (validateRequiredNumber input "unitPrice"
                  (basePath ++ ".unitPrice") unitPriceOptions);
      issuesOf (validateOptionalString input "unit" (basePath ++ ".unit")) ]
  else [ [ issue INVALID_TYPE basePath "line item must be an object" None ] ].

(** The elements of the array from index [i] on. *)
Fixpoint elementReports (elements : list value) (basePath : string) (i : nat)
    : list (list Issue.t) :=
  match elements with
  | [] => []
  | x :: rest =>
      (lineItemReports x (basePath ++ "[" ++ JsString.ofNat i ++ "]")
       ++ elementReports rest basePath (S i))%list
  end.

Definition lineItemsReports (input : value) (basePath : string)
    : list (list Issue.t) :=
  match input with
  | VArr [] =>
      [ [ issue EMPTY_ARRAY basePath "At least one line item is required"
            (Some "Add at least one item to the invoice") ] ]
  | VArr elements => elementReports elements basePath 0
  | _ => [ [ issue INVALID_TYPE basePath "lineItems must be an array" None ] ]
  end.

(** All the checks of an input object, in the order of the schema. *)
Definition fieldReports (input : value) : list (list Issue.t) :=
  (businessReports (getField input "business") "business"
   ++ clientReports (getField input "client") "client"
   ++ headerReports (getField input "header") "header"
   ++ lineItemsReports (getField input "lineItems") "lineItems")%list.

End Exhaustive.

(* ====================================================================== *)
(** * A draft as an input *)
(* ====================================================================== *)

(** The draft seen as a value again: the object [validateDraft] returned,
    or what [JSON.parse(JSON.stringify(draft))] gives.  An optional field
    that is absent is a property that is not there. *)
Definition optionalProperty (key : string) (v : option value)
    : list (string * value) :=
  match v with
  | Some x => [ (key, x) ]
  | None => []
  end.

Definition businessValue (business : Business.t) : value :=
  VObj ([ ("name", VStr (Business.name business));
          ("address", VStr (Business.address business));
          ("email", VStr (Business.email business)) ]
        ++ optionalProperty "phone" (option_map VStr (Business.phone business))
        ++ optionalProperty "logoUrl" (option_map VStr (Business.logoUrl business))
        ++ optionalProperty "taxId" (option_map VStr (Business.taxId business))).

Definition clientValue (client : Client.t) : value :=
  VObj ([ ("name", VStr (Client.name client));
          ("address", VStr (Client.address client)) ]
        ++ optionalProperty "email" (option_map VStr (Client.email client))).

Definition headerValue (header : InvoiceHeader.t) : value :=
  VObj ([ ("invoiceNumber", VStr (InvoiceHeader.invoiceNumber header));
          ("issueDate", VStr (InvoiceHeader.issueDate header));
          ("currency", VStr (InvoiceHeader.currency header)) ]
        ++ optionalProperty "dueDate"
             (option_map VStr (InvoiceHeader.dueDate header))
        ++ optionalProperty "taxRate"
             (option_map VNum (InvoiceHeader.taxRate header))
        ++ optionalProperty "notes"
             (option_map VStr (InvoiceHeader.notes header))).

Definition lineItemValue (item : LineItem.t) : value :=
  VObj ([ ("description", VStr (LineItem.description item));
          ("quantity", VNum (LineItem.quantity item));
          ("unitPrice", VNum (LineItem.unitPrice item)) ]
        ++ optionalProperty "unit" (option_map VStr (LineItem.unit item))).

Definition draftValue (draft : InvoiceDraft.t) : value :=
  VObj [ ("business", businessValue (InvoiceDraft.business draft));
         ("client", clientValue (InvoiceDraft.client draft));
         ("header", headerValue (InvoiceDraft.header draft));
         ("lineItems", VArr (map lineItemValue (InvoiceDraft.lineItems draft))) ].

(** A native date whose UTC year is written with four digits (0 to 9999);
    every other value passes. *)
Definition fourDigitYear (v : value) : bool :=
  match v with
  | VDate (Some t) =>
      (0 <=? JsDate.YearFromTime t) && (JsDate.YearFromTime t <=? 9999)
  | _ => true
  end.

(** The two dates of the header of an input, as far as they are native
    dates, have four-digit years. *)
Definition fourDigitYears (input : value) : bool :=
  fourDigitYear (getField (getField input "header") "issueDate")
  && fourDigitYear (getField (getField input "header") "dueDate").

(** What the validator leaves in a draft. *)
Module Normal.

(** A string that is not empty and has no blank at either end. *)
Definition trimmed (s : string) : Prop :=
  JsString.isEmpty s = false /\ JsString.trim s = s.

Definition trimmedOption (o : option string) : Prop :=
  match o with
  | Some s => trimmed s
  | None => True
  end.

(** A string of the shape YYYY-MM-DD that names a real calendar date. *)
Definition isCalendarDate (s : string) : bool :=
  match JsDate.isoDateParts s with
  | Some (y, m, d) => JsDate.roundTrips y m d
  | None => false
  end.

Definition business (b : Business.t) : Prop :=
  trimmed (Business.name b) /\ trimmed (Business.address b)
  /\ trimmed (Business.email b) /\ trimmedOption (Business.phone b)
  /\ trimmedOption (Business.logoUrl b) /\ trimmedOption (Business.taxId b).

Definition client (c : Client.t) : Prop :=
  trimmed (Client.name c) /\ trimmed (Client.address c)
  /\ trimmedOption (Client.email c).

Definition taxRate (r : JsNumber.number) : Prop :=
  JsNumber.isNaN r = false /\ JsNumber.lt r PrimFloat.zero = false
  /\ JsNumber.gt r PrimFloat.one = false.

Definition header (h : InvoiceHeader.t) : Prop :=
  trimmed (InvoiceHeader.invoiceNumber h)
  /\ isCalendarDate (InvoiceHeader.issueDate h) = true
  /\ match InvoiceHeader.dueDate h with
     | Some d => isCalendarDate d = true
     | None => True
     end
  /\ isSupportedCurrency (InvoiceHeader.currency h) = true
  /\ match InvoiceHeader.taxRate h with
     | Some r => taxRate r
     | None => True
     end
  /\ trimmedOption (InvoiceHeader.notes h)
  /\ match InvoiceHeader.dueDate h with
     | Some d => JsString.lt d (InvoiceHeader.issueDate h) = false
     | None => True
     end.

Definition lineItem (i : LineItem.t) : Prop :=
  trimmed (LineItem.description i)
  /\ JsNumber.isNaN (LineItem.quantity i) = false
  /\ JsNumber.lt (LineItem.quantity i) PrimFloat.zero = false
  /\ JsNumber.strictEq (LineItem.quantity i) PrimFloat.zero = false
  /\ JsNumber.isNaN (LineItem.unitPrice i) = false
  /\ JsNumber.lt (LineItem.unitPrice i) PrimFloat.zero = false
  /\ trimmedOption (LineItem.unit i).

Definition draft (d : InvoiceDraft.t) : Prop :=
  business (InvoiceDraft.business d) /\ client (InvoiceDraft.client d)
  /\ header (InvoiceDraft.header d)
  /\ Forall lineItem (InvoiceDraft.lineItems d)
  /\ InvoiceDraft.lineItems d <> [].

End Normal.

(* ====================================================================== *)
(** * Properties of validators *)
(* ====================================================================== *)

(** A validator leaves the issues it is given in place and appends its own,
    and neither its result nor what it appends depends on what was there. *)
Definition appends {A} (m : V A) : Prop :=
  forall issues, m issues = (resultOf m, (issues ++ issuesOf m)%list).

(** A required field: either a non-empty string and no issue, or no value
    and at least one issue. *)
Definition requiredOutcome (m : V (option string)) : Prop :=
  match resultOf m with
  | Some s => JsString.isEmpty s = false /\ issuesOf m = []
  | None => issuesOf m <> []
  end.

(** A validator that returns no value has reported at least one issue. *)
Definition reports {A} (m : V (option A)) : Prop :=
  resultOf m = None -> issuesOf m <> [].

(** The issues of the four groups of an input, each validated on its own. *)
Definition groupIssues (input : value) : list Issue.t :=
  (issuesOf (validateBusiness (getField input "business") "business")
   ++ issuesOf (validateClient (getField input "client") "client")
   ++ issuesOf (validateHeader (getField input "header") "header")
   ++ issuesOf (validateLineItems (getField input "lineItems") "lineItems"))%list.

(** No issue of the list has the code [c]. *)
Definition avoids (c : IssueCode) (issues : list Issue.t) : Prop :=
  forall i, In i issues -> Issue.code i <> c.

(* ====================================================================== *)
(** * What further properties are stated with *)
(* ====================================================================== *)

(** The number a field value is read as: a number that is not NaN, or a
    string that [parseFloat] reads as one. *)
Definition numericReading (v : value) : option JsNumber.number :=
  match v with
  | VNum x => if JsNumber.isNaN x then None else Some x
  | VStr s =>
      let parsed := JsNumber.parseFloat s in
      if JsNumber.isNaN parsed then None else Some parsed
  | _ => None
  end.

(** The Gregorian calendar. *)
Module Gregorian.

(** A leap year: divisible by 4, and by 400 if it is divisible by 100. *)
Definition isLeap (y : Z) : bool :=
  (y mod 4 =? 0) && (negb (y mod 100 =? 0) || (y mod 400 =? 0)).

(** The number of days of month [m] (1 to 12) of year [y]. *)
Definition daysInMonth (y m : Z) : Z :=
  match m with
  | 2 => if isLeap y then 29 else 28
  | 4 | 6 | 9 | 11 => 30
  | _ => 31
  end.

(** Year [y], month [m], day [d] name a day of the calendar. *)
Definition isDate (y m d : Z) : bool :=
  (1 <=? m) && (m <=? 12) && (1 <=? d) && (d <=? daysInMonth y m).

(** A string of the shape YYYY-MM-DD that names a day of the calendar. *)
Definition isDateText (s : string) : bool :=
  match JsDate.isoDateParts s with
  | Some (y, m, d) => isDate y m d
  | None => false
  end.

End Gregorian.

(** The paths of the fields [fields] of the object at [basePath], and that
    of the object itself. *)
Definition fieldPaths (basePath : string) (fields : list string) : list string :=
  basePath :: map (fun field => basePath ++ "." ++ field) fields.

Definition businessFields : list string :=
  [ "name"; "address"; "email"; "phone"; "logoUrl"; "taxId" ].
Definition clientFields : list string := [ "name"; "address"; "email" ].
Definition headerFields : list string :=
  [ "invoiceNumber"; "issueDate"; "dueDate"; "currency"; "taxRate"; "notes" ].
Definition lineItemFields : list string :=
  [ "description"; "quantity"; "unitPrice"; "unit" ].

(** The paths of the line item at index [k]. *)
Definition lineItemPaths (k : nat) : list string :=
  fieldPaths ("lineItems[" ++ JsString.ofNat k ++ "]") lineItemFields.

(** The paths of the three objects and of the array. *)
Definition groupPaths : list string :=
  (fieldPaths "business" businessFields ++ fieldPaths "client" clientFields
   ++ fieldPaths "header" headerFields ++ [ "lineItems" ])%list.

(** Every issue of the list is at one of the paths [paths]. *)
Definition pathsIn (paths : list string) (issues : list Issue.t) : Prop :=
  forall i, In i issues -> In (Issue.path i) paths.

(** The locale [formatInvoice] formats with. *)
Definition resolvedLocale (currency : string) (options : option FormatOptions.t)
    : string :=
  orDefault (FormatOptions.locale (orDefault options FormatOptions.empty))
    (getLocaleForCurrency currency).

(** One line of the formatted invoice, from the item and its amount. *)
Definition lineOf (cf nf : JsNumber.number -> string) (item : LineItem.t)
    (amount : JsNumber.number) : FormattedLineItem.t :=
  FormattedLineItem.mk (LineItem.description item) (nf (LineItem.quantity item))
    (cf (LineItem.unitPrice item)) (cf amount) (orEmpty (LineItem.unit item)).

(** The path of field [field] of the line item at index [k], and the
    cells of row [16 + k] of the sheet, by the path of their field. *)
Definition linePath (k : nat) (field : string) : string :=
  "lineItems[" ++ JsString.ofNat k ++ "]." ++ field.

Definition lineCells (k : nat) : list (string * string) :=
  map (fun '(field, col) =>
         (linePath k field,
          CellMap.columnToLetter col ++ JsString.ofNat (16 + k)))
    CellMap.columns.

(** The three columns that [readLineItems] reads, by the field read from
    them. *)
Definition sheetColumns : list (string * string) :=
  [ ("description", "A"); ("quantity", "B"); ("unitPrice", "C") ].

(** The cells of the three fields that are read from row [16 + k] of the
    sheet, by the path of their field. *)
Definition sheetCells (k : nat) : list (string * string) :=
  map (fun '(field, letter) =>
         (linePath k field, letter ++ JsString.ofNat (16 + k)))
    sheetColumns.

(** A code unit that opens or closes a tag or an attribute value. *)
Definition isMarkup (c : ascii) : bool :=
  Ascii.eqb c "<" || Ascii.eqb c ">" || Ascii.eqb c HtmlTemplate.doubleQuote
  || Ascii.eqb c "'".

(** A sheet by its cells that are not empty, and two sample sheets: the
    second differs from the first in column D, below the empty row 17 and
    far below the table. *)
Module SheetSamples.

Fixpoint cellOf (table : list (string * value)) (ref : string) : value :=
  match table with
  | [] => VStr ""
  | (k, v) :: rest => if String.eqb ref k then v else cellOf rest ref
  end.

Definition objectText (v : value) : string := "[object Object]".

Definition sheet : string -> value :=
  cellOf [ ("A16", VStr "Design"); ("B16", VStr "two"); ("C16", VNum 80%float);
           ("D16", VNum 160%float); ("A18", VStr "Below the gap") ].

Definition edited : string -> value :=
  cellOf [ ("A16", VStr "Design"); ("B16", VStr "two"); ("C16", VNum 80%float);
           ("D16", VNum 999%float); ("A18", VStr "Something else");
           ("B200", VNum 1%float) ].

End SheetSamples.

(* ====================================================================== *)
(** * Sample inputs *)
(* ====================================================================== *)

Module Samples.

Definition business : value :=
  VObj [ ("name", VStr "Test Business");
         ("address", VStr "123 Test St");
         ("email", VStr "test@example.com") ].

Definition client : value :=
  VObj [ ("name", VStr "Test Client"); ("address", VStr "456 Client Ave") ].

Definition header : value :=
  VObj [ ("invoiceNumber", VStr "INV-001");
         ("issueDate", VStr "2025-01-05");
         ("currency", VStr "EUR") ].

Definition lineItem (description : string) (quantity unitPrice : value)
    : value :=
  VObj [ ("description", VStr description);
         ("quantity", quantity);
         ("unitPrice", unitPrice) ].

Definition invoice (business client header : value) (lineItems : list value)
    : value :=
  VObj [ ("business", business); ("client", client); ("header", header);
         ("lineItems", VArr lineItems) ].

(** The valid invoice of the test suite. *)
Definition validInvoice : value :=
  invoice business client header
    [ lineItem "Service" (VNum 1%float) (VNum 100%float) ].

(** Scenario 6: a negative [unitPrice] on the first of three line items,
    with an empty description on the third, a client without a name and
    a currency that is not supported. *)
Definition severalInvalid : value :=
  invoice business
    (VObj [ ("address", VStr "456 Client Ave") ])
    (VObj [ ("invoiceNumber", VStr "INV-001");
            ("issueDate", VStr "2025-01-05");
            ("currency", VStr "FAKE") ])
    [ lineItem "First" (VNum 1%float) (VNum (-50)%float);
      lineItem "Second" (VNum 2%float) (VNum 10%float);
      lineItem "" (VNum 1%float) (VNum 100%float) ].

(** A valid invoice whose only line amount, 1e200 x 1e200, overflows. *)
Definition overflowing : value :=
  invoice business client header
    [ lineItem "Bulk" (VStr "1e200") (VStr "1e200") ].

(** Scenario 4: the valid invoice with issue date 2025-02-30. *)
Definition february30 : value :=
  invoice business client
    (VObj [ ("invoiceNumber", VStr "INV-001");
            ("issueDate", VStr "2025-02-30");
            ("currency", VStr "EUR") ])
    [ lineItem "Service" (VNum 1%float) (VNum 100%float) ].

(** The valid invoice with an issue date in blanks and an empty due date. *)
Definition blankDates : value :=
  invoice business client
    (VObj [ ("invoiceNumber", VStr "INV-001");
            ("issueDate", VStr " 2025-01-15 ");
            ("dueDate", VStr "");
            ("currency", VStr "EUR") ])
    [ lineItem "Service" (VNum 1%float) (VNum 100%float) ].

(** The valid invoice issued on 2025-01-15 and due on [dueDate]. *)
Definition dueOn (dueDate : string) : value :=
  invoice business client
    (VObj [ ("invoiceNumber", VStr "INV-001");
            ("issueDate", VStr "2025-01-15");
            ("dueDate", VStr dueDate);
            ("currency", VStr "EUR") ])
    [ lineItem "Service" (VNum 1%float) (VNum 100%float) ].

(** A valid invoice whose issue date is the native date of 1 January of
    the year 10000, 00:00 UTC. *)
Definition year10000 : value :=
  invoice business client
    (VObj [ ("invoiceNumber", VStr "INV-001");
            ("issueDate", VDate (Some 253402300800000));
            ("currency", VStr "EUR") ])
    [ lineItem "Service" (VNum 1%float) (VNum 100%float) ].

(** An invoice issued on the native date of 1 January of the year 10000,
    00:00 UTC, and due the day before, on 31 December 9999; and one issued
    on 31 December 9999 and due the day after, on that native date. *)
Definition dueBeforeYear10000 : value :=
  invoice business client
    (VObj [ ("invoiceNumber", VStr "INV-001");
            ("issueDate", VDate (Some 253402300800000));
            ("dueDate", VStr "9999-12-31");
            ("currency", VStr "EUR") ])
    [ lineItem "Service" (VNum 1%float) (VNum 100%float) ].

Definition dueInYear10000 : value :=
  invoice business client
    (VObj [ ("invoiceNumber", VStr "INV-001");
            ("issueDate", VStr "9999-12-31");
            ("dueDate", VDate (Some 253402300800000));
            ("currency", VStr "EUR") ])
    [ lineItem "Service" (VNum 1%float) (VNum 100%float) ].

(** A valid invoice with blanks to trim, a currency in lower case, numeric
    strings, a native date in January 2025 and every optional field set. *)
Definition toNormalise : value :=
  invoice
    (VObj [ ("name", VStr "  Trimmed Name  ");
            ("address", VStr "123 Test St");
            ("email", VStr "test@example.com");
            ("phone", VStr " +1234567890");
            ("logoUrl", VStr "https://example.com/logo.png");
            ("taxId", VStr "DE123456789 ") ])
    (VObj [ ("name", VStr "Client"); ("address", VStr "456 Client St");
            ("email", VStr "client@example.com") ])
    (VObj [ ("invoiceNumber", VStr "INV-002");
            ("issueDate", VDate (Some 1736899200000));
            ("dueDate", VStr " 2025-01-31");
            ("currency", VStr "usd");
            ("taxRate", VStr "0.19");
            ("notes", VStr "Thank you") ])
    [ VObj [ ("description", VStr "Item 1"); ("quantity", VStr "2");
             ("unitPrice", VStr "100.50"); ("unit", VStr "hours") ];
      lineItem "Item 2" (VNum 1.5%float) (VNum 0%float) ].

(** The draft that [validateDraft] returns for [toNormalise]. *)
Definition normalised : InvoiceDraft.t :=
  InvoiceDraft.mk
    (Business.mk "Trimmed Name" "123 Test St" "test@example.com"
       (Some "+1234567890") (Some "https://example.com/logo.png")
       (Some "DE123456789"))
    (Client.mk "Client" "456 Client St" (Some "client@example.com"))
    (InvoiceHeader.mk "INV-002" "2025-01-15" (Some "2025-01-31") "USD"
       (Some (JsNumber.parseFloat "0.19")) (Some "Thank you"))
    [ LineItem.mk "Item 1" 2%float 100.5%float (Some "hours");
      LineItem.mk "Item 2" 1.5%float 0%float None ].

(** A host whose formatters write plain text: the currency code before
    the number, the number, and the ISO calendar date. *)
Definition currencyFormat (locale currency : string)
    (display : CurrencyDisplay.t) : option (JsNumber.number -> string) :=
  Some (fun x => currency ++ " " ++ JsNumber.toString x).

Definition decimalFormat (locale : string)
    : option (JsNumber.number -> string) :=
  Some JsNumber.toString.

Definition dateFormat (locale : string) (style : DateStyle.t)
    : option (Z -> string) :=
  Some JsDate.isoDatePart.

(** A host that reads no date outside the Date Time String Format. *)
Definition dateParse (s : string) : option Z := None.

(** The invoice computed from the valid draft of the test suite, which
    sets no optional field. *)
Definition computedValid : InvoiceComputed.t :=
  computeInvoice
    (InvoiceDraft.mk
       (Business.mk "Test Business" "123 Test St" "test@example.com"
          None None None)
       (Client.mk "Test Client" "456 Client Ave" None)
       (InvoiceHeader.mk "INV-001" "2025-01-05" None "EUR" None None)
       [ LineItem.mk "Service" 1%float 100%float None ]).

(** The draft that [validateDraft] returns for [dueOn "2025-01-20"], and
    the invoice computed from it. *)
Definition draftDue : InvoiceDraft.t :=
  InvoiceDraft.mk
    (Business.mk "Test Business" "123 Test St" "test@example.com"
       None None None)
    (Client.mk "Test Client" "456 Client Ave" None)
    (InvoiceHeader.mk "INV-001" "2025-01-15" (Some "2025-01-20") "EUR" None None)
    [ LineItem.mk "Service" 1%float 100%float None ].

Definition computedDue : InvoiceComputed.t := computeInvoice draftDue.

End Samples.

(** The runtime's functions and the lookup tables are not unfolded by [cbn]
    and [simpl]. *)
Arguments isSupportedCurrency : simpl never.
Arguments JsString.trim : simpl never.
Arguments JsString.toUpperCase : simpl never.
Arguments JsString.lt : simpl never.
Arguments JsNumber.parseFloat : simpl never.
Arguments JsNumber.toString : simpl never.
Arguments JsNumber.toFixed0 : simpl never.
Arguments JsNumber.isNaN : simpl never.
Arguments JsNumber.lt : simpl never.
Arguments JsNumber.gt : simpl never.
Arguments JsNumber.strictEq : simpl never.
Arguments JsDate.isoDateParts : simpl never.
Arguments JsDate.isoDatePart : simpl never.
Arguments JsDate.ofCalendar : simpl never.
Arguments JsDate.getUTCFullYear : simpl never.
Arguments JsDate.getUTCMonth : simpl never.
Arguments JsDate.getUTCDate : simpl never.
Arguments JsDate.parseUtcMidnight : simpl never.
Arguments getLocaleForCurrency : simpl never.

(* ====================================================================== *)
(** * Validators only append to the issues *)
(* ====================================================================== *)

Lemma appends_ret {A} (a : A) : appends (ret a).
Proof. intros issues. unfold ret, resultOf, issuesOf. cbn. now rewrite app_nil_r. Qed.

Lemma appends_push (i : Issue.t) : appends (push i).
Proof. intros issues. reflexivity. Qed.

Lemma appends_bind {A B} (m : V A) (k : A -> V B) :
  appends m -> (forall a, appends (k a)) -> appends (bind m k).
Proof.
  intros Hm Hk issues. unfold bind, resultOf, issuesOf.
  rewrite (Hm issues), (Hm []). cbn.
  rewrite (Hk (resultOf m) (issues ++ issuesOf m)%list).
  rewrite (Hk (resultOf m) (issuesOf m)). cbn.
  now rewrite app_assoc.
Qed.

Lemma resultOf_bind {A B} (m : V A) (k : A -> V B) :
  appends m -> (forall a, appends (k a)) ->
  resultOf (bind m k) = resultOf (k (resultOf m)).
Proof.
  intros Hm Hk. unfold resultOf at 1. unfold bind. rewrite (Hm []). cbn.
  now rewrite (Hk (resultOf m) (issuesOf m)).
Qed.

Lemma issuesOf_bind {A B} (m : V A) (k : A -> V B) :
  appends m -> (forall a, appends (k a)) ->
  issuesOf (bind m k) = (issuesOf m ++ issuesOf (k (resultOf m)))%list.
Proof.
  intros Hm Hk. unfold issuesOf at 1. unfold bind. rewrite (Hm []). cbn.
  now rewrite (Hk (resultOf m) (issuesOf m)).
Qed.

Lemma resultOf_ret {A} (a : A) : resultOf (ret a) = a.
Proof. reflexivity. Qed.

Lemma issuesOf_ret {A} (a : A) : issuesOf (ret a) = [].
Proof. reflexivity. Qed.

Lemma issuesOf_push (i : Issue.t) : issuesOf (push i) = [i].
Proof. reflexivity. Qed.

Create HintDb appends.
#[local] Hint Resolve appends_ret appends_push : appends.

Ltac appends_step :=
  match goal with
  | |- appends (ret _) => apply appends_ret
  | |- appends (push _) => apply appends_push
  | |- appends (bind _ _) => apply appends_bind; [ | intros ]
  | |- appends (if ?b then _ else _) => destruct b
  | |- appends (match ?x with _ => _ end) => destruct x
  | |- appends _ => solve [ auto with appends ]
  end.

Ltac solve_appends := cbv zeta; repeat appends_step.

Lemma validateRequiredString_appends obj field path :
  appends (validateRequiredString obj field path).
Proof. unfold validateRequiredString. solve_appends. Qed.

Lemma validateOptionalString_appends obj field path :
  appends (validateOptionalString obj field path).
Proof. unfold validateOptionalString. solve_appends. Qed.

Lemma validateNumberValue_appends value field path options :
  appends (validateNumberValue value field path options).
Proof. unfold validateNumberValue. solve_appends. Qed.

#[local] Hint Resolve validateRequiredString_appends
  validateOptionalString_appends validateNumberValue_appends : appends.

Lemma validateRequiredNumber_appends obj field path options :
  appends (validateRequiredNumber obj field path options).
Proof. unfold validateRequiredNumber. solve_appends. Qed.

Lemma validateOptionalNumber_appends obj field path options :
  appends (validateOptionalNumber obj field path options).
Proof. unfold validateOptionalNumber. solve_appends. Qed.

Lemma validateIsoDate_appends obj field path required :
  appends (validateIsoDate obj field path required).
Proof. unfold validateIsoDate. solve_appends. Qed.

#[local] Hint Resolve validateRequiredNumber_appends
  validateOptionalNumber_appends validateIsoDate_appends : appends.

Lemma validateCurrency_appends obj field path :
  appends (validateCurrency obj field path).
Proof. unfold validateCurrency. solve_appends. Qed.

#[local] Hint Resolve validateCurrency_appends : appends.

Lemma validateBusiness_appends input basePath :
  appends (validateBusiness input basePath).
Proof. unfold validateBusiness. solve_appends. Qed.

Lemma validateClient_appends input basePath :
  appends (validateClient input basePath).
Proof. unfold validateClient. solve_appends. Qed.

Lemma validateHeader_appends input basePath :
  appends (validateHeader input basePath).
Proof. unfold validateHeader. solve_appends. Qed.

Lemma validateLineItem_appends input basePath :
  appends (validateLineItem input basePath).
Proof. unfold validateLineItem. solve_appends. Qed.

#[local] Hint Resolve validateBusiness_appends validateClient_appends
  validateHeader_appends validateLineItem_appends : appends.

Lemma validateLineItemsLoop_appends rest basePath :
  forall i items hasError,
    appends (validateLineItemsLoop rest basePath i items hasError).
Proof.
  induction rest as [| x rest IH]; intros i items hasError; cbn [validateLineItemsLoop].
  - apply appends_ret.
  - apply appends_bind; [ auto with appends | ].
    intros [it |]; apply IH.
Qed.

#[local] Hint Resolve validateLineItemsLoop_appends : appends.

Lemma validateLineItems_appends input basePath :
  appends (validateLineItems input basePath).
Proof. unfold validateLineItems. solve_appends. Qed.

#[local] Hint Resolve validateLineItems_appends : appends.

Lemma validateGroups_appends input : appends (validateGroups input).
Proof. unfold validateGroups. solve_appends. Qed.

(** Rewrites the result and the issues of a sequence of validators into
    those of its parts. *)
Ltac split_binds :=
  repeat first
    [ rewrite issuesOf_bind by (intros; solve_appends)
    | rewrite resultOf_bind by (intros; solve_appends) ];
  rewrite ?resultOf_ret, ?issuesOf_ret, ?issuesOf_push.

Lemma app_nonempty_r {A} (l r : list A) : r <> [] -> (l ++ r)%list <> [].
Proof. intros H E. apply app_eq_nil in E. tauto. Qed.

Lemma app_nonempty_l {A} (l r : list A) : l <> [] -> (l ++ r)%list <> [].
Proof. intros H E. apply app_eq_nil in E. tauto. Qed.

Lemma isEmpty_false_iff s : JsString.isEmpty s = false <-> s <> "".
Proof. destruct s; cbn; split; congruence. Qed.

Lemma isEmpty_app_r a c b : JsString.isEmpty (a ++ String c b) = false.
Proof. destruct a; reflexivity. Qed.

(* ====================================================================== *)
(** * What a validator's result says about the issues it reported *)
(* ====================================================================== *)

Lemma validateRequiredString_outcome obj field path :
  requiredOutcome (validateRequiredString obj field path).
Proof.
  unfold requiredOutcome, validateRequiredString, resultOf, issuesOf.
  destruct (getField obj field); cbn; try discriminate.
  destruct (JsString.isEmpty (JsString.trim s)) eqn:E; cbn;
    [ discriminate | tauto ].
Qed.

Lemma isoDateParts_nonempty s p :
  JsDate.isoDateParts s = Some p -> JsString.isEmpty s = false.
Proof. destruct s; [ discriminate | reflexivity ]. Qed.

Lemma isoDatePart_nonempty t : JsString.isEmpty (JsDate.isoDatePart t) = false.
Proof. unfold JsDate.isoDatePart. apply isEmpty_app_r. Qed.

Lemma validateIsoDate_required_outcome obj field path :
  requiredOutcome (validateIsoDate obj field path true).
Proof.
  unfold requiredOutcome, validateIsoDate, resultOf, issuesOf.
  destruct (getField obj field) as [ | | b | x | s | [t |] | l | l ];
    cbn; try discriminate.
  - destruct (JsString.isEmpty s); cbn; [ discriminate | ].
    destruct (JsDate.isoDateParts (JsString.trim s)) as [[[y m] d] |] eqn:E;
      cbn; [ | discriminate ].
    destruct (JsDate.ofCalendar y m d) as [date |]; cbn; [ | discriminate ].
    match goal with |- context [if ?b then _ else _] => destruct b end;
      cbn; [ discriminate | ].
    split; [ eapply isoDateParts_nonempty; eassumption | reflexivity ].
  - split; [ apply isoDatePart_nonempty | reflexivity ].
Qed.

Lemma validateCurrency_outcome obj field path :
  requiredOutcome (validateCurrency obj field path).
Proof.
  pose proof (validateRequiredString_outcome obj field path) as H.
  unfold requiredOutcome in *. unfold validateCurrency. split_binds.
  destruct (resultOf (validateRequiredString obj field path)) as [v |].
  - destruct H as [Hv Hi]. rewrite Hv, Hi. cbn.
    destruct (isSupportedCurrency (JsString.toUpperCase v)) eqn:E; cbn.
    + split; [ | reflexivity ].
      destruct (JsString.toUpperCase v); [ discriminate | reflexivity ].
    + discriminate.
  - cbn. rewrite app_nil_r. exact H.
Qed.

(** A required number: no value comes with at least one issue. *)
Lemma validateNumberValue_reports value field path options :
  resultOf (validateNumberValue value field path options) = None ->
  issuesOf (validateNumberValue value field path options) <> [].
Proof.
  unfold validateNumberValue, resultOf, issuesOf.
  repeat match goal with |- context [if ?b then _ else _] => destruct b end;
    cbn; discriminate.
Qed.

Lemma validateRequiredNumber_reports obj field path options :
  resultOf (validateRequiredNumber obj field path options) = None ->
  issuesOf (validateRequiredNumber obj field path options) <> [].
Proof.
  unfold validateRequiredNumber.
  destruct (getField obj field); cbn;
    try (intros _; discriminate).
  - destruct (JsNumber.isNaN x); cbn;
      [ intros _; discriminate | apply validateNumberValue_reports ].
  - destruct (JsNumber.isNaN (JsNumber.parseFloat s)); cbn;
      [ intros _; discriminate | apply validateNumberValue_reports ].
Qed.

Lemma validateBusiness_reports input basePath :
  reports (validateBusiness input basePath).
Proof.
  unfold reports, validateBusiness.
  destruct (isObject input); cbn [negb]; [ | intros _; discriminate ].
  split_binds.
  pose proof (validateRequiredString_outcome input "name" (basePath ++ ".name")) as Hn.
  pose proof (validateRequiredString_outcome input "address" (basePath ++ ".address")) as Ha.
  pose proof (validateRequiredString_outcome input "email" (basePath ++ ".email")) as He.
  unfold requiredOutcome in *.
  destruct (resultOf (validateRequiredString input "name" _)) as [n |];
    [ | intros _; now apply app_nonempty_l ].
  destruct (resultOf (validateRequiredString input "address" _)) as [a |];
    [ | intros _; apply app_nonempty_r; now apply app_nonempty_l ].
  destruct (resultOf (validateRequiredString input "email" _)) as [e |];
    [ | intros _; do 2 apply app_nonempty_r; now apply app_nonempty_l ].
  destruct Hn as [Hn _], Ha as [Ha _], He as [He _].
  rewrite Hn, Ha, He. cbn. discriminate.
Qed.

Lemma validateClient_reports input basePath :
  reports (validateClient input basePath).
Proof.
  unfold reports, validateClient.
  destruct (isObject input); cbn [negb]; [ | intros _; discriminate ].
  split_binds.
  pose proof (validateRequiredString_outcome input "name" (basePath ++ ".name")) as Hn.
  pose proof (validateRequiredString_outcome input "address" (basePath ++ ".address")) as Ha.
  unfold requiredOutcome in *.
  destruct (resultOf (validateRequiredString input "name" _)) as [n |];
    [ | intros _; now apply app_nonempty_l ].
  destruct (resultOf (validateRequiredString input "address" _)) as [a |];
    [ | intros _; apply app_nonempty_r; now apply app_nonempty_l ].
  destruct Hn as [Hn _], Ha as [Ha _].
  rewrite Hn, Ha. cbn. discriminate.
Qed.

Ltac nonempty_app :=
  solve [ repeat first
            [ assumption
            | apply app_nonempty_l; assumption
            | apply app_nonempty_r ] ].

Lemma validateHeader_reports input basePath :
  reports (validateHeader input basePath).
Proof.
  unfold reports, validateHeader.
  destruct (isObject input); cbn [negb]; [ | intros _; discriminate ].
  split_binds.
  pose proof (validateRequiredString_outcome input "invoiceNumber"
                (basePath ++ ".invoiceNumber")) as Hn.
  pose proof (validateIsoDate_required_outcome input "issueDate"
                (basePath ++ ".issueDate")) as Hd.
  pose proof (validateCurrency_outcome input "currency"
                (basePath ++ ".currency")) as Hc.
  unfold requiredOutcome in *.
  destruct (resultOf (validateRequiredString input "invoiceNumber" _)) as [n |];
    [ | intros _; nonempty_app ].
  destruct (resultOf (validateIsoDate input "issueDate" _ true)) as [d |];
    [ | intros _; nonempty_app ].
  destruct (resultOf (validateCurrency input "currency" _)) as [c |];
    [ | intros _; nonempty_app ].
  destruct Hn as [Hn _], Hd as [Hd _], Hc as [Hc _].
  rewrite Hn, Hd, Hc. cbn. discriminate.
Qed.

Lemma validateLineItem_reports input basePath :
  reports (validateLineItem input basePath).
Proof.
  unfold reports, validateLineItem.
  destruct (isObject input); cbn [negb]; [ | intros _; discriminate ].
  split_binds.
  pose proof (validateRequiredString_outcome input "description"
                (basePath ++ ".description")) as Hd.
  pose proof (validateRequiredNumber_reports input "quantity"
                (basePath ++ ".quantity") quantityOptions) as Hq.
  pose proof (validateRequiredNumber_reports input "unitPrice"
                (basePath ++ ".unitPrice") unitPriceOptions) as Hp.
  unfold requiredOutcome in *.
  destruct (resultOf (validateRequiredString input "description" _)) as [d |];
    [ | intros _; nonempty_app ].
  destruct (resultOf (validateRequiredNumber input "quantity" _ _)) as [q |];
    [ | intros _; specialize (Hq eq_refl); nonempty_app ].
  destruct (resultOf (validateRequiredNumber input "unitPrice" _ _)) as [u |];
    [ | intros _; specialize (Hp eq_refl); nonempty_app ].
  destruct Hd as [Hd _]. rewrite Hd. cbn. discriminate.
Qed.

(** The loop raises [hasError] only together with an issue. *)
Lemma validateLineItemsLoop_reports rest basePath :
  forall i items hasError,
    snd (resultOf (validateLineItemsLoop rest basePath i items hasError)) = true ->
    hasError = true
    \/ issuesOf (validateLineItemsLoop rest basePath i items hasError) <> [].
Proof.
  induction rest as [| x rest IH]; intros i items hasError;
    cbn [validateLineItemsLoop].
  - cbn. auto.
  - split_binds.
    pose proof (validateLineItem_reports x
                  (basePath ++ "[" ++ JsString.ofNat i ++ "]")) as Hx.
    unfold reports in Hx.
    destruct (resultOf (validateLineItem x _)) as [it |].
    + intros H. destruct (IH _ _ _ H) as [-> | Hne]; [ now left | right ].
      now apply app_nonempty_r.
    + intros _. right. apply app_nonempty_l. now apply Hx.
Qed.

Lemma validateLineItems_reports input basePath :
  reports (validateLineItems input basePath).
Proof.
  unfold reports, validateLineItems.
  destruct input as [ | | b | x | s | t | [| e l] | fs ];
    try (intros _; discriminate).
  split_binds.
  pose proof (validateLineItemsLoop_reports (e :: l) basePath 0 [] false) as H.
  destruct (resultOf (validateLineItemsLoop (e :: l) basePath 0 [] false))
    as [items hasError].
  cbn [snd] in H. destruct hasError; cbn; [ | discriminate ].
  intros _. destruct (H eq_refl) as [? | Hne]; [ discriminate | ].
  rewrite app_nil_r. exact Hne.
Qed.

(** ** The result of [validateDraft] in terms of its four groups *)

Lemma validateGroups_run input :
  validateGroups input [] =
    (resultOf (validateBusiness (getField input "business") "business"),
     resultOf (validateClient (getField input "client") "client"),
     resultOf (validateHeader (getField input "header") "header"),
     resultOf (validateLineItems (getField input "lineItems") "lineItems"),
     groupIssues input).
Proof.
  rewrite (validateGroups_appends input []). cbn [app].
  unfold groupIssues, validateGroups. split_binds.
  now rewrite app_nil_r.
Qed.

Lemma validateDraft_object input :
  isObject input = true ->
  validateDraft input =
    match groupIssues input,
          resultOf (validateBusiness (getField input "business") "business"),
          resultOf (validateClient (getField input "client") "client"),
          resultOf (validateHeader (getField input "header") "header"),
          resultOf (validateLineItems (getField input "lineItems") "lineItems")
    with
    | [], Some business, Some client, Some header, Some lineItems =>
        Valid (InvoiceDraft.mk business client header lineItems)
    | _, _, _, _, _ => Invalid (groupIssues input)
    end.
Proof.
  intros Hobj. unfold validateDraft. rewrite Hobj. cbn [negb].
  now rewrite validateGroups_run.
Qed.

(** No issue at all means that every group produced its value. *)
Lemma groups_defined input :
  groupIssues input = [] ->
  exists business client header lineItems,
    resultOf (validateBusiness (getField input "business") "business") = Some business
    /\ resultOf (validateClient (getField input "client") "client") = Some client
    /\ resultOf (validateHeader (getField input "header") "header") = Some header
    /\ resultOf (validateLineItems (getField input "lineItems") "lineItems")
       = Some lineItems.
Proof.
  unfold groupIssues. intros H.
  apply app_eq_nil in H. destruct H as [Hb H].
  apply app_eq_nil in H. destruct H as [Hc H].
  apply app_eq_nil in H. destruct H as [Hh Hl].
  pose proof (validateBusiness_reports (getField input "business") "business") as Rb.
  pose proof (validateClient_reports (getField input "client") "client") as Rc.
  pose proof (validateHeader_reports (getField input "header") "header") as Rh.
  pose proof (validateLineItems_reports (getField input "lineItems") "lineItems") as Rl.
  unfold reports in *.
  destruct (resultOf (validateBusiness _ _)) as [b |]; [ | now elim (Rb eq_refl) ].
  destruct (resultOf (validateClient _ _)) as [c |]; [ | now elim (Rc eq_refl) ].
  destruct (resultOf (validateHeader _ _)) as [h |]; [ | now elim (Rh eq_refl) ].
  destruct (resultOf (validateLineItems _ _)) as [l |]; [ | now elim (Rl eq_refl) ].
  now exists b, c, h, l.
Qed.

(** [validateDraft] succeeds exactly when no issue was reported. *)
Lemma validateDraft_cases input :
  isObject input = true ->
  (groupIssues input <> [] /\ validateDraft input = Invalid (groupIssues input))
  \/ (groupIssues input = []
      /\ exists business client header lineItems,
           resultOf (validateBusiness (getField input "business") "business")
             = Some business
           /\ resultOf (validateClient (getField input "client") "client")
                = Some client
           /\ resultOf (validateHeader (getField input "header") "header")
                = Some header
           /\ resultOf (validateLineItems (getField input "lineItems") "lineItems")
                = Some lineItems
           /\ validateDraft input
              = Valid (InvoiceDraft.mk business client header lineItems)).
Proof.
  intros Hobj. rewrite (validateDraft_object input Hobj).
  destruct (groupIssues input) as [| i0 rest] eqn:E.
  - right. split; [ reflexivity | ].
    destruct (groups_defined input E) as (b & c & h & l & Hb & Hc & Hh & Hl).
    exists b, c, h, l. rewrite Hb, Hc, Hh, Hl. repeat split.
  - left. split; [ discriminate | reflexivity ].
Qed.

(* ====================================================================== *)
(** * Validation is exhaustive *)
(* ====================================================================== *)

Lemma validateIsoDate_some obj field path required s :
  resultOf (validateIsoDate obj field path required) = Some s ->
  JsString.isEmpty s = false
  /\ issuesOf (validateIsoDate obj field path required) = [].
Proof.
  unfold validateIsoDate, resultOf, issuesOf.
  destruct (getField obj field) as [ | | b | x | s0 | [t |] | l | l ];
    destruct required; cbn; try discriminate.
  1, 2: destruct (JsString.isEmpty s0); cbn; [ discriminate | ];
    destruct (JsDate.isoDateParts (JsString.trim s0)) as [[[y m] d] |] eqn:E;
      cbn; [ | discriminate ];
    destruct (JsDate.ofCalendar y m d) as [date |]; cbn; [ | discriminate ];
    match goal with |- context [if ?b then _ else _] => destruct b end;
      cbn; [ discriminate | ];
    intros [= <-];
    (split; [ eapply isoDateParts_nonempty; eassumption | reflexivity ]).
  1, 2: intros [= <-]; split; [ apply isoDatePart_nonempty | reflexivity ].
Qed.

(** The last step of a group validator builds its value and reports
    nothing. *)
Ltac pure_tail :=
  repeat match goal with
         | |- context [issuesOf (match ?x with _ => _ end)] => destruct x
         end;
  rewrite ?issuesOf_ret, ?app_nil_r.

Lemma validateBusiness_exhaustive input basePath :
  issuesOf (validateBusiness input basePath)
  = List.concat (Exhaustive.businessReports input basePath).
Proof.
  unfold validateBusiness, Exhaustive.businessReports.
  destruct (isObject input); cbn [negb]; [ | reflexivity ].
  split_binds. cbn [List.concat app].
  now pure_tail.
Qed.

Lemma validateClient_exhaustive input basePath :
  issuesOf (validateClient input basePath)
  = List.concat (Exhaustive.clientReports input basePath).
Proof.
  unfold validateClient, Exhaustive.clientReports.
  destruct (isObject input); cbn [negb]; [ | reflexivity ].
  split_binds. cbn [List.concat app].
  now pure_tail.
Qed.

Lemma validateLineItem_exhaustive input basePath :
  issuesOf (validateLineItem input basePath)
  = List.concat (Exhaustive.lineItemReports input basePath).
Proof.
  unfold validateLineItem, Exhaustive.lineItemReports.
  destruct (isObject input); cbn [negb]; [ | reflexivity ].
  split_binds. cbn [List.concat app].
  now pure_tail.
Qed.

Lemma validateHeader_exhaustive input basePath :
  issuesOf (validateHeader input basePath)
  = List.concat (Exhaustive.headerReports input basePath).
Proof.
  unfold validateHeader, Exhaustive.headerReports, Exhaustive.dateOrderReport.
  destruct (isObject input); cbn [negb]; [ | reflexivity ].
  split_binds. cbn [List.concat app].
  pose proof (validateIsoDate_some input "issueDate" (basePath ++ ".issueDate") true) as Hi.
  pose proof (validateIsoDate_some input "dueDate" (basePath ++ ".dueDate") false) as Hd.
  destruct (resultOf (validateIsoDate input "issueDate" _ true)) as [i |];
    destruct (resultOf (validateIsoDate input "dueDate" _ false)) as [d |];
    try (destruct (Hi i eq_refl) as [Ei _]; rewrite Ei);
    try (destruct (Hd d eq_refl) as [Ed _]; rewrite Ed);
    cbn [negb andb];
    try destruct (JsString.lt d i);
    rewrite ?issuesOf_push, ?issuesOf_ret;
    repeat (f_equal; []); now pure_tail.
Qed.

Lemma validateLineItemsLoop_exhaustive rest basePath :
  forall i items hasError,
    issuesOf (validateLineItemsLoop rest basePath i items hasError)
    = List.concat (Exhaustive.elementReports rest basePath i).
Proof.
  induction rest as [| x rest IH]; intros i items hasError;
    cbn [validateLineItemsLoop Exhaustive.elementReports].
  - reflexivity.
  - split_binds. rewrite concat_app, <- validateLineItem_exhaustive.
    f_equal. destruct (resultOf (validateLineItem x _)); apply IH.
Qed.

Lemma validateLineItems_exhaustive input basePath :
  issuesOf (validateLineItems input basePath)
  = List.concat (Exhaustive.lineItemsReports input basePath).
Proof.
  unfold validateLineItems, Exhaustive.lineItemsReports.
  destruct input as [ | | b | x | s | t | [| e l] | fs ]; try reflexivity.
  split_binds. rewrite validateLineItemsLoop_exhaustive.
  destruct (resultOf (validateLineItemsLoop (e :: l) basePath 0 [] false)).
  cbn. now rewrite app_nil_r.
Qed.

Lemma groupIssues_exhaustive input :
  groupIssues input = List.concat (Exhaustive.fieldReports input).
Proof.
  unfold groupIssues, Exhaustive.fieldReports.
  rewrite !concat_app.
  now rewrite validateBusiness_exhaustive, validateClient_exhaustive,
    validateHeader_exhaustive, validateLineItems_exhaustive.
Qed.

Lemma in_elementReports report elements basePath :
  forall i,
    In report (Exhaustive.elementReports elements basePath i) <->
    exists k x,
      nth_error elements k = Some x
      /\ In report
           (Exhaustive.lineItemReports x
              (basePath ++ "[" ++ JsString.ofNat (i + k) ++ "]")).
Proof.
  induction elements as [| e elements IH]; intros i;
    cbn [Exhaustive.elementReports].
  - split; [ intros [] | intros (k & x & H & _); now destruct k ].
  - rewrite in_app_iff, IH. split.
    + intros [H | (k & x & Hk & H)].
      * exists 0%nat, e. now rewrite Nat.add_0_r.
      * exists (S k), x. now rewrite Nat.add_succ_r.
    + intros (k & x & Hk & H). destruct k as [| k]; cbn in Hk.
      * injection Hk as ->. left. now rewrite Nat.add_0_r in H.
      * right. exists k, x. now rewrite Nat.add_succ_r in H.
Qed.

(** C2. [validateDraft] never stops at the first error.  For every input
    that is an object, the issues it returns are exactly the issues of all
    the field checks of [Exhaustive.fieldReports], each run on its own, in
    order: every issue of every check is among them; in particular every
    element of [lineItems], whatever happened to the elements before it,
    contributes the issues of its own four field checks under its own
    index.  When the draft is accepted, no check reported anything. *)
Theorem validateDraft_accumulates_every_issue (input : value) :
  isObject input = true ->
  match validateDraft input with
  | Invalid issues =>
      issues = List.concat (Exhaustive.fieldReports input)
      /\ (forall report i,
            In report (Exhaustive.fieldReports input) -> In i report ->
            In i issues)
      /\ (forall elements k x report i,
            getField input "lineItems" = VArr elements ->
            nth_error elements k = Some x ->
            In report
              (Exhaustive.lineItemReports x
                 ("lineItems" ++ "[" ++ JsString.ofNat k ++ "]")) ->
            In i report -> In i issues)
  | Valid _ =>
      forall report, In report (Exhaustive.fieldReports input) -> report = []
  end.
Proof.
  intros Hobj.
  destruct (validateDraft_cases input Hobj)
    as [[Hne ->] | [Hnil (b & c & h & l & _ & _ & _ & _ & ->)]];
    rewrite groupIssues_exhaustive in *.
  - assert (Hin : forall report i,
               In report (Exhaustive.fieldReports input) -> In i report ->
               In i (List.concat (Exhaustive.fieldReports input))).
    { intros report i Hr Hi. apply in_concat. now exists report. }
    split; [ reflexivity | split; [ exact Hin | ] ].
    intros elements k x report i Hl Hk Hr Hi.
    apply (Hin report i); [ | exact Hi ].
    unfold Exhaustive.fieldReports. rewrite Hl.
    do 3 (apply in_or_app; right).
    unfold Exhaustive.lineItemsReports.
    destruct elements as [| e elements]; [ now destruct k | ].
    apply in_elementReports. now exists k, x.
  - intros report Hr.
    destruct report as [| i report]; [ reflexivity | exfalso ].
    assert (In i (List.concat (Exhaustive.fieldReports input))) as Hin.
    { apply in_concat. exists (i :: report). split; [ exact Hr | now left ]. }
    now rewrite Hnil in Hin.
Qed.

Lemma validateDraft_accumulates_every_issue_witness :
  isObject Samples.severalInvalid = true
  /\ match validateDraft Samples.severalInvalid with
     | Invalid issues =>
         issues = List.concat (Exhaustive.fieldReports Samples.severalInvalid)
         /\ (forall report i,
               In report (Exhaustive.fieldReports Samples.severalInvalid) ->
               In i report -> In i issues)
         /\ (forall elements k x report i,
               getField Samples.severalInvalid "lineItems" = VArr elements ->
               nth_error elements k = Some x ->
               In report
                 (Exhaustive.lineItemReports x
                    ("lineItems" ++ "[" ++ JsString.ofNat k ++ "]")) ->
               In i report -> In i issues)
     | Valid _ =>
         forall report,
           In report (Exhaustive.fieldReports Samples.severalInvalid) ->
           report = []
     end.
Proof.
  split; [ reflexivity | ].
  apply (validateDraft_accumulates_every_issue Samples.severalInvalid).
  reflexivity.
Defined.

(** Scenario 6, evaluated: the negative [unitPrice] of the first line item
    is reported together with the three invalid fields elsewhere, the one
    in the third line item included. *)
Example validateDraft_scenario6 :
  validateDraft Samples.severalInvalid
  = Invalid
      [ issue MISSING_REQUIRED "client.name" "name is required" None;
        issue INVALID_VALUE "header.currency"
          ("currency " ++ quote ++ "FAKE" ++ quote
             ++ " is not a recognized currency code")
          (Some "Use ISO 4217 codes like EUR, USD, GBP");
        issue NEGATIVE_NUMBER "lineItems[0].unitPrice"
          "unitPrice cannot be negative" (Some "Use a positive number");
        issue MISSING_REQUIRED "lineItems[2].description"
          "description cannot be empty" None ].
Proof. vm_compute. reflexivity. Qed.

(* ====================================================================== *)
(** * A failed validation carries a diagnostic *)
(* ====================================================================== *)

Lemma reports_pushes {A} (m : V (option A)) issues :
  appends m -> reports m ->
  fst (m issues) = None ->
  (List.length issues < List.length (snd (m issues)))%nat.
Proof.
  intros Ha Hr. rewrite (Ha issues). cbn [fst snd]. intros Hn.
  specialize (Hr Hn). rewrite length_app.
  destruct (issuesOf m); [ contradiction | cbn; lia ].
Qed.

(** C9. Whenever [validateDraft] returns [{ ok: false, issues }], [issues]
    is not empty.  Each of the four group validators (business, client,
    header, lineItems), on any input and any array of issues, returns
    [undefined] only after it has pushed at least one issue onto that
    array. *)
Theorem validateDraft_failure_has_issue :
  (forall input issues, validateDraft input = Invalid issues -> issues <> [])
  /\ (forall input basePath issues,
        fst (validateBusiness input basePath issues) = None ->
        (List.length issues
         < List.length (snd (validateBusiness input basePath issues)))%nat)
  /\ (forall input basePath issues,
        fst (validateClient input basePath issues) = None ->
        (List.length issues
         < List.length (snd (validateClient input basePath issues)))%nat)
  /\ (forall input basePath issues,
        fst (validateHeader input basePath issues) = None ->
        (List.length issues
         < List.length (snd (validateHeader input basePath issues)))%nat)
  /\ (forall input basePath issues,
        fst (validateLineItems input basePath issues) = None ->
        (List.length issues
         < List.length (snd (validateLineItems input basePath issues)))%nat).
Proof.
  split; [ | repeat split; intros input basePath issues; apply reports_pushes ];
    auto using validateBusiness_appends, validateClient_appends,
      validateHeader_appends, validateLineItems_appends,
      validateBusiness_reports, validateClient_reports,
      validateHeader_reports, validateLineItems_reports.
  intros input issues.
  destruct (isObject input) eqn:Hobj.
  - destruct (validateDraft_cases input Hobj)
      as [[Hne ->] | [_ (b & c & h & l & _ & _ & _ & _ & ->)]].
    + now intros [= <-].
    + discriminate.
  - unfold validateDraft. rewrite Hobj. cbn [negb]. now intros [= <-].
Qed.

Lemma validateDraft_failure_has_issue_witness :
  [ issue EMPTY_ARRAY "lineItems" "At least one line item is required"
      (Some "Add at least one item to the invoice") ] <> [].
Proof.
  apply (proj1 validateDraft_failure_has_issue
           (Samples.invoice Samples.business Samples.client Samples.header [])).
  vm_compute. reflexivity.
Defined.

(* ====================================================================== *)
(** * Computed totals *)
(* ====================================================================== *)

Lemma Prim2SF_finite_cases x :
  PrimFloat.is_finite x = true ->
  (exists s, Prim2SF x = S754_zero s) \/ (exists s m e, Prim2SF x = S754_finite s m e).
Proof.
  unfold PrimFloat.is_finite, Prim2SF. intros H.
  apply negb_true_iff, orb_false_iff in H. destruct H as [-> ->].
  destruct (PrimFloat.is_zero x); [ left; eauto | ].
  destruct (Z.frexp x) as [r ex].
  destruct (shr_fexp _ _ _ _ _) as [sh e'].
  destruct (shr_m sh); [ left | right | left ]; eauto.
Qed.

(** A finite number times zero is zero. *)
Lemma mul_zero_finite x :
  PrimFloat.is_finite x = true ->
  JsNumber.strictEq (PrimFloat.mul x PrimFloat.zero) PrimFloat.zero = true.
Proof.
  intros H. unfold JsNumber.strictEq.
  rewrite FloatAxioms.eqb_spec, mul_spec.
  change (Prim2SF PrimFloat.zero) with (S754_zero false).
  destruct (Prim2SF_finite_cases x H) as [[s ->] | (s & m & e & ->)];
    now destruct s.
Qed.

(** X26. The defining equations.  For every draft, the totals of
    [computeInvoice] have one amount per line item, in the same order,
    each the product quantity x unitPrice; [subtotal] is their sum from
    left to right starting from 0; [taxAmount] is the product of the
    subtotal and the tax rate, with the number 0 for an absent rate;
    [total] is subtotal + taxAmount.  Without a tax rate [taxAmount] is 0
    whenever the subtotal is finite. *)
Theorem computeInvoice_totals (draft : InvoiceDraft.t) :
  let items := InvoiceDraft.lineItems draft in
  let rate := InvoiceHeader.taxRate (InvoiceDraft.header draft) in
  let totals := InvoiceComputed.computed (computeInvoice draft) in
  let amounts := ComputedTotals.lineItemAmounts totals in
  let subtotal := ComputedTotals.subtotal totals in
  let taxAmount := ComputedTotals.taxAmount totals in
  List.length amounts = List.length items
  /\ (forall k item,
        nth_error items k = Some item ->
        nth_error amounts k
        = Some (PrimFloat.mul (LineItem.quantity item) (LineItem.unitPrice item)))
  /\ subtotal = fold_left PrimFloat.add amounts PrimFloat.zero
  /\ taxAmount
     = PrimFloat.mul subtotal
         (match rate with Some r => r | None => PrimFloat.zero end)
  /\ ComputedTotals.total totals = PrimFloat.add subtotal taxAmount
  /\ (rate = None -> PrimFloat.is_finite subtotal = true ->
      JsNumber.strictEq taxAmount PrimFloat.zero = true).
Proof.
  cbn. repeat split.
  - apply length_map.
  - intros k item Hk. now rewrite nth_error_map, Hk.
  - intros -> Hfin. now apply mul_zero_finite.
Qed.

Lemma computeInvoice_totals_witness :
  exists draft,
    validateDraft Samples.validInvoice = Valid draft
    /\ JsNumber.strictEq
         (ComputedTotals.taxAmount (InvoiceComputed.computed (computeInvoice draft)))
         PrimFloat.zero = true.
Proof.
  eexists. split; [ vm_compute; reflexivity | ].
  apply computeInvoice_totals; vm_compute; reflexivity.
Defined.

(** C1. The code departs from the claim, and from its own documentation
    ("taxAmount = subtotal x taxRate (or 0 if no taxRate)"), on a draft
    whose subtotal overflows: the draft validated from
    [Samples.overflowing] (one line, quantity 1e200 at a unit price of
    1e200) has no tax rate, its subtotal is Infinity, and its [taxAmount],
    computed as Infinity x 0, is NaN and not 0; so is its [total], which
    is not equal to subtotal + taxAmount under [==]. *)
Lemma computeInvoice_taxAmount_not_zero :
  exists draft,
    validateDraft Samples.overflowing = Valid draft
    /\ InvoiceHeader.taxRate (InvoiceDraft.header draft) = None
    /\ ComputedTotals.subtotal (InvoiceComputed.computed (computeInvoice draft))
       = PrimFloat.infinity
    /\ JsNumber.isNaN
         (ComputedTotals.taxAmount (InvoiceComputed.computed (computeInvoice draft)))
       = true
    /\ JsNumber.strictEq
         (ComputedTotals.taxAmount (InvoiceComputed.computed (computeInvoice draft)))
         PrimFloat.zero = false
    /\ JsNumber.isNaN
         (ComputedTotals.total (InvoiceComputed.computed (computeInvoice draft)))
       = true.
Proof.
  eexists. split; [ vm_compute; reflexivity | ].
  repeat split; vm_compute; reflexivity.
Qed.

(* ====================================================================== *)
(** * Recomputation *)
(* ====================================================================== *)

(** C7. [recomputeInvoice] is [computeInvoice] applied to the draft part of
    its argument (business, client, header, lineItems).  The result does
    not depend on the [computed] field that was there: replacing it by any
    other totals [stale] gives the same result, and the new totals are
    those of the line items the result carries. *)
Theorem recomputeInvoice_discards_old_totals
    (invoice : InvoiceComputed.t) (stale : ComputedTotals.t) :
  let business := InvoiceComputed.business invoice in
  let client := InvoiceComputed.client invoice in
  let header := InvoiceComputed.header invoice in
  let lineItems := InvoiceComputed.lineItems invoice in
  recomputeInvoice invoice
  = computeInvoice (InvoiceDraft.mk business client header lineItems)
  /\ recomputeInvoice (InvoiceComputed.mk business client header lineItems stale)
     = recomputeInvoice invoice
  /\ InvoiceComputed.lineItems (recomputeInvoice invoice) = lineItems
  /\ InvoiceComputed.computed (recomputeInvoice invoice)
     = computeTotals
         (map (fun item => (LineItem.quantity item, LineItem.unitPrice item))
            lineItems)
         (InvoiceHeader.taxRate header).
Proof.
  cbn. repeat split.
  unfold recomputeInvoice, computeInvoice, computeTotals, draftOf. cbn.
  now rewrite map_map.
Qed.

(** Stale totals are replaced: the totals of an invoice edited by hand are
    recomputed from its line items. *)
Example recomputeInvoice_stale :
  InvoiceComputed.computed
    (recomputeInvoice
       (InvoiceComputed.mk
          (Business.mk "B" "Street" "b@example.com" None None None)
          (Client.mk "C" "Road" None)
          (InvoiceHeader.mk "INV-1" "2025-01-05" None "EUR" None None)
          [ LineItem.mk "Edited" 3%float 50%float None ]
          (ComputedTotals.mk [ 100%float ] 100%float 0%float 100%float)))
  = ComputedTotals.mk [ 150%float ] 150%float 0%float 150%float.
Proof. vm_compute. reflexivity. Qed.

(* ====================================================================== *)
(** * The pipeline *)
(* ====================================================================== *)

Section Pipeline.

Variable NumberFormat_currency :
  string -> string -> CurrencyDisplay.t -> option (JsNumber.number -> string).
Variable NumberFormat_decimal : string -> option (JsNumber.number -> string).
Variable DateTimeFormat : string -> DateStyle.t -> option (Z -> string).
Variable Date_parse_fallback : string -> option Z.

Abbreviation format :=
  (formatInvoice NumberFormat_currency NumberFormat_decimal DateTimeFormat
     Date_parse_fallback).
Abbreviation process :=
  (processInvoice NumberFormat_currency NumberFormat_decimal DateTimeFormat
     Date_parse_fallback).
Abbreviation processValid :=
  (processDraft NumberFormat_currency NumberFormat_decimal DateTimeFormat
     Date_parse_fallback).

(** C3. [processInvoice] is validate, then compute, then format.  When
    [validateDraft] fails, the result is [{ ok: false }] with exactly its
    issues, whatever the formatters of the host would do.  When it succeeds
    with [draft], the result is [{ ok: true }] with
    [computed = computeInvoice draft] and
    [invoice = formatInvoice (computeInvoice draft) options], an exception
    of [formatInvoice] being passed on.  [processDraft] gives the same
    [computed] and [invoice] from the draft alone. *)
Theorem processInvoice_composition :
  (forall input options issues,
      validateDraft input = Invalid issues ->
      process input options = Some (Rejected issues))
  /\ (forall input options draft,
        validateDraft input = Valid draft ->
        process input options
        = match format (computeInvoice draft) options with
          | Some invoice => Some (Processed invoice (computeInvoice draft))
          | None => None
          end)
  /\ (forall draft options,
        processValid draft options
        = match format (computeInvoice draft) options with
          | Some invoice => Some (computeInvoice draft, invoice)
          | None => None
          end)
  /\ (forall input options draft invoice computed,
        validateDraft input = Valid draft ->
        (process input options = Some (Processed invoice computed)
         <-> processValid draft options = Some (computed, invoice))).
Proof.
  repeat split.
  - intros input options issues H. unfold processInvoice. now rewrite H.
  - intros input options draft H. unfold processInvoice. now rewrite H.
  - unfold processInvoice, processDraft. rewrite H.
    destruct (format (computeInvoice draft) options); now intros [= <- <-].
  - unfold processInvoice, processDraft. rewrite H.
    destruct (format (computeInvoice draft) options); now intros [= <- <-].
Qed.

End Pipeline.

Lemma processInvoice_composition_witness :
  processInvoice Samples.currencyFormat Samples.decimalFormat
    Samples.dateFormat Samples.dateParse
    (Samples.invoice Samples.business Samples.client Samples.header []) None
  = Some (Rejected
            [ issue EMPTY_ARRAY "lineItems" "At least one line item is required"
                (Some "Add at least one item to the invoice") ]).
Proof.
  apply (proj1 (processInvoice_composition Samples.currencyFormat
                  Samples.decimalFormat Samples.dateFormat Samples.dateParse)).
  vm_compute. reflexivity.
Defined.

(** The valid invoice of the test suite through the whole pipeline, on the
    plain-text host. *)
Example processInvoice_valid :
  exists invoice,
    processInvoice Samples.currencyFormat Samples.decimalFormat
      Samples.dateFormat Samples.dateParse Samples.validInvoice None
    = Some (Processed invoice Samples.computedValid)
    /\ FormattedHeader.issueDate (FormattedInvoice.header invoice) = "2025-01-05"
    /\ map FormattedLineItem.amount (FormattedInvoice.lineItems invoice)
       = [ "EUR 100" ]
    /\ FormattedTotals.total (FormattedInvoice.totals invoice) = "EUR 100".
Proof.
  eexists. split; [ vm_compute; reflexivity | repeat split ].
Qed.

(* ====================================================================== *)
(** * A number is never written as the empty string *)
(* ====================================================================== *)

Lemma isEmpty_append a b :
  JsString.isEmpty (a ++ b) = JsString.isEmpty a && JsString.isEmpty b.
Proof. now destruct a. Qed.

Lemma digitsOf_nonempty z : JsString.isEmpty (JsNumber.digitsOf z) = false.
Proof.
  unfold JsNumber.digitsOf, NilZero.string_of_uint.
  now destruct (N.to_uint (Z.to_N z)).
Qed.

Lemma render_nonempty s p : JsString.isEmpty (JsNumber.render s p) = false.
Proof.
  unfold JsNumber.render, JsNumber.showExponent.
  repeat match goal with |- context [if ?b then _ else _] => destruct b end;
    rewrite ?isEmpty_append, ?digitsOf_nonempty, ?andb_false_r; try reflexivity.
Qed.

Lemma toString_nonempty x : JsString.isEmpty (JsNumber.toString x) = false.
Proof.
  unfold JsNumber.toString.
  destruct (JsNumber.isNaN x); [ reflexivity | ].
  destruct (PrimFloat.eqb x PrimFloat.zero); [ reflexivity | ].
  destruct (JsNumber.magnitude x) as [[num den] |].
  - destruct (JsNumber.shortest _ _ _ _ _ _) as [s p].
    destruct (JsNumber.stripZeros _ _ _) as [s' p'].
    now rewrite isEmpty_append, render_nonempty, andb_false_r.
  - now rewrite isEmpty_append, andb_false_r.
Qed.

Lemma toFixed0_nonempty x : JsString.isEmpty (JsNumber.toFixed0 x) = false.
Proof.
  unfold JsNumber.toFixed0.
  destruct (JsNumber.isNaN x); [ reflexivity | ].
  destruct (JsNumber.magnitude x) as [[num den] |].
  - destruct (_ <=? _); [ apply toString_nonempty | ].
    now rewrite isEmpty_append, digitsOf_nonempty, andb_false_r.
  - destruct (PrimFloat.eqb x PrimFloat.zero);
      [ reflexivity | apply toString_nonempty ].
Qed.

(* ====================================================================== *)
(** * Dates *)
(* ====================================================================== *)

Lemma roundTrips_true y m d :
  JsDate.roundTrips y m d = true <->
  exists date,
    JsDate.ofCalendar y m d = Some date
    /\ (negb (JsDate.getUTCFullYear date =? y)
        || negb (JsDate.getUTCMonth date + 1 =? m)
        || negb (JsDate.getUTCDate date =? d)) = false.
Proof.
  unfold JsDate.roundTrips. destruct (JsDate.ofCalendar y m d) as [date |].
  - split.
    + intros H. exists date. split; [ reflexivity | ].
      apply andb_true_iff in H. destruct H as [H ->].
      apply andb_true_iff in H. now destruct H as [-> ->].
    + intros (date' & [= <-] & H).
      apply orb_false_iff in H. destruct H as [H H3].
      apply orb_false_iff in H. destruct H as [H1 H2].
      apply negb_false_iff in H1, H2, H3. now rewrite H1, H2, H3.
  - split; [ discriminate | now intros (date & [=] & _) ].
Qed.

(** What [validateIsoDate] does with a native date and with a string. *)
Lemma validateIsoDate_cases obj field path required issues :
  match getField obj field with
  | VDate (Some t) =>
      validateIsoDate obj field path required issues
      = (Some (JsDate.isoDatePart t), issues)
  | VDate None =>
      validateIsoDate obj field path required issues
      = (None,
         issues ++ [ issue INVALID_DATE path (field ++ " is not a valid date") None ])%list
  | VStr s =>
      if JsString.isEmpty s then
        validateIsoDate obj field path required issues
        = (None,
           if required
           then (issues ++ [ issue MISSING_REQUIRED path (field ++ " is required") None ])%list
           else issues)
      else
        match JsDate.isoDateParts (JsString.trim s) with
        | None =>
            validateIsoDate obj field path required issues
            = (None,
               issues ++ [ issue INVALID_FORMAT path
                             (field ++ " must be in YYYY-MM-DD format")
                             (Some "Example: 2025-01-15") ])%list
        | Some (y, m, d) =>
            if JsDate.roundTrips y m d then
              validateIsoDate obj field path required issues
              = (Some (JsString.trim s), issues)
            else
              exists message,
                validateIsoDate obj field path required issues
                = (None, issues ++ [ issue INVALID_DATE path message None ])%list
        end
  | _ => True
  end.
Proof.
  unfold validateIsoDate.
  destruct (getField obj field) as [ | | b | x | s | [t |] | l | l ];
    try exact I; try reflexivity.
  cbn [isBlank].
  destruct (JsString.isEmpty s); [ now destruct required | ].
  destruct (JsDate.isoDateParts (JsString.trim s)) as [[[y m] d] |];
    [ | reflexivity ].
  destruct (JsDate.roundTrips y m d) eqn:R.
  - apply roundTrips_true in R. destruct R as (date & -> & ->).
    cbn. unfold ret. now rewrite app_nil_r || reflexivity.
  - unfold JsDate.roundTrips in R.
    destruct (JsDate.ofCalendar y m d) as [date |].
    + replace (negb (JsDate.getUTCFullYear date =? y)
               || negb (JsDate.getUTCMonth date + 1 =? m)
               || negb (JsDate.getUTCDate date =? d)) with true.
      * eexists. reflexivity.
      * symmetry. rewrite <- !negb_andb. now rewrite R.
    + eexists. reflexivity.
Qed.

Lemma getField_object obj field :
  getField obj field <> VUndefined -> isObject obj = true.
Proof. destruct obj; cbn; congruence. Qed.

Lemma header_field_objects input field :
  getField (getField input "header") field <> VUndefined ->
  isObject input = true /\ isObject (getField input "header") = true.
Proof.
  intros H. pose proof (getField_object _ _ H) as Hh.
  split; [ | exact Hh ].
  apply (getField_object input "header"). intros E. rewrite E in Hh. discriminate.
Qed.

Lemma header_issue_reported input report i :
  isObject (getField input "header") = true ->
  In report (Exhaustive.headerReports (getField input "header") "header") ->
  In i report ->
  In i (groupIssues input).
Proof.
  intros Hobj Hr Hi. rewrite groupIssues_exhaustive. apply in_concat.
  exists report. split; [ | exact Hi ].
  unfold Exhaustive.fieldReports. do 2 (apply in_or_app; right).
  apply in_or_app. now left.
Qed.

(** C5, as amended. A date field takes a valid native date, which becomes
    the calendar part of its ISO form (an invalid one gives INVALID_DATE),
    or a string that matches YYYY-MM-DD once it is trimmed.  A string that
    is not empty and whose trimmed form does not match the shape gives an
    INVALID_FORMAT issue at the field's path (the empty string counts as a
    missing value: MISSING_REQUIRED for a required date, nothing for an
    optional one).  A string whose trimmed form matches but whose year,
    month and day do not come back from the date built for them gives an
    INVALID_DATE issue at the field's path; when the field is
    [header.issueDate] or [header.dueDate] of an input, [validateDraft]
    fails with an INVALID_DATE issue at that path, as it does for the
    issue date 2025-02-30. *)
Theorem validateIsoDate_rules :
  (forall obj field path required issues,
      match getField obj field with
      | VDate (Some t) =>
          validateIsoDate obj field path required issues
          = (Some (JsDate.isoDatePart t), issues)
      | VDate None =>
          validateIsoDate obj field path required issues
          = (None,
             issues ++ [ issue INVALID_DATE path (field ++ " is not a valid date")
                           None ])%list
      | VStr s =>
          if JsString.isEmpty s then
            validateIsoDate obj field path required issues
            = (None,
               if required
               then (issues
                     ++ [ issue MISSING_REQUIRED path (field ++ " is required")
                            None ])%list
               else issues)
          else
            match JsDate.isoDateParts (JsString.trim s) with
            | None =>
                validateIsoDate obj field path required issues
                = (None,
                   issues ++ [ issue INVALID_FORMAT path
                                 (field ++ " must be in YYYY-MM-DD format")
                                 (Some "Example: 2025-01-15") ])%list
            | Some (y, m, d) =>
                if JsDate.roundTrips y m d then
                  validateIsoDate obj field path required issues
                  = (Some (JsString.trim s), issues)
                else
                  exists message,
                    validateIsoDate obj field path required issues
                    = (None,
                       issues ++ [ issue INVALID_DATE path message None ])%list
            end
      | _ => True
      end)
  /\ (forall input field s y m d,
        field = "issueDate" \/ field = "dueDate" ->
        getField (getField input "header") field = VStr s ->
        JsDate.isoDateParts (JsString.trim s) = Some (y, m, d) ->
        JsDate.roundTrips y m d = false ->
        exists issues i,
          validateDraft input = Invalid issues
          /\ In i issues
          /\ Issue.code i = INVALID_DATE
          /\ Issue.path i = "header." ++ field)
  /\ JsDate.isoDateParts "2025-02-30" = Some (2025, 2, 30)
  /\ JsDate.roundTrips 2025 2 30 = false.
Proof.
  split; [ | split; [ | split; vm_compute; reflexivity ] ].
  - intros obj field path required issues.
    exact (validateIsoDate_cases obj field path required issues).
  - intros input field s y m d Hfield Hs Hparts Hround.
    destruct (header_field_objects input field) as [Hobj Hh].
    { rewrite Hs. discriminate. }
    assert (Hin : exists required message,
               In (issuesOf (validateIsoDate (getField input "header") field
                               ("header." ++ field) required))
                 (Exhaustive.headerReports (getField input "header") "header")
               /\ issuesOf (validateIsoDate (getField input "header") field
                              ("header." ++ field) required)
                  = [ issue INVALID_DATE ("header." ++ field) message None ]).
    { assert (Hcase : forall required,
                 exists message,
                   issuesOf (validateIsoDate (getField input "header") field
                               ("header." ++ field) required)
                   = [ issue INVALID_DATE ("header." ++ field) message None ]).
      { intros required.
        pose proof (validateIsoDate_cases (getField input "header") field
                      ("header." ++ field) required []) as H.
        rewrite Hs in H.
        destruct (JsString.isEmpty s) eqn:Es.
        { destruct s; [ discriminate Hparts | discriminate Es ]. }
        rewrite Hparts, Hround in H. destruct H as [message H].
        exists message. unfold issuesOf. now rewrite H. }
      unfold Exhaustive.headerReports. rewrite Hh.
      destruct Hfield as [-> | ->].
      - destruct (Hcase true) as [message Hm]. exists true, message.
        split; [ cbn; auto | exact Hm ].
      - destruct (Hcase false) as [message Hm]. exists false, message.
        split; [ cbn; auto | exact Hm ]. }
    destruct Hin as (required & message & Hrep & Hiss).
    assert (Hg : In (issue INVALID_DATE ("header." ++ field) message None)
                   (groupIssues input)).
    { apply (header_issue_reported input _ _ Hh Hrep). rewrite Hiss. now left. }
    destruct (validateDraft_cases input Hobj) as [[_ ->] | [Hnil _]].
    + eexists. eexists. split; [ reflexivity | ]. split; [ exact Hg | ].
      split; reflexivity.
    + rewrite Hnil in Hg. contradiction.
Qed.

Lemma validateIsoDate_rules_witness :
  exists issues i,
    validateDraft Samples.february30 = Invalid issues
    /\ In i issues
    /\ Issue.code i = INVALID_DATE
    /\ Issue.path i = "header.issueDate".
Proof.
  apply (proj1 (proj2 validateIsoDate_rules) Samples.february30 "issueDate"
           "2025-02-30" 2025 2 30);
    first [ now left | vm_compute; reflexivity ].
Defined.

(** Scenario 4, evaluated. *)
Example validateDraft_scenario4 :
  validateDraft Samples.february30
  = Invalid
      [ issue INVALID_DATE "header.issueDate"
          "issueDate is not a valid calendar date" None ].
Proof. vm_compute. reflexivity. Qed.

(** C5, the claim as stated fails: neither [" 2025-01-15 "] nor the empty
    string matches YYYY-MM-DD, and neither gives an INVALID_FORMAT issue.
    The first is accepted as 2025-01-15; the empty due date is taken as
    absent and the empty issue date as missing. *)
Lemma validateIsoDate_unmatched_string_no_INVALID_FORMAT :
  JsDate.isoDateParts " 2025-01-15 " = None
  /\ JsDate.isoDateParts "" = None
  /\ validateIsoDate (VObj [ ("issueDate", VStr " 2025-01-15 ") ]) "issueDate"
       "header.issueDate" true []
     = (Some "2025-01-15", [])
  /\ validateIsoDate (VObj [ ("dueDate", VStr "") ]) "dueDate"
       "header.dueDate" false []
     = (None, [])
  /\ validateIsoDate (VObj [ ("issueDate", VStr "") ]) "issueDate"
       "header.issueDate" true []
     = (None,
        [ issue MISSING_REQUIRED "header.issueDate" "issueDate is required" None ])
  /\ exists draft,
       validateDraft Samples.blankDates = Valid draft
       /\ InvoiceHeader.issueDate (InvoiceDraft.header draft) = "2025-01-15"
       /\ InvoiceHeader.dueDate (InvoiceDraft.header draft) = None.
Proof.
  repeat split; try (vm_compute; reflexivity).
  eexists. split; [ vm_compute; reflexivity | split; reflexivity ].
Qed.

(* ====================================================================== *)
(** * The order of the two dates *)
(* ====================================================================== *)

Lemma ascii_compare_digitVal c c' :
  Ascii.compare c c' = (JsString.digitVal c ?= JsString.digitVal c').
Proof.
  unfold Ascii.compare, JsString.digitVal, JsString.code.
  rewrite <- (N2Z.inj_compare (N_of_ascii c) (N_of_ascii c')).
  destruct (Z.compare_spec (Z.of_N (N_of_ascii c)) (Z.of_N (N_of_ascii c')));
    symmetry; [ apply Z.compare_eq_iff | apply Z.compare_lt_iff
              | apply Z.compare_gt_iff ]; lia.
Qed.

Lemma isDigit_range c : JsString.isDigit c = true -> 0 <= JsString.digitVal c <= 9.
Proof.
  unfold JsString.isDigit, JsString.digitVal. intros H.
  apply andb_true_iff in H. destruct H as [H1 H2].
  apply N.leb_le in H1, H2. lia.
Qed.

Lemma isoDateParts_shape s y m d :
  JsDate.isoDateParts s = Some (y, m, d) ->
  exists y1 y2 y3 y4 m1 m2 d1 d2,
    s = JsDate.isoText y1 y2 y3 y4 m1 m2 d1 d2
    /\ Forall (fun c => 0 <= JsString.digitVal c <= 9)
         [y1; y2; y3; y4; m1; m2; d1; d2]
    /\ y = 1000 * JsString.digitVal y1 + 100 * JsString.digitVal y2
           + 10 * JsString.digitVal y3 + JsString.digitVal y4
    /\ m = 10 * JsString.digitVal m1 + JsString.digitVal m2
    /\ d = 10 * JsString.digitVal d1 + JsString.digitVal d2.
Proof.
  unfold JsDate.isoDateParts.
  do 10 (destruct s as [| ? s]; [ discriminate | ]).
  destruct s; [ | discriminate ].
  destruct (forallb _ _ && _ && _) eqn:E; [ | discriminate ].
  intros [= <- <- <-].
  apply andb_true_iff in E. destruct E as [E E2].
  apply andb_true_iff in E. destruct E as [E E1].
  apply Ascii.eqb_eq in E1, E2. subst.
  do 8 eexists. split; [ reflexivity | ]. split; [ | auto ].
  apply Forall_forall. intros c Hc. apply isDigit_range.
  revert c Hc. now apply forallb_forall.
Qed.

Lemma iso_lt_calendar a b ya ma da yb mb db :
  JsDate.isoDateParts a = Some (ya, ma, da) ->
  JsDate.isoDateParts b = Some (yb, mb, db) ->
  JsString.lt a b = true <->
  (ya < yb \/ (ya = yb /\ (ma < mb \/ (ma = mb /\ da < db)))).
Proof.
  intros Ha Hb.
  apply isoDateParts_shape in Ha, Hb.
  destruct Ha as (y1 & y2 & y3 & y4 & m1 & m2 & d1 & d2 & -> & Fa & -> & -> & ->).
  destruct Hb as (z1 & z2 & z3 & z4 & n1 & n2 & e1 & e2 & -> & Fb & -> & -> & ->).
  repeat match goal with
         | H : Forall _ (_ :: _) |- _ =>
             let H1 := fresh in let H2 := fresh in
             apply Forall_cons_iff in H; destruct H as [H1 H2]
         end.
  unfold JsString.lt, String.ltb, JsDate.isoText. cbn [String.compare].
  rewrite !ascii_compare_digitVal.
  change (JsString.digitVal "-" ?= JsString.digitVal "-") with Eq.
  repeat match goal with
         | |- context [?x ?= ?y] => destruct (Z.compare_spec x y)
         end; split; intros; try discriminate; try reflexivity; try lia.
Qed.

Lemma avoids_nil c : avoids c [].
Proof. intros i []. Qed.

Lemma avoids_app c l r : avoids c l -> avoids c r -> avoids c (l ++ r).
Proof. intros Hl Hr i H. apply in_app_or in H. destruct H; auto. Qed.

Lemma avoids_one c i : Issue.code i <> c -> avoids c [i].
Proof. intros H j [<- | []]. exact H. Qed.

Ltac field_avoids :=
  unfold issuesOf;
  repeat match goal with
         | |- context [match ?x with _ => _ end] => destruct x
         end;
  cbn; first [ apply avoids_nil | apply avoids_one; discriminate ].

Lemma validateRequiredString_avoids obj field path :
  avoids DATE_ORDER (issuesOf (validateRequiredString obj field path)).
Proof. unfold validateRequiredString. field_avoids. Qed.

Lemma validateOptionalString_avoids obj field path :
  avoids DATE_ORDER (issuesOf (validateOptionalString obj field path)).
Proof. unfold validateOptionalString. field_avoids. Qed.

Lemma validateRequiredNumber_avoids obj field path options :
  avoids DATE_ORDER (issuesOf (validateRequiredNumber obj field path options)).
Proof. unfold validateRequiredNumber, validateNumberValue. field_avoids. Qed.

Lemma validateOptionalNumber_avoids obj field path options :
  avoids DATE_ORDER (issuesOf (validateOptionalNumber obj field path options)).
Proof. unfold validateOptionalNumber. field_avoids. Qed.

Lemma validateIsoDate_avoids obj field path required :
  avoids DATE_ORDER (issuesOf (validateIsoDate obj field path required)).
Proof. unfold validateIsoDate. field_avoids. Qed.

Lemma validateCurrency_avoids obj field path :
  avoids DATE_ORDER (issuesOf (validateCurrency obj field path)).
Proof.
  unfold validateCurrency. split_binds.
  apply avoids_app; [ apply validateRequiredString_avoids | ].
  field_avoids.
Qed.

Lemma avoids_concat c reports :
  Forall (avoids c) reports -> avoids c (List.concat reports).
Proof.
  induction 1 as [| r reports Hr _ IH]; cbn [List.concat].
  - apply avoids_nil.
  - now apply avoids_app.
Qed.

Ltac reports_avoid :=
  repeat first
    [ apply Forall_nil
    | apply Forall_cons
    | apply validateRequiredString_avoids
    | apply validateOptionalString_avoids
    | apply validateRequiredNumber_avoids
    | apply validateOptionalNumber_avoids
    | apply validateIsoDate_avoids
    | apply validateCurrency_avoids
    | apply avoids_one; discriminate ].

Lemma businessReports_avoid input basePath :
  Forall (avoids DATE_ORDER) (Exhaustive.businessReports input basePath).
Proof.
  unfold Exhaustive.businessReports. destruct (isObject input); reports_avoid.
Qed.

Lemma clientReports_avoid input basePath :
  Forall (avoids DATE_ORDER) (Exhaustive.clientReports input basePath).
Proof.
  unfold Exhaustive.clientReports. destruct (isObject input); reports_avoid.
Qed.

Lemma lineItemReports_avoid input basePath :
  Forall (avoids DATE_ORDER) (Exhaustive.lineItemReports input basePath).
Proof.
  unfold Exhaustive.lineItemReports. destruct (isObject input); reports_avoid.
Qed.

Lemma elementReports_avoid elements basePath :
  forall i, Forall (avoids DATE_ORDER) (Exhaustive.elementReports elements basePath i).
Proof.
  induction elements as [| x rest IH]; intros i; cbn [Exhaustive.elementReports].
  - apply Forall_nil.
  - apply Forall_app. split; [ apply lineItemReports_avoid | apply IH ].
Qed.

Lemma lineItemsReports_avoid input basePath :
  Forall (avoids DATE_ORDER) (Exhaustive.lineItemsReports input basePath).
Proof.
  unfold Exhaustive.lineItemsReports.
  destruct input as [ | | b | x | s | t | [| e l] | fs ]; try reports_avoid.
  apply elementReports_avoid.
Qed.

(** A DATE_ORDER issue can only come from the cross-field check. *)
Lemma date_order_origin input i :
  In i (groupIssues input) ->
  Issue.code i = DATE_ORDER ->
  isObject (getField input "header") = true
  /\ In i (Exhaustive.dateOrderReport (getField input "header") "header").
Proof.
  intros Hin Hcode. rewrite groupIssues_exhaustive in Hin.
  unfold Exhaustive.fieldReports in Hin. rewrite !concat_app in Hin.
  apply in_app_or in Hin. destruct Hin as [Hin | Hin].
  { now elim (avoids_concat _ _ (businessReports_avoid _ _) i Hin). }
  apply in_app_or in Hin. destruct Hin as [Hin | Hin].
  { now elim (avoids_concat _ _ (clientReports_avoid _ _) i Hin). }
  apply in_app_or in Hin. destruct Hin as [Hin | Hin].
  2: { now elim (avoids_concat _ _ (lineItemsReports_avoid _ _) i Hin). }
  unfold Exhaustive.headerReports in Hin.
  destruct (isObject (getField input "header")).
  - split; [ reflexivity | ].
    cbn [List.concat] in Hin. rewrite app_nil_r in Hin.
    repeat (apply in_app_or in Hin; destruct Hin as [Hin | Hin];
            [ exfalso;
              first [ now apply (validateRequiredString_avoids _ _ _ i Hin)
                    | now apply (validateIsoDate_avoids _ _ _ _ i Hin)
                    | now apply (validateCurrency_avoids _ _ _ i Hin)
                    | now apply (validateOptionalNumber_avoids _ _ _ _ i Hin)
                    | now apply (validateOptionalString_avoids _ _ _ i Hin) ]
            | ]).
    exact Hin.
  - cbn in Hin. destruct Hin as [<- | []]. discriminate.
Qed.

Lemma validateIsoDate_some_object obj field path required s :
  resultOf (validateIsoDate obj field path required) = Some s ->
  isObject obj = true.
Proof.
  unfold validateIsoDate, resultOf.
  destruct obj; try reflexivity; cbn; destruct required; discriminate.
Qed.

Lemma lt_irreflexive s : JsString.lt s s = false.
Proof.
  unfold JsString.lt, String.ltb.
  pose proof (String.compare_antisym s s) as H.
  destruct (String.compare s s); try reflexivity; discriminate H.
Qed.

(** The cross-field check compares the two validated date strings.  For
    an input whose [issueDate] and [dueDate] both validate on their own,
    [validateDraft] reports a DATE_ORDER issue, at path
    ["header.dueDate"], if and only if the due date is before the issue
    date in the lexicographic order of the two strings; no DATE_ORDER issue
    has another path.  On two strings of the shape YYYY-MM-DD that order is
    the order of the calendar.  No string is before itself: 2025-01-15 is
    accepted as the due date of an invoice issued on that day, and
    2025-01-14 is rejected. *)
Lemma dueDate_order_strings :
  (forall input issueDate dueDate,
      resultOf (validateIsoDate (getField input "header") "issueDate"
                  "header.issueDate" true) = Some issueDate ->
      resultOf (validateIsoDate (getField input "header") "dueDate"
                  "header.dueDate" false) = Some dueDate ->
      ((exists issues i,
           validateDraft input = Invalid issues
           /\ In i issues
           /\ Issue.code i = DATE_ORDER
           /\ Issue.path i = "header.dueDate")
       <-> JsString.lt dueDate issueDate = true)
      /\ (forall issues i,
            validateDraft input = Invalid issues -> In i issues ->
            Issue.code i = DATE_ORDER -> Issue.path i = "header.dueDate"))
  /\ (forall a b ya ma da yb mb db,
        JsDate.isoDateParts a = Some (ya, ma, da) ->
        JsDate.isoDateParts b = Some (yb, mb, db) ->
        (JsString.lt a b = true
         <-> ya < yb \/ (ya = yb /\ (ma < mb \/ (ma = mb /\ da < db)))))
  /\ (forall date, JsString.lt date date = false)
  /\ (exists draft, validateDraft (Samples.dueOn "2025-01-15") = Valid draft)
  /\ validateDraft (Samples.dueOn "2025-01-14")
     = Invalid [ issue DATE_ORDER "header.dueDate"
                   "Due date cannot be before issue date"
                   (Some "Set due date on or after the issue date") ].
Proof.
  split; [ | split; [ | split; [ exact lt_irreflexive | split ] ] ].
  - intros input issueDate dueDate Hi Hd.
    pose proof (validateIsoDate_some_object _ _ _ _ _ Hi) as Hh.
    assert (Hobj : isObject input = true).
    { apply (getField_object input "header"). intros E.
      rewrite E in Hh. discriminate. }
    assert (Hreport :
              Exhaustive.dateOrderReport (getField input "header") "header"
              = if JsString.lt dueDate issueDate
                then [ issue DATE_ORDER "header.dueDate"
                         "Due date cannot be before issue date"
                         (Some "Set due date on or after the issue date") ]
                else []).
    { unfold Exhaustive.dateOrderReport.
      change ("header" ++ ".issueDate") with "header.issueDate".
      change ("header" ++ ".dueDate") with "header.dueDate".
      now rewrite Hi, Hd. }
    assert (Horigin : forall issues i,
               validateDraft input = Invalid issues -> In i issues ->
               Issue.code i = DATE_ORDER ->
               JsString.lt dueDate issueDate = true
               /\ Issue.path i = "header.dueDate").
    { intros issues i Hv Hin Hc.
      destruct (validateDraft_cases input Hobj)
        as [[_ Hv'] | [_ (b & c & h & l & _ & _ & _ & _ & Hv')]];
        rewrite Hv' in Hv; [ | discriminate ].
      injection Hv as <-.
      destruct (date_order_origin input i Hin Hc) as [_ Hrep].
      rewrite Hreport in Hrep.
      destruct (JsString.lt dueDate issueDate); [ | contradiction ].
      destruct Hrep as [<- | []]. split; reflexivity. }
    split; [ split | ].
    + intros (issues & i & Hv & Hin & Hc & _).
      now destruct (Horigin issues i Hv Hin Hc).
    + intros Hlt.
      assert (Hin : In (issue DATE_ORDER "header.dueDate"
                          "Due date cannot be before issue date"
                          (Some "Set due date on or after the issue date"))
                      (groupIssues input)).
      { apply (header_issue_reported input
                 (Exhaustive.dateOrderReport (getField input "header") "header"));
          [ exact Hh | | ].
        - unfold Exhaustive.headerReports. rewrite Hh. cbn. auto 10.
        - rewrite Hreport, Hlt. now left. }
      destruct (validateDraft_cases input Hobj) as [[_ ->] | [Hnil _]].
      * eexists. eexists. split; [ reflexivity | ]. split; [ exact Hin | ].
        split; reflexivity.
      * rewrite Hnil in Hin. contradiction.
    + intros issues i Hv Hin Hc. now destruct (Horigin issues i Hv Hin Hc).
  - exact iso_lt_calendar.
  - eexists. vm_compute. reflexivity.
  - vm_compute. reflexivity.
Qed.

(** C6. The code departs from the claim when one of the two dates is a
    native date outside the years 0000 to 9999, which [validateIsoDate]
    accepts and writes with a sign and a year of six digits.  An invoice
    issued on the native date of 1 January 10000 and due on 9999-12-31,
    the day before, validates: both dates validate on their own, the due
    date is one day earlier, and no DATE_ORDER issue is reported.  An
    invoice issued on 9999-12-31 and due on that native date, the day
    after, is rejected with DATE_ORDER. *)
Theorem dueDate_order_native_date :
  resultOf (validateIsoDate (getField Samples.dueBeforeYear10000 "header")
              "issueDate" "header.issueDate" true) = Some "+010000-01-01"
  /\ resultOf (validateIsoDate (getField Samples.dueBeforeYear10000 "header")
                 "dueDate" "header.dueDate" false) = Some "9999-12-31"
  /\ JsDate.ofCalendar 9999 12 31 = Some (253402300800000 - JsDate.msPerDay)
  /\ (exists draft,
        validateDraft Samples.dueBeforeYear10000 = Valid draft
        /\ InvoiceHeader.issueDate (InvoiceDraft.header draft) = "+010000-01-01"
        /\ InvoiceHeader.dueDate (InvoiceDraft.header draft) = Some "9999-12-31")
  /\ validateDraft Samples.dueInYear10000
     = Invalid [ issue DATE_ORDER "header.dueDate"
                   "Due date cannot be before issue date"
                   (Some "Set due date on or after the issue date") ].
Proof.
  split; [ vm_compute; reflexivity | ].
  split; [ vm_compute; reflexivity | ].
  split; [ vm_compute; reflexivity | ].
  split; [ | vm_compute; reflexivity ].
  eexists. split; [ vm_compute; reflexivity | ]. split; reflexivity.
Qed.

(* ====================================================================== *)
(** * The calendar *)
(* ====================================================================== *)

Section Calendar.

Import JsDate.

Lemma div_step a n :
  0 < n -> (a + 1) / n = a / n + (if (a + 1) mod n =? 0 then 1 else 0).
Proof.
  intros Hn. destruct ((a + 1) mod n =? 0) eqn:E.
  - apply Z.eqb_eq in E. Z.to_euclidean_division_equations; nia.
  - apply Z.eqb_neq in E. Z.to_euclidean_division_equations; nia.
Qed.

Lemma mod_shift y n k : 0 < n -> k mod n = 0 -> (y + k) mod n = y mod n.
Proof.
  intros Hn Hk. rewrite Z.add_mod by lia. rewrite Hk, Z.add_0_r.
  apply Z.mod_mod. lia.
Qed.

Lemma DayFromYear_succ y :
  DayFromYear (y + 1) = DayFromYear y + 365 + leapDays y.
Proof.
  unfold DayFromYear, leapDays, isLeapYear.
  replace (y + 1 - 1969) with (y - 1969 + 1) by lia.
  replace (y + 1 - 1901) with (y - 1901 + 1) by lia.
  replace (y + 1 - 1601) with (y - 1601 + 1) by lia.
  rewrite (div_step (y - 1969) 4), (div_step (y - 1901) 100),
    (div_step (y - 1601) 400) by lia.
  replace (y - 1969 + 1) with (y + (-1968)) by lia.
  replace (y - 1901 + 1) with (y + (-1900)) by lia.
  replace (y - 1601 + 1) with (y + (-1600)) by lia.
  rewrite !mod_shift by (lia || reflexivity).
  assert (H1 : y mod 400 = 0 -> y mod 100 = 0)
    by (intros; Z.to_euclidean_division_equations; lia).
  assert (H2 : y mod 100 = 0 -> y mod 4 = 0)
    by (intros; Z.to_euclidean_division_equations; lia).
  destruct (y mod 4 =? 0) eqn:E4; destruct (y mod 100 =? 0) eqn:E100;
    destruct (y mod 400 =? 0) eqn:E400; cbn [negb];
    rewrite ?Z.eqb_eq, ?Z.eqb_neq in *; lia.
Qed.

Lemma YearFromDay_spec d :
  DayFromYear (YearFromDay d) <= d < DayFromYear (YearFromDay d + 1).
Proof.
  unfold YearFromDay.
  set (y0 := 1970 + (400 * d) / 146097).
  assert (H : DayFromYear (y0 - 1) <= d < DayFromYear (y0 + 2)).
  { unfold DayFromYear, y0. Z.to_euclidean_division_equations; lia. }
  destruct (DayFromYear (y0 + 1) <=? d) eqn:E1.
  - apply Z.leb_le in E1. replace (y0 + 1 + 1) with (y0 + 2) by lia. lia.
  - apply Z.leb_gt in E1. destruct (DayFromYear y0 <=? d) eqn:E2.
    + apply Z.leb_le in E2. lia.
    + apply Z.leb_gt in E2. replace (y0 - 1 + 1) with y0 by lia. lia.
Qed.

Lemma leapDays_range y : leapDays y = 0 \/ leapDays y = 1.
Proof. unfold leapDays. destruct (isLeapYear y); auto. Qed.

Lemma DayWithinYear_range t :
  0 <= DayWithinYear t < 365 + leapDays (YearFromTime t).
Proof.
  unfold DayWithinYear, YearFromTime.
  pose proof (YearFromDay_spec (Day t)) as H.
  rewrite DayFromYear_succ in H. lia.
Qed.

(** The month and the day of the month of a day within the year, and
    back. *)
Lemma monthOfDay_spec leap dy :
  (leap = 0 \/ leap = 1) -> 0 <= dy < 365 + leap ->
  let m := monthOfDay leap dy in
  0 <= m <= 11 /\ 1 <= dy - monthStart leap m + 1 <= 31.
Proof.
  intros Hl Hd. cbv zeta. unfold monthOfDay.
  repeat match goal with
         | |- context [if ?a <? ?b then _ else _] =>
             destruct (Z.ltb_spec a b)
         end; cbn [monthStart]; try lia.
Qed.

Lemma Day_of_day n : Day (msPerDay * n) = n.
Proof. unfold Day, msPerDay. rewrite Z.mul_comm. now apply Z.div_mul. Qed.

(** The calendar date of a time value names the day of that time value. *)
Lemma calendar_round_trip t :
  0 <= MonthFromTime t <= 11
  /\ 1 <= DateFromTime t <= 31
  /\ roundTrips (YearFromTime t) (MonthFromTime t + 1) (DateFromTime t) = true.
Proof.
  pose proof (DayWithinYear_range t) as Hr.
  pose proof (leapDays_range (YearFromTime t)) as Hl.
  pose proof (monthOfDay_spec _ _ Hl Hr) as [Hm Hd].
  fold (MonthFromTime t) in Hm, Hd. fold (DateFromTime t) in Hd.
  assert (Hday : MakeDay (YearFromTime t) (MonthFromTime t + 1 - 1) (DateFromTime t)
                 = Day t).
  { unfold MakeDay. replace (MonthFromTime t + 1 - 1) with (MonthFromTime t) by lia.
    unfold DateFromTime, DayWithinYear. lia. }
  split; [ exact Hm | split; [ exact Hd | ] ].
  unfold roundTrips, ofCalendar. rewrite Hday.
  replace ((1 <=? MonthFromTime t + 1) && (MonthFromTime t + 1 <=? 12)
           && (1 <=? DateFromTime t) && (DateFromTime t <=? 31)) with true
    by (symmetry; rewrite !andb_true_iff, !Z.leb_le; lia).
  assert (Hy : getUTCFullYear (msPerDay * Day t) = YearFromTime t).
  { unfold getUTCFullYear, YearFromTime. now rewrite Day_of_day. }
  assert (Hw : DayWithinYear (msPerDay * Day t) = DayWithinYear t).
  { unfold DayWithinYear, YearFromTime. now rewrite Day_of_day. }
  assert (Hmo : getUTCMonth (msPerDay * Day t) = MonthFromTime t).
  { unfold getUTCMonth, MonthFromTime. rewrite Hw. unfold getUTCFullYear in Hy.
    now rewrite Hy. }
  assert (Hda : getUTCDate (msPerDay * Day t) = DateFromTime t).
  { unfold getUTCDate, DateFromTime. unfold getUTCMonth in Hmo.
    unfold getUTCFullYear in Hy. now rewrite Hw, Hmo, Hy. }
  rewrite Hy, Hmo, Hda, !Z.eqb_refl. reflexivity.
Qed.

End Calendar.

(* ====================================================================== *)
(** * Dates written by [toISOString] *)
(* ====================================================================== *)

Lemma code_digitChar n :
  JsString.code (JsDate.digitChar n) = Z.to_N (48 + n mod 10).
Proof.
  unfold JsString.code, JsDate.digitChar. apply N_ascii_embedding.
  pose proof (Z.mod_pos_bound n 10 ltac:(lia)). lia.
Qed.

Lemma digitVal_digitChar n : JsString.digitVal (JsDate.digitChar n) = n mod 10.
Proof.
  unfold JsString.digitVal. rewrite code_digitChar.
  pose proof (Z.mod_pos_bound n 10 ltac:(lia)). lia.
Qed.

Lemma isDigit_digitChar n : JsString.isDigit (JsDate.digitChar n) = true.
Proof.
  unfold JsString.isDigit. rewrite code_digitChar.
  pose proof (Z.mod_pos_bound n 10 ltac:(lia)).
  apply andb_true_iff. split; apply N.leb_le; lia.
Qed.

Lemma isoDateParts_isoText y1 y2 y3 y4 m1 m2 d1 d2 :
  forallb JsString.isDigit [y1; y2; y3; y4; m1; m2; d1; d2] = true ->
  JsDate.isoDateParts (JsDate.isoText y1 y2 y3 y4 m1 m2 d1 d2)
  = Some (1000 * JsString.digitVal y1 + 100 * JsString.digitVal y2
          + 10 * JsString.digitVal y3 + JsString.digitVal y4,
          10 * JsString.digitVal m1 + JsString.digitVal m2,
          10 * JsString.digitVal d1 + JsString.digitVal d2).
Proof.
  intros H. unfold JsDate.isoDateParts, JsDate.isoText. now rewrite H.
Qed.

(** The ISO date of a time value in the years 0 to 9999 has the shape
    YYYY-MM-DD and reads back as its year, month and day. *)
Lemma isoDateParts_isoDatePart t :
  0 <= JsDate.YearFromTime t <= 9999 ->
  JsDate.isoDateParts (JsDate.isoDatePart t)
  = Some (JsDate.YearFromTime t, JsDate.MonthFromTime t + 1, JsDate.DateFromTime t).
Proof.
  intros Hy.
  destruct (calendar_round_trip t) as (Hm & Hd & _).
  unfold JsDate.isoDatePart, JsDate.isoYear.
  replace ((0 <=? JsDate.YearFromTime t) && (JsDate.YearFromTime t <=? 9999))
    with true by (symmetry; rewrite andb_true_iff, !Z.leb_le; lia).
  set (y := JsDate.YearFromTime t) in *.
  set (m := JsDate.MonthFromTime t + 1) in *.
  set (d := JsDate.DateFromTime t) in *.
  change (JsDate.pad4 y ++ "-" ++ JsDate.pad2 m ++ "-" ++ JsDate.pad2 d)
    with (JsDate.isoText (JsDate.digitChar (y / 1000)) (JsDate.digitChar (y / 100))
            (JsDate.digitChar (y / 10)) (JsDate.digitChar y)
            (JsDate.digitChar (m / 10)) (JsDate.digitChar m)
            (JsDate.digitChar (d / 10)) (JsDate.digitChar d)).
  rewrite isoDateParts_isoText
    by (cbn [forallb]; now rewrite !isDigit_digitChar).
  rewrite !digitVal_digitChar.
  apply f_equal. apply f_equal2; [ apply f_equal2 | ].
  - clearbody y. Z.to_euclidean_division_equations; lia.
  - assert (1 <= m <= 12) by (subst m; lia). clearbody m.
    Z.to_euclidean_division_equations; lia.
  - clearbody d. Z.to_euclidean_division_equations; lia.
Qed.

(* ====================================================================== *)
(** * Trimming *)
(* ====================================================================== *)

Lemma trimEnd_idempotent s : JsString.trimEnd (JsString.trimEnd s) = JsString.trimEnd s.
Proof.
  induction s as [| c r IH]; [ reflexivity | ].
  cbn [JsString.trimEnd].
  destruct (JsString.isWhiteSpace c && JsString.isEmpty (JsString.trimEnd r)) eqn:E;
    [ reflexivity | ].
  cbn [JsString.trimEnd]. now rewrite IH, E.
Qed.

Lemma trimEnd_cons c r :
  JsString.isWhiteSpace c = false ->
  JsString.trimEnd (String c r) = String c (JsString.trimEnd r).
Proof. intros H. cbn [JsString.trimEnd]. now rewrite H. Qed.

Lemma trimStart_head s :
  match JsString.trimStart s with
  | String c _ => JsString.isWhiteSpace c = false
  | EmptyString => True
  end.
Proof.
  induction s as [| c r IH]; [ exact I | ].
  cbn [JsString.trimStart].
  destruct (JsString.isWhiteSpace c) eqn:E; [ exact IH | exact E ].
Qed.

Lemma trim_idempotent s : JsString.trim (JsString.trim s) = JsString.trim s.
Proof.
  unfold JsString.trim.
  pose proof (trimStart_head s) as H.
  destruct (JsString.trimStart s) as [| c r]; [ reflexivity | ].
  rewrite (trimEnd_cons c r H).
  cbn [JsString.trimStart]. rewrite H.
  now rewrite trimEnd_cons, trimEnd_idempotent.
Qed.

Lemma trim_trimmed s :
  JsString.isEmpty (JsString.trim s) = false -> Normal.trimmed (JsString.trim s).
Proof. intros H. split; [ exact H | apply trim_idempotent ]. Qed.

Lemma digit_not_blank c :
  0 <= JsString.digitVal c <= 9 -> JsString.isWhiteSpace c = false.
Proof.
  unfold JsString.digitVal, JsString.isWhiteSpace. intros H.
  apply orb_false_iff. split; [ apply orb_false_iff; split | ].
  - apply andb_false_iff. right. apply N.leb_gt. lia.
  - apply N.eqb_neq. lia.
  - apply N.eqb_neq. lia.
Qed.

(** A string of the shape YYYY-MM-DD has nothing to trim. *)
Lemma trim_isoDate s p : JsDate.isoDateParts s = Some p -> JsString.trim s = s.
Proof.
  destruct p as [[y m] d]. intros H.
  apply isoDateParts_shape in H.
  destruct H as (y1 & y2 & y3 & y4 & m1 & m2 & d1 & d2 & -> & F & _).
  repeat match goal with
         | H : Forall _ (_ :: _) |- _ =>
             let H1 := fresh in let H2 := fresh in
             apply Forall_cons_iff in H; destruct H as [H1 H2];
             apply digit_not_blank in H1
         end.
  unfold JsString.trim, JsDate.isoText. cbn [JsString.trimStart].
  match goal with H : JsString.isWhiteSpace y1 = false |- _ => rewrite H end.
  now rewrite !trimEnd_cons by (assumption || reflexivity).
Qed.

Lemma supported_currency_normal c :
  isSupportedCurrency c = true ->
  Normal.trimmed c /\ JsString.toUpperCase c = c.
Proof.
  unfold isSupportedCurrency. intros H.
  apply existsb_exists in H. destruct H as (x & Hin & Heq).
  apply String.eqb_eq in Heq. subst x.
  unfold SUPPORTED_CURRENCIES in Hin. cbn [In] in Hin.
  repeat (destruct Hin as [<- | Hin];
          [ split; [ split | ]; vm_compute; reflexivity | ]).
  contradiction.
Qed.

(* ====================================================================== *)
(** * A normal value validates to itself *)
(* ====================================================================== *)

Lemma whenTruthy_trimmed s : Normal.trimmed s -> whenTruthy (Some s) = Some s.
Proof. intros [H _]. unfold whenTruthy, falsy. now rewrite H. Qed.

Lemma whenTruthy_trimmedOption o : Normal.trimmedOption o -> whenTruthy o = o.
Proof. destruct o; [ apply whenTruthy_trimmed | reflexivity ]. Qed.

Lemma requiredString_normal obj field path s :
  getField obj field = VStr s -> Normal.trimmed s ->
  resultOf (validateRequiredString obj field path) = Some s
  /\ issuesOf (validateRequiredString obj field path) = [].
Proof.
  intros Hf [Hne Ht]. unfold validateRequiredString, resultOf, issuesOf.
  rewrite Hf. cbn. now rewrite Ht, Hne.
Qed.

Lemma optionalString_normal obj field path o :
  getField obj field
  = match o with Some s => VStr s | None => VUndefined end ->
  Normal.trimmedOption o ->
  resultOf (validateOptionalString obj field path) = o
  /\ issuesOf (validateOptionalString obj field path) = [].
Proof.
  intros Hf Ho. unfold validateOptionalString, resultOf, issuesOf.
  rewrite Hf. destruct o as [s |]; cbn; [ | now split ].
  destruct Ho as [Hne Ht]. rewrite Hne. cbn. rewrite Ht.
  now rewrite (whenTruthy_trimmed s (conj Hne Ht)).
Qed.

Lemma isoDate_normal obj field path required s :
  getField obj field = VStr s -> Normal.isCalendarDate s = true ->
  resultOf (validateIsoDate obj field path required) = Some s
  /\ issuesOf (validateIsoDate obj field path required) = [].
Proof.
  intros Hf Hs. unfold Normal.isCalendarDate in Hs.
  pose proof (validateIsoDate_cases obj field path required []) as H.
  rewrite Hf in H.
  destruct (JsDate.isoDateParts s) as [[[y m] d] |] eqn:Hp; [ | discriminate ].
  rewrite (isoDateParts_nonempty s _ Hp), (trim_isoDate s _ Hp), Hp, Hs in H.
  unfold resultOf, issuesOf. now rewrite H.
Qed.

Lemma isoDate_absent obj field path :
  getField obj field = VUndefined ->
  resultOf (validateIsoDate obj field path false) = None
  /\ issuesOf (validateIsoDate obj field path false) = [].
Proof.
  intros Hf. unfold validateIsoDate, resultOf, issuesOf. now rewrite Hf.
Qed.

Lemma currency_normal obj field path c :
  getField obj field = VStr c -> isSupportedCurrency c = true ->
  resultOf (validateCurrency obj field path) = Some c
  /\ issuesOf (validateCurrency obj field path) = [].
Proof.
  intros Hf Hc.
  destruct (supported_currency_normal c Hc) as [Ht Hu].
  destruct (requiredString_normal obj field path c Hf Ht) as [Hr Hi].
  unfold validateCurrency. split_binds. rewrite Hr, Hi.
  destruct Ht as [Hne _]. rewrite Hne, Hu, Hc. now split.
Qed.

Lemma taxRate_normal obj field path o :
  getField obj field
  = match o with Some r => VNum r | None => VUndefined end ->
  match o with Some r => Normal.taxRate r | None => True end ->
  resultOf (validateOptionalNumber obj field path taxRateOptions) = o
  /\ issuesOf (validateOptionalNumber obj field path taxRateOptions) = [].
Proof.
  intros Hf Ho. unfold validateOptionalNumber, resultOf, issuesOf.
  rewrite Hf. destruct o as [r |]; cbn; [ | now split ].
  destruct Ho as (Hn & Hlo & Hhi). now rewrite Hn, Hlo, Hhi.
Qed.

Lemma quantity_normal obj field path q :
  getField obj field = VNum q ->
  JsNumber.isNaN q = false -> JsNumber.lt q PrimFloat.zero = false ->
  JsNumber.strictEq q PrimFloat.zero = false ->
  resultOf (validateRequiredNumber obj field path quantityOptions) = Some q
  /\ issuesOf (validateRequiredNumber obj field path quantityOptions) = [].
Proof.
  intros Hf Hn Hlt Hz.
  unfold validateRequiredNumber, validateNumberValue, resultOf, issuesOf.
  rewrite Hf. cbn. now rewrite Hn, Hlt, Hz.
Qed.

Lemma unitPrice_normal obj field path p :
  getField obj field = VNum p ->
  JsNumber.isNaN p = false -> JsNumber.lt p PrimFloat.zero = false ->
  resultOf (validateRequiredNumber obj field path unitPriceOptions) = Some p
  /\ issuesOf (validateRequiredNumber obj field path unitPriceOptions) = [].
Proof.
  intros Hf Hn Hlt.
  unfold validateRequiredNumber, validateNumberValue, resultOf, issuesOf.
  rewrite Hf. cbn. now rewrite Hn, Hlt.
Qed.

Lemma validateBusiness_normal b path :
  Normal.business b ->
  resultOf (validateBusiness (businessValue b) path) = Some b
  /\ issuesOf (validateBusiness (businessValue b) path) = [].
Proof.
  destruct b as [n a e p l t]. intros (Hn & Ha & He & Hp & Hl & Ht).
  cbn [Business.name Business.address Business.email Business.phone
       Business.logoUrl Business.taxId] in *.
  set (v := businessValue (Business.mk n a e p l t)).
  destruct (requiredString_normal v "name" (path ++ ".name") n eq_refl Hn)
    as [R1 I1].
  destruct (requiredString_normal v "address" (path ++ ".address") a eq_refl Ha)
    as [R2 I2].
  destruct (requiredString_normal v "email" (path ++ ".email") e eq_refl He)
    as [R3 I3].
  destruct (optionalString_normal v "phone" (path ++ ".phone") p
              ltac:(destruct p, l, t; reflexivity) Hp) as [R4 I4].
  destruct (optionalString_normal v "logoUrl" (path ++ ".logoUrl") l
              ltac:(destruct p, l, t; reflexivity) Hl) as [R5 I5].
  destruct (optionalString_normal v "taxId" (path ++ ".taxId") t
              ltac:(destruct p, l, t; reflexivity) Ht) as [R6 I6].
  unfold validateBusiness. change (isObject v) with true. cbn [negb].
  split_binds. rewrite R1, R2, R3, R4, R5, R6, I1, I2, I3, I4, I5, I6.
  destruct Hn as [-> _], Ha as [-> _], He as [-> _].
  rewrite !whenTruthy_trimmedOption by assumption. now split.
Qed.

Lemma validateClient_normal c path :
  Normal.client c ->
  resultOf (validateClient (clientValue c) path) = Some c
  /\ issuesOf (validateClient (clientValue c) path) = [].
Proof.
  destruct c as [n a e]. intros (Hn & Ha & He).
  cbn [Client.name Client.address Client.email] in *.
  set (v := clientValue (Client.mk n a e)).
  destruct (requiredString_normal v "name" (path ++ ".name") n eq_refl Hn)
    as [R1 I1].
  destruct (requiredString_normal v "address" (path ++ ".address") a eq_refl Ha)
    as [R2 I2].
  destruct (optionalString_normal v "email" (path ++ ".email") e
              ltac:(destruct e; reflexivity) He) as [R3 I3].
  unfold validateClient. change (isObject v) with true. cbn [negb].
  split_binds. rewrite R1, R2, R3, I1, I2, I3.
  destruct Hn as [-> _], Ha as [-> _].
  rewrite !whenTruthy_trimmedOption by assumption. now split.
Qed.

Lemma isCalendarDate_nonempty s :
  Normal.isCalendarDate s = true -> JsString.isEmpty s = false.
Proof.
  unfold Normal.isCalendarDate.
  destruct (JsDate.isoDateParts s) eqn:E; [ | discriminate ].
  intros _. eapply isoDateParts_nonempty. eassumption.
Qed.

Lemma validateHeader_normal h path :
  Normal.header h ->
  resultOf (validateHeader (headerValue h) path) = Some h
  /\ issuesOf (validateHeader (headerValue h) path) = [].
Proof.
  destruct h as [n i d c r o]. intros (Hn & Hi & Hd & Hc & Hr & Ho & Hord).
  cbn [InvoiceHeader.invoiceNumber InvoiceHeader.issueDate InvoiceHeader.dueDate
       InvoiceHeader.currency InvoiceHeader.taxRate InvoiceHeader.notes] in *.
  set (v := headerValue (InvoiceHeader.mk n i d c r o)).
  destruct (requiredString_normal v "invoiceNumber" (path ++ ".invoiceNumber") n
              eq_refl Hn) as [R1 I1].
  destruct (isoDate_normal v "issueDate" (path ++ ".issueDate") true i eq_refl Hi)
    as [R2 I2].
  assert (resultOf (validateIsoDate v "dueDate" (path ++ ".dueDate") false) = d
          /\ issuesOf (validateIsoDate v "dueDate" (path ++ ".dueDate") false) = [])
    as [R3 I3].
  { destruct d as [d |].
    - apply isoDate_normal; [ reflexivity | exact Hd ].
    - apply isoDate_absent. destruct r, o; reflexivity. }
  destruct (currency_normal v "currency" (path ++ ".currency") c eq_refl Hc)
    as [R4 I4].
  destruct (taxRate_normal v "taxRate" (path ++ ".taxRate") r
              ltac:(destruct d, r, o; reflexivity) Hr) as [R5 I5].
  destruct (optionalString_normal v "notes" (path ++ ".notes") o
              ltac:(destruct d, r, o; reflexivity) Ho) as [R6 I6].
  unfold validateHeader. change (isObject v) with true. cbn [negb].
  split_binds. rewrite R1, R2, R3, R4, R5, R6, I1, I2, I3, I4, I5, I6.
  destruct (supported_currency_normal c Hc) as [[Ec _] _].
  destruct Hn as [En _]. rewrite En, Ec, (isCalendarDate_nonempty i Hi).
  rewrite (whenTruthy_trimmedOption o Ho).
  destruct d as [d |].
  - rewrite (isCalendarDate_nonempty d Hd), Hord. cbn.
    unfold whenTruthy, falsy. now rewrite (isCalendarDate_nonempty d Hd).
  - now split.
Qed.

Lemma validateLineItem_normal item path :
  Normal.lineItem item ->
  resultOf (validateLineItem (lineItemValue item) path) = Some item
  /\ issuesOf (validateLineItem (lineItemValue item) path) = [].
Proof.
  destruct item as [d q p u]. intros (Hd & Hq1 & Hq2 & Hq3 & Hp1 & Hp2 & Hu).
  cbn [LineItem.description LineItem.quantity LineItem.unitPrice LineItem.unit]
    in *.
  set (v := lineItemValue (LineItem.mk d q p u)).
  destruct (requiredString_normal v "description" (path ++ ".description") d
              eq_refl Hd) as [R1 I1].
  destruct (quantity_normal v "quantity" (path ++ ".quantity") q eq_refl
              Hq1 Hq2 Hq3) as [R2 I2].
  destruct (unitPrice_normal v "unitPrice" (path ++ ".unitPrice") p eq_refl
              Hp1 Hp2) as [R3 I3].
  destruct (optionalString_normal v "unit" (path ++ ".unit") u
              ltac:(destruct u; reflexivity) Hu) as [R4 I4].
  unfold validateLineItem. change (isObject v) with true. cbn [negb].
  split_binds. rewrite R1, R2, R3, R4, I1, I2, I3, I4.
  destruct Hd as [-> _].
  rewrite (whenTruthy_trimmedOption u Hu). now split.
Qed.

Lemma validateLineItemsLoop_normal items path :
  Forall Normal.lineItem items ->
  forall i acc hasError,
    resultOf (validateLineItemsLoop (map lineItemValue items) path i acc hasError)
    = ((acc ++ items)%list, hasError)
    /\ issuesOf (validateLineItemsLoop (map lineItemValue items) path i acc
                   hasError) = [].
Proof.
  induction 1 as [| item items Hitem _ IH]; intros i acc hasError;
    cbn [map validateLineItemsLoop].
  - cbn. now rewrite app_nil_r.
  - destruct (validateLineItem_normal item
                (path ++ "[" ++ JsString.ofNat i ++ "]") Hitem) as [R I].
    split_binds. rewrite R, I.
    destruct (IH (S i) (acc ++ [item])%list hasError) as [R' I'].
    rewrite R', I'. now rewrite <- app_assoc.
Qed.

Lemma validateLineItems_normal items path :
  Forall Normal.lineItem items -> items <> [] ->
  resultOf (validateLineItems (VArr (map lineItemValue items)) path) = Some items
  /\ issuesOf (validateLineItems (VArr (map lineItemValue items)) path) = [].
Proof.
  intros Hitems Hne. unfold validateLineItems.
  destruct items as [| item items]; [ contradiction | ].
  destruct (validateLineItemsLoop_normal (item :: items) path Hitems 0 [] false)
    as [R I].
  cbn [map] in *. split_binds. rewrite R, I. now split.
Qed.

(** A normal draft, given back to the validator, validates to itself. *)
Lemma validateDraft_normal d :
  Normal.draft d -> validateDraft (draftValue d) = Valid d.
Proof.
  destruct d as [b c h l]. intros (Hb & Hc & Hh & Hl & Hne).
  cbn [InvoiceDraft.business InvoiceDraft.client InvoiceDraft.header
       InvoiceDraft.lineItems] in *.
  rewrite validateDraft_object by reflexivity.
  unfold groupIssues.
  change (getField (draftValue (InvoiceDraft.mk b c h l)) "business")
    with (businessValue b).
  change (getField (draftValue (InvoiceDraft.mk b c h l)) "client")
    with (clientValue c).
  change (getField (draftValue (InvoiceDraft.mk b c h l)) "header")
    with (headerValue h).
  change (getField (draftValue (InvoiceDraft.mk b c h l)) "lineItems")
    with (VArr (map lineItemValue l)).
  destruct (validateBusiness_normal b "business" Hb) as [-> ->].
  destruct (validateClient_normal c "client" Hc) as [-> ->].
  destruct (validateHeader_normal h "header" Hh) as [-> ->].
  destruct (validateLineItems_normal l "lineItems" Hl Hne) as [-> ->].
  reflexivity.
Qed.

(* ====================================================================== *)
(** * What the validator returns is normal *)
(* ====================================================================== *)

Lemma requiredString_result obj field path s :
  resultOf (validateRequiredString obj field path) = Some s -> Normal.trimmed s.
Proof.
  unfold validateRequiredString, resultOf.
  destruct (getField obj field) as [ | | b | x | s0 | t | l | l ];
    cbn; try discriminate.
  destruct (JsString.isEmpty (JsString.trim s0)) eqn:E; cbn; [ discriminate | ].
  intros [= <-]. now apply trim_trimmed.
Qed.

Lemma optionalString_result obj field path :
  Normal.trimmedOption
    (whenTruthy (resultOf (validateOptionalString obj field path))).
Proof.
  unfold validateOptionalString, resultOf.
  destruct (getField obj field) as [ | | b | x | s0 | t | l | l ];
    cbn; try exact I.
  destruct (JsString.isEmpty s0); cbn; [ exact I | ].
  unfold whenTruthy, falsy.
  destruct (JsString.isEmpty (JsString.trim s0)) eqn:E; cbn; [ exact I | ].
  rewrite E. now apply trim_trimmed.
Qed.

Lemma isoDate_result obj field path required s :
  resultOf (validateIsoDate obj field path required) = Some s ->
  fourDigitYear (getField obj field) = true ->
  Normal.isCalendarDate s = true.
Proof.
  pose proof (validateIsoDate_cases obj field path required []) as H.
  unfold resultOf, Normal.isCalendarDate.
  destruct (getField obj field) as [ | | b | x | s0 | [t |] | l | l ] eqn:Hf.
  1-4, 8-9: unfold validateIsoDate; rewrite Hf; cbn; destruct required; discriminate.
  - destruct (JsString.isEmpty s0); [ rewrite H; discriminate | ].
    destruct (JsDate.isoDateParts (JsString.trim s0)) as [[[y m] d] |] eqn:Hp;
      [ | rewrite H; discriminate ].
    destruct (JsDate.roundTrips y m d) eqn:Hr.
    + rewrite H. intros [= <-] _. now rewrite Hp.
    + destruct H as [message H]. rewrite H. discriminate.
  - rewrite H. intros [= <-] Hy. cbn in Hy.
    apply andb_true_iff in Hy. rewrite !Z.leb_le in Hy.
    rewrite isoDateParts_isoDatePart by lia.
    apply calendar_round_trip.
  - rewrite H. discriminate.
Qed.

Lemma currency_result obj field path c :
  resultOf (validateCurrency obj field path) = Some c ->
  isSupportedCurrency c = true.
Proof.
  unfold validateCurrency. split_binds.
  destruct (resultOf (validateRequiredString obj field path)) as [v |];
    [ | discriminate ].
  destruct (JsString.isEmpty v); [ discriminate | ].
  destruct (isSupportedCurrency (JsString.toUpperCase v)) eqn:E; cbn;
    [ | discriminate ].
  now intros [= <-].
Qed.

Lemma taxRate_result obj field path r :
  resultOf (validateOptionalNumber obj field path taxRateOptions) = Some r ->
  Normal.taxRate r.
Proof.
  unfold validateOptionalNumber, resultOf, Normal.taxRate.
  destruct (getField obj field) as [ | | b | x | s0 | t | l | l ];
    cbn; try discriminate.
  - destruct (JsNumber.isNaN x) eqn:En; cbn; [ discriminate | ].
    destruct (JsNumber.lt x PrimFloat.zero) eqn:El; cbn; [ discriminate | ].
    destruct (JsNumber.gt x PrimFloat.one) eqn:Eg; cbn; [ discriminate | ].
    intros [= <-]. auto.
  - destruct (JsString.isEmpty s0); cbn; [ discriminate | ].
    destruct (JsNumber.isNaN (JsNumber.parseFloat s0)) eqn:En; cbn;
      [ discriminate | ].
    destruct (JsNumber.lt (JsNumber.parseFloat s0) PrimFloat.zero) eqn:El; cbn;
      [ discriminate | ].
    destruct (JsNumber.gt (JsNumber.parseFloat s0) PrimFloat.one) eqn:Eg; cbn;
      [ discriminate | ].
    intros [= <-]. auto.
Qed.

Lemma quantity_result obj field path q :
  resultOf (validateRequiredNumber obj field path quantityOptions) = Some q ->
  JsNumber.isNaN q = false /\ JsNumber.lt q PrimFloat.zero = false
  /\ JsNumber.strictEq q PrimFloat.zero = false.
Proof.
  unfold validateRequiredNumber, validateNumberValue, resultOf.
  destruct (getField obj field) as [ | | b | x | s0 | t | l | l ];
    cbn; try discriminate.
  - destruct (JsNumber.isNaN x) eqn:En; cbn; [ discriminate | ].
    destruct (JsNumber.lt x PrimFloat.zero) eqn:El; cbn; [ discriminate | ].
    destruct (JsNumber.strictEq x PrimFloat.zero) eqn:Ez; cbn; [ discriminate | ].
    intros [= <-]. auto.
  - destruct (JsNumber.isNaN (JsNumber.parseFloat s0)) eqn:En; cbn;
      [ discriminate | ].
    destruct (JsNumber.lt (JsNumber.parseFloat s0) PrimFloat.zero) eqn:El; cbn;
      [ discriminate | ].
    destruct (JsNumber.strictEq (JsNumber.parseFloat s0) PrimFloat.zero) eqn:Ez; cbn;
      [ discriminate | ].
    intros [= <-]. auto.
Qed.

Lemma unitPrice_result obj field path p :
  resultOf (validateRequiredNumber obj field path unitPriceOptions) = Some p ->
  JsNumber.isNaN p = false /\ JsNumber.lt p PrimFloat.zero = false.
Proof.
  unfold validateRequiredNumber, validateNumberValue, resultOf.
  destruct (getField obj field) as [ | | b | x | s0 | t | l | l ];
    cbn; try discriminate.
  - destruct (JsNumber.isNaN x) eqn:En; cbn; [ discriminate | ].
    destruct (JsNumber.lt x PrimFloat.zero) eqn:El; cbn; [ discriminate | ].
    intros [= <-]. auto.
  - destruct (JsNumber.isNaN (JsNumber.parseFloat s0)) eqn:En; cbn;
      [ discriminate | ].
    destruct (JsNumber.lt (JsNumber.parseFloat s0) PrimFloat.zero) eqn:El; cbn;
      [ discriminate | ].
    intros [= <-]. auto.
Qed.

Lemma validateBusiness_result input path b :
  resultOf (validateBusiness input path) = Some b -> Normal.business b.
Proof.
  unfold validateBusiness.
  destruct (isObject input); cbn [negb]; [ | discriminate ].
  split_binds.
  destruct (resultOf (validateRequiredString input "name" _)) as [n |] eqn:En;
    [ | discriminate ].
  destruct (resultOf (validateRequiredString input "address" _)) as [a |] eqn:Ea;
    [ | discriminate ].
  destruct (resultOf (validateRequiredString input "email" _)) as [e |] eqn:Ee;
    [ | discriminate ].
  destruct (_ || _); [ discriminate | ].
  intros [= <-]. unfold Normal.business. cbn.
  repeat split;
    first [ eapply requiredString_result; eassumption
          | apply optionalString_result ].
Qed.

Lemma validateClient_result input path c :
  resultOf (validateClient input path) = Some c -> Normal.client c.
Proof.
  unfold validateClient.
  destruct (isObject input); cbn [negb]; [ | discriminate ].
  split_binds.
  destruct (resultOf (validateRequiredString input "name" _)) as [n |] eqn:En;
    [ | discriminate ].
  destruct (resultOf (validateRequiredString input "address" _)) as [a |] eqn:Ea;
    [ | discriminate ].
  destruct (_ || _); [ discriminate | ].
  intros [= <-]. unfold Normal.client. cbn.
  repeat split;
    first [ eapply requiredString_result; eassumption
          | apply optionalString_result ].
Qed.

Lemma validateLineItem_result input path item :
  resultOf (validateLineItem input path) = Some item -> Normal.lineItem item.
Proof.
  unfold validateLineItem.
  destruct (isObject input); cbn [negb]; [ | discriminate ].
  split_binds.
  destruct (resultOf (validateRequiredString input "description" _))
    as [d |] eqn:Ed; [ | discriminate ].
  destruct (resultOf (validateRequiredNumber input "quantity" _ _))
    as [q |] eqn:Eq; [ | discriminate ].
  destruct (resultOf (validateRequiredNumber input "unitPrice" _ _))
    as [p |] eqn:Ep; [ | discriminate ].
  destruct (JsString.isEmpty d); [ discriminate | ].
  intros [= <-]. unfold Normal.lineItem. cbn.
  destruct (quantity_result _ _ _ _ Eq) as (? & ? & ?).
  destruct (unitPrice_result _ _ _ _ Ep) as (? & ?).
  repeat split; try assumption;
    first [ eapply requiredString_result; eassumption
          | apply optionalString_result ].
Qed.

Lemma validateHeader_result input path h :
  resultOf (validateHeader input path) = Some h ->
  issuesOf (validateHeader input path) = [] ->
  fourDigitYear (getField input "issueDate") = true ->
  fourDigitYear (getField input "dueDate") = true ->
  Normal.header h.
Proof.
  intros Hres Hiss Hy1 Hy2.
  rewrite validateHeader_exhaustive in Hiss.
  unfold Exhaustive.headerReports in Hiss.
  unfold validateHeader in Hres.
  destruct (isObject input); cbn [negb] in Hres; [ | discriminate ].
  cbn [List.concat] in Hiss.
  do 6 (apply app_eq_nil in Hiss; destruct Hiss as [_ Hiss]).
  rewrite app_nil_r in Hiss.
  unfold Exhaustive.dateOrderReport in Hiss.
  revert Hres Hiss. split_binds.
  destruct (resultOf (validateRequiredString input "invoiceNumber" _))
    as [n |] eqn:En; [ | discriminate ].
  destruct (resultOf (validateIsoDate input "issueDate" _ true))
    as [i |] eqn:Ei; [ | discriminate ].
  destruct (resultOf (validateCurrency input "currency" _))
    as [c |] eqn:Ec; [ | discriminate ].
  destruct (_ || _); [ discriminate | ].
  intros [= <-] Hiss. unfold Normal.header. cbn.
  split; [ eapply requiredString_result; eassumption | ].
  split; [ eapply isoDate_result; eassumption | ].
  assert (Hdue : forall d,
             whenTruthy (resultOf (validateIsoDate input "dueDate"
                                     (path ++ ".dueDate") false)) = Some d ->
             Normal.isCalendarDate d = true /\ JsString.lt d i = false).
  { intros d Hd.
    destruct (resultOf (validateIsoDate input "dueDate" _ false))
      as [d' |] eqn:Ed; [ | discriminate ].
    unfold whenTruthy, falsy in Hd.
    destruct (JsString.isEmpty d'); [ discriminate | ].
    injection Hd as ->.
    split; [ eapply isoDate_result; eassumption | ].
    destruct (JsString.lt d i); [ discriminate | reflexivity ]. }
  split; [ | split; [ eapply currency_result; eassumption | ] ].
  { destruct (whenTruthy _) as [d |]; [ now apply Hdue | exact I ]. }
  split; [ | split; [ apply optionalString_result | ] ].
  { destruct (resultOf (validateOptionalNumber input "taxRate" _ _))
      as [r |] eqn:Er; [ eapply taxRate_result; eassumption | exact I ]. }
  destruct (whenTruthy _) as [d |]; [ now apply Hdue | exact I ].
Qed.

Lemma validateLineItemsLoop_sticky rest path :
  forall i acc,
    snd (resultOf (validateLineItemsLoop rest path i acc true)) = true.
Proof.
  induction rest as [| x rest IH]; intros i acc; cbn [validateLineItemsLoop].
  - reflexivity.
  - split_binds. destruct (resultOf (validateLineItem x _)); apply IH.
Qed.

Lemma validateLineItemsLoop_result rest path :
  forall i acc hasError items,
    resultOf (validateLineItemsLoop rest path i acc hasError) = (items, false) ->
    Forall Normal.lineItem acc ->
    Forall Normal.lineItem items
    /\ List.length items = (List.length acc + List.length rest)%nat.
Proof.
  induction rest as [| x rest IH]; intros i acc hasError items;
    cbn [validateLineItemsLoop].
  - cbn. intros [= <- _] Hacc. split; [ exact Hacc | ].
    now rewrite Nat.add_0_r.
  - split_binds.
    destruct (resultOf (validateLineItem x _)) as [it |] eqn:Ex.
    + intros Hres Hacc.
      destruct (IH _ _ _ _ Hres) as [Hall Hlen].
      * apply Forall_app. split; [ exact Hacc | ].
        constructor; [ | constructor ].
        eapply validateLineItem_result. eassumption.
      * split; [ exact Hall | ].
        rewrite Hlen, length_app. cbn. lia.
    + intros Hres _.
      pose proof (validateLineItemsLoop_sticky rest path (S i) acc) as Hs.
      rewrite Hres in Hs. discriminate.
Qed.

Lemma validateLineItems_result input path items :
  resultOf (validateLineItems input path) = Some items ->
  Forall Normal.lineItem items /\ items <> [].
Proof.
  unfold validateLineItems.
  destruct input as [ | | b | x | s | t | [| e l] | fs ]; try discriminate.
  split_binds.
  destruct (resultOf (validateLineItemsLoop (e :: l) path 0 [] false))
    as [items' hasError] eqn:E.
  destruct hasError; cbn; [ discriminate | ].
  intros [= <-].
  destruct (validateLineItemsLoop_result _ _ _ _ _ _ E (Forall_nil _))
    as [Hall Hlen].
  split; [ exact Hall | ].
  intros ->. discriminate.
Qed.

(** What [validateDraft] accepts is a normal draft, when the native dates
    of the input have four-digit years. *)
Lemma validateDraft_result input draft :
  validateDraft input = Valid draft ->
  fourDigitYears input = true ->
  Normal.draft draft.
Proof.
  intros Hv Hy.
  destruct (isObject input) eqn:Hobj.
  2: { unfold validateDraft in Hv. rewrite Hobj in Hv. discriminate. }
  destruct (validateDraft_cases input Hobj)
    as [[_ Hv'] | [Hnil (b & c & h & l & Hb & Hc & Hh & Hl & Hv')]];
    rewrite Hv' in Hv; [ discriminate | ].
  injection Hv as <-.
  unfold groupIssues in Hnil.
  apply app_eq_nil in Hnil. destruct Hnil as [_ Hnil].
  apply app_eq_nil in Hnil. destruct Hnil as [_ Hnil].
  apply app_eq_nil in Hnil. destruct Hnil as [Hhi _].
  unfold fourDigitYears in Hy. apply andb_true_iff in Hy. destruct Hy as [Hy1 Hy2].
  destruct (validateLineItems_result _ _ _ Hl) as [Hall Hne].
  unfold Normal.draft. cbn.
  split; [ eapply validateBusiness_result; eassumption | ].
  split; [ eapply validateClient_result; eassumption | ].
  split; [ eapply validateHeader_result; eassumption | ].
  now split.
Qed.

(* ====================================================================== *)
(** * Validating a validated draft *)
(* ====================================================================== *)

(** X1. Round trip, for four-digit years. For every input on which
    [validateDraft] returns [{ ok: true, draft }] and whose dates, where
    they are native dates, have a UTC year of four digits (0 to 9999),
    validating the draft again returns [{ ok: true }] with the same draft:
    trimming, the upper-case currency and the numbers read from strings
    are already in the draft. *)
Theorem validateDraft_round_trip (input : value) (draft : InvoiceDraft.t) :
  fourDigitYears input = true ->
  validateDraft input = Valid draft ->
  validateDraft (draftValue draft) = Valid draft.
Proof.
  intros Hy Hv. apply validateDraft_normal.
  now apply (validateDraft_result input).
Qed.

Lemma validateDraft_round_trip_witness :
  validateDraft (draftValue Samples.normalised) = Valid Samples.normalised.
Proof.
  apply (validateDraft_round_trip Samples.toNormalise Samples.normalised);
    vm_compute; reflexivity.
Defined.

(** C4. The round trip fails on [Samples.year10000]: the input is
    accepted, with the issue date ["+010000-01-01"] that [toISOString]
    writes for the year 10000, although [InvoiceHeader.issueDate] is
    documented as YYYY-MM-DD; validated again, the draft is rejected,
    because that string does not have the shape the validator asks of a
    string. *)
Lemma validateDraft_round_trip_fails :
  exists draft,
    validateDraft Samples.year10000 = Valid draft
    /\ InvoiceHeader.issueDate (InvoiceDraft.header draft) = "+010000-01-01"
    /\ validateDraft (draftValue draft)
       = Invalid [ issue INVALID_FORMAT "header.issueDate"
                     "issueDate must be in YYYY-MM-DD format"
                     (Some "Example: 2025-01-15") ].
Proof.
  eexists. split; [ vm_compute; reflexivity | ].
  split; vm_compute; reflexivity.
Qed.

(* ====================================================================== *)
(** * The scenarios of the specification *)
(* ====================================================================== *)

(** Scenario 1: amounts 1500, 3000 and 234.50, subtotal 4734.50, tax
    899.555 and total 5634.055 up to rounding. *)
Example computeTotals_scenario1 :
  let totals :=
    computeTotals
      [ (10%float, 150%float); (25%float, 120%float); (1%float, 234.5%float) ]
      (Some (JsNumber.parseFloat "0.19")) in
  ComputedTotals.lineItemAmounts totals = [ 1500%float; 3000%float; 234.5%float ]
  /\ ComputedTotals.subtotal totals = 4734.5%float
  /\ JsNumber.toString (ComputedTotals.taxAmount totals) = "899.5550000000001"
  /\ JsNumber.toString (ComputedTotals.total totals) = "5634.055".
Proof. repeat split; vm_compute; reflexivity. Qed.

(** Scenario 2: an empty [lineItems] array. *)
Example validateDraft_scenario2 :
  validateDraft
    (Samples.invoice Samples.business Samples.client Samples.header [])
  = Invalid [ issue EMPTY_ARRAY "lineItems" "At least one line item is required"
                (Some "Add at least one item to the invoice") ].
Proof. vm_compute. reflexivity. Qed.

(** Scenario 3: the currency ["eur"] is stored as ["EUR"]. *)
Example validateCurrency_scenario3 :
  validateCurrency (VObj [ ("currency", VStr "eur") ]) "currency"
    "header.currency" []
  = (Some "EUR", []).
Proof. vm_compute. reflexivity. Qed.

(** Scenario 5: the locale of a currency. *)
Example getLocaleForCurrency_scenario5 :
  getLocaleForCurrency "EUR" = "de-DE"
  /\ getLocaleForCurrency "XYZ" = "en-US"
  /\ getLocaleForCurrency "eur" = "de-DE".
Proof. repeat split; vm_compute; reflexivity. Qed.

(* ====================================================================== *)
(** * Numbers that are not below zero *)
(* ====================================================================== *)

Lemma round_aux_not_negative m e l :
  SFltb (binary_round_aux prec emax false m e l) (S754_zero false) = false.
Proof.
  unfold binary_round_aux.
  destruct (shr_fexp prec emax m e l) as [mrs' e'].
  destruct (shr_fexp prec emax _ e' loc_Exact) as [mrs'' e''].
  destruct (shr_m mrs''); [ reflexivity | | reflexivity ].
  destruct (e'' <=? emax - prec); reflexivity.
Qed.

Lemma SFmul_not_negative x y :
  SFltb x (S754_zero false) = false -> SFltb y (S754_zero false) = false ->
  SFltb (SF64mul x y) (S754_zero false) = false.
Proof.
  destruct x as [sx | sx | | sx mx ex], y as [sy | sy | | sy my ey];
    try destruct sx; try destruct sy; cbn; try reflexivity; try discriminate.
  intros _ _. apply round_aux_not_negative.
Qed.

Lemma SFadd_not_negative x y :
  SFltb x (S754_zero false) = false -> SFltb y (S754_zero false) = false ->
  SFltb (SF64add x y) (S754_zero false) = false.
Proof.
  destruct x as [sx | sx | | sx mx ex], y as [sy | sy | | sy my ey];
    try destruct sx; try destruct sy; cbn; try reflexivity; try discriminate.
  intros _ _. unfold binary_round.
  destruct (shl_align _ _ _) as [mz ez]. apply round_aux_not_negative.
Qed.

Lemma mul_not_negative x y :
  JsNumber.lt x PrimFloat.zero = false -> JsNumber.lt y PrimFloat.zero = false ->
  JsNumber.lt (PrimFloat.mul x y) PrimFloat.zero = false.
Proof.
  unfold JsNumber.lt. rewrite !ltb_spec, mul_spec.
  change (Prim2SF PrimFloat.zero) with (S754_zero false).
  apply SFmul_not_negative.
Qed.

Lemma add_not_negative x y :
  JsNumber.lt x PrimFloat.zero = false -> JsNumber.lt y PrimFloat.zero = false ->
  JsNumber.lt (PrimFloat.add x y) PrimFloat.zero = false.
Proof.
  unfold JsNumber.lt. rewrite !ltb_spec, add_spec.
  change (Prim2SF PrimFloat.zero) with (S754_zero false).
  apply SFadd_not_negative.
Qed.

Lemma sum_not_negative amounts :
  forall start,
    JsNumber.lt start PrimFloat.zero = false ->
    Forall (fun a => JsNumber.lt a PrimFloat.zero = false) amounts ->
    JsNumber.lt (fold_left (fun sum amount => PrimFloat.add sum amount) amounts start)
      PrimFloat.zero = false.
Proof.
  induction amounts as [| a amounts IH]; intros start Hs Hall; cbn.
  - exact Hs.
  - inversion Hall as [| ? ? Ha Hrest]; subst.
    apply IH; [ now apply add_not_negative | exact Hrest ].
Qed.

(* ====================================================================== *)
(** * The order of numbers that are not NaN *)
(* ====================================================================== *)

Lemma SFcompare_antisym x y :
  SFcompare y x = option_map CompOpp (SFcompare x y).
Proof.
  destruct x as [sx | sx | | sx mx ex], y as [sy | sy | | sy my ey];
    try destruct sx; try destruct sy; cbn; try reflexivity.
  - rewrite (Z.compare_antisym ex ey).
    destruct (ex ?= ey); cbn; try reflexivity.
    change (PosDef.Pos.compare_cont Eq my mx) with (Pos.compare my mx).
    change (PosDef.Pos.compare_cont Eq mx my) with (Pos.compare mx my).
    now rewrite (Pos.compare_antisym mx my).
  - rewrite (Z.compare_antisym ex ey).
    destruct (ex ?= ey); cbn; try reflexivity.
    change (PosDef.Pos.compare_cont Eq my mx) with (Pos.compare my mx).
    change (PosDef.Pos.compare_cont Eq mx my) with (Pos.compare mx my).
    now rewrite (Pos.compare_antisym mx my).
Qed.

Lemma SFcompare_defined x y :
  SFeqb x x = true -> SFeqb y y = true -> exists c, SFcompare x y = Some c.
Proof.
  destruct x, y; cbn; try discriminate; eauto.
Qed.

(** Two numbers that are not NaN are ordered: [y <= x] unless [x < y]. *)
Lemma leb_not_ltb x y :
  JsNumber.isNaN x = false -> JsNumber.isNaN y = false ->
  PrimFloat.leb y x = negb (JsNumber.lt x y).
Proof.
  unfold JsNumber.isNaN, JsNumber.lt, PrimFloat.is_nan.
  rewrite !eqb_spec, leb_spec, ltb_spec, !negb_false_iff.
  intros Hx Hy. unfold SFleb, SFltb.
  rewrite (SFcompare_antisym (Prim2SF x) (Prim2SF y)).
  destruct (SFcompare_defined _ _ Hx Hy) as [c ->].
  now destruct c.
Qed.

(** A number that is not NaN, not below zero and not zero is above zero. *)
Lemma ltb_zero_positive x :
  JsNumber.isNaN x = false ->
  PrimFloat.ltb PrimFloat.zero x
  = negb (JsNumber.lt x PrimFloat.zero) && negb (JsNumber.strictEq x PrimFloat.zero).
Proof.
  unfold JsNumber.isNaN, JsNumber.lt, JsNumber.strictEq, PrimFloat.is_nan.
  rewrite !eqb_spec, !ltb_spec, !negb_false_iff.
  intros Hx. unfold SFeqb, SFltb.
  rewrite (SFcompare_antisym (Prim2SF x) (Prim2SF PrimFloat.zero)).
  assert (H0 : SFeqb (Prim2SF PrimFloat.zero) (Prim2SF PrimFloat.zero) = true)
    by reflexivity.
  destruct (SFcompare_defined _ _ Hx H0) as [c ->].
  now destruct c.
Qed.

(* ====================================================================== *)
(** * The numbers the validator accepts *)
(* ====================================================================== *)

Lemma numericReading_not_NaN v x :
  numericReading v = Some x -> JsNumber.isNaN x = false.
Proof.
  destruct v; cbn; try discriminate.
  - destruct (JsNumber.isNaN x0) eqn:E; [ discriminate | ]. now intros [= <-].
  - destruct (JsNumber.isNaN (JsNumber.parseFloat s)) eqn:E; [ discriminate | ].
    now intros [= <-].
Qed.

Lemma required_number_reading obj field path options :
  resultOf (validateRequiredNumber obj field path options)
  = match numericReading (getField obj field) with
    | Some x => resultOf (validateNumberValue x field path options)
    | None => None
    end.
Proof.
  unfold validateRequiredNumber, resultOf, numericReading.
  destruct (getField obj field) as [ | | b | x | s | t | l | l ]; cbn;
    try reflexivity.
  - destruct (JsNumber.isNaN x); reflexivity.
  - destruct (JsNumber.isNaN (JsNumber.parseFloat s)); reflexivity.
Qed.

Lemma optional_taxRate_reading obj field path :
  resultOf (validateOptionalNumber obj field path taxRateOptions)
  = match numericReading (getField obj field) with
    | Some x =>
        if JsNumber.lt x PrimFloat.zero then None
        else if JsNumber.gt x PrimFloat.one then None
        else Some x
    | None => None
    end.
Proof.
  unfold validateOptionalNumber, resultOf, numericReading.
  destruct (getField obj field) as [ | | b | x | s | t | l | l ]; cbn;
    try reflexivity.
  - destruct (JsNumber.isNaN x); cbn; [ reflexivity | ].
    destruct (JsNumber.lt x PrimFloat.zero); cbn; [ reflexivity | ].
    destruct (JsNumber.gt x PrimFloat.one); reflexivity.
  - destruct s as [| c s]; [ reflexivity | ]. cbn.
    destruct (JsNumber.isNaN (JsNumber.parseFloat (String c s))); cbn;
      [ reflexivity | ].
    destruct (JsNumber.lt (JsNumber.parseFloat (String c s)) PrimFloat.zero); cbn;
      [ reflexivity | ].
    destruct (JsNumber.gt (JsNumber.parseFloat (String c s)) PrimFloat.one);
      reflexivity.
Qed.

(* ====================================================================== *)
(** * Numeric strings are coerced by prefix parsing *)
(* ====================================================================== *)

Lemma validateNumberValue_codes value field path options i :
  In i (issuesOf (validateNumberValue value field path options)) ->
  Issue.code i = NEGATIVE_NUMBER \/ Issue.code i = INVALID_VALUE.
Proof.
  unfold validateNumberValue, issuesOf.
  repeat match goal with |- context [if ?b then _ else _] => destruct b end;
    cbn; intros H; repeat destruct H as [<- | H]; auto; contradiction.
Qed.

Lemma lt_not_strictEq x y :
  JsNumber.lt x y = true -> JsNumber.strictEq x y = false.
Proof.
  unfold JsNumber.lt, JsNumber.strictEq.
  rewrite ltb_spec, eqb_spec. unfold SFltb, SFeqb.
  destruct (SFcompare (Prim2SF x) (Prim2SF y)) as [[] |]; now try discriminate.
Qed.

(** C10, as amended.  A string given for a required number is read by
    [parseFloat], which takes the longest numeric prefix (["12abc"] is read
    as 12, ["abc"] gives NaN).  When [parseFloat s] is not NaN the string
    is validated exactly as the number [parseFloat s] itself.  For
    [quantity] the field is then accepted, with the value [parseFloat s]
    and without an issue, exactly when that value is above zero; a value
    below zero is refused with NEGATIVE_NUMBER and a zero with
    INVALID_VALUE.  For [unitPrice] it is accepted with the value
    [parseFloat s] exactly when that value is not below zero, and refused
    with NEGATIVE_NUMBER otherwise.  An INVALID_TYPE issue is reported
    exactly when the value is a string on which [parseFloat] gives NaN, the
    number NaN, or a value that is present and neither a number nor a
    string. *)
Theorem validateRequiredNumber_prefix_coercion :
  (forall obj obj' field path options s,
      getField obj field = VStr s ->
      JsNumber.isNaN (JsNumber.parseFloat s) = false ->
      getField obj' field = VNum (JsNumber.parseFloat s) ->
      validateRequiredNumber obj field path options
      = validateRequiredNumber obj' field path options)
  /\ (forall obj path issues s,
        getField obj "quantity" = VStr s ->
        JsNumber.isNaN (JsNumber.parseFloat s) = false ->
        let parsed := JsNumber.parseFloat s in
        let run :=
          validateRequiredNumber obj "quantity" path quantityOptions issues in
        (run = (Some parsed, issues)
         <-> JsNumber.gt parsed PrimFloat.zero = true)
        /\ (JsNumber.lt parsed PrimFloat.zero = true ->
            run = (None,
                   (issues
                    ++ [ issue NEGATIVE_NUMBER path "quantity cannot be negative"
                           (Some "Use a positive number") ])%list))
        /\ (JsNumber.strictEq parsed PrimFloat.zero = true ->
            run = (None,
                   (issues
                    ++ [ issue INVALID_VALUE path "quantity cannot be zero"
                           None ])%list)))
  /\ (forall obj path issues s,
        getField obj "unitPrice" = VStr s ->
        JsNumber.isNaN (JsNumber.parseFloat s) = false ->
        let parsed := JsNumber.parseFloat s in
        let run :=
          validateRequiredNumber obj "unitPrice" path unitPriceOptions issues in
        (run = (Some parsed, issues)
         <-> JsNumber.lt parsed PrimFloat.zero = false)
        /\ (JsNumber.lt parsed PrimFloat.zero = true ->
            run = (None,
                   (issues
                    ++ [ issue NEGATIVE_NUMBER path "unitPrice cannot be negative"
                           (Some "Use a positive number") ])%list)))
  /\ JsNumber.parseFloat "12abc" = 12%float
  /\ JsNumber.isNaN (JsNumber.parseFloat "abc") = true
  /\ (forall obj field path options,
        (exists i,
            In i (issuesOf (validateRequiredNumber obj field path options))
            /\ Issue.code i = INVALID_TYPE)
        <->
        match getField obj field with
        | VStr s => JsNumber.isNaN (JsNumber.parseFloat s) = true
        | VNum x => JsNumber.isNaN x = true
        | VUndefined | VNull => False
        | _ => True
        end).
Proof.
  split; [ | split; [ | split; [ | split; [ | split ] ] ] ].
  - intros obj obj' field path options s Hs Hn Hs'.
    unfold validateRequiredNumber. rewrite Hs, Hs'. cbn. now rewrite Hn.
  - intros obj path issues s Hs Hn parsed run. subst run.
    unfold validateRequiredNumber. rewrite Hs. cbn [isNullish].
    fold parsed. fold parsed in Hn. rewrite Hn. cbn [negb].
    unfold JsNumber.gt. rewrite (ltb_zero_positive parsed Hn).
    unfold validateNumberValue, quantityOptions.
    cbn [rn_allowNegative rn_allowZero orDefault negb andb].
    destruct (JsNumber.lt parsed PrimFloat.zero) eqn:Hlt;
      [ | destruct (JsNumber.strictEq parsed PrimFloat.zero) eqn:Hz ];
      cbn [negb andb bind ret push fst snd];
      repeat split; try reflexivity; try discriminate;
      intros H; try discriminate H; try reflexivity.
    rewrite (lt_not_strictEq _ _ Hlt) in H. discriminate H.
  - intros obj path issues s Hs Hn parsed run. subst run.
    unfold validateRequiredNumber. rewrite Hs. cbn [isNullish].
    fold parsed. fold parsed in Hn. rewrite Hn. cbn [negb].
    unfold validateNumberValue, unitPriceOptions.
    cbn [rn_allowNegative rn_allowZero orDefault negb andb].
    destruct (JsNumber.lt parsed PrimFloat.zero) eqn:Hlt;
      cbn [negb andb bind ret push fst snd];
      repeat split; try reflexivity; try discriminate;
      intros H; try discriminate H; try reflexivity.
  - vm_compute. reflexivity.
  - vm_compute. reflexivity.
  - intros obj field path options. unfold validateRequiredNumber.
    destruct (getField obj field) as [ | | b | x | s | t | l | l ]; cbn.
    + split; [ intros (i & [<- | []] & Hc); discriminate | intros [] ].
    + split; [ intros (i & [<- | []] & Hc); discriminate | intros [] ].
    + split; [ trivial | intros _; eexists; split; [ now left | reflexivity ] ].
    + destruct (JsNumber.isNaN x) eqn:Hx; cbn.
      * split; [ trivial | intros _; eexists; split; [ now left | reflexivity ] ].
      * split; [ | discriminate ].
        intros (i & Hi & Hc).
        destruct (validateNumberValue_codes _ _ _ _ _ Hi); congruence.
    + destruct (JsNumber.isNaN (JsNumber.parseFloat s)) eqn:Hs; cbn.
      * split; [ trivial | intros _; eexists; split; [ now left | reflexivity ] ].
      * split; [ | discriminate ].
        intros (i & Hi & Hc).
        destruct (validateNumberValue_codes _ _ _ _ _ Hi); congruence.
    + split; [ trivial | intros _; eexists; split; [ now left | reflexivity ] ].
    + split; [ trivial | intros _; eexists; split; [ now left | reflexivity ] ].
    + split; [ trivial | intros _; eexists; split; [ now left | reflexivity ] ].
Qed.

Lemma validateRequiredNumber_prefix_coercion_witness :
  validateRequiredNumber
    (Samples.lineItem "Item" (VStr "12abc") (VNum 100%float))
    "quantity" "lineItems[0].quantity" quantityOptions []
  = (Some 12%float, []).
Proof.
  apply (proj1 (proj2 validateRequiredNumber_prefix_coercion)
           (Samples.lineItem "Item" (VStr "12abc") (VNum 100%float))
           "lineItems[0].quantity" [] "12abc");
    vm_compute; reflexivity.
Defined.

(** C10, the claim as stated fails: the number NaN is a number and not a
    string, [parseFloat] is not applied to it, and it is reported with
    INVALID_TYPE, by the [!Number.isNaN(value)] of [isNumber]. *)
Lemma validateRequiredNumber_NaN_is_INVALID_TYPE :
  getField (Samples.lineItem "Item" (VNum PrimFloat.nan) (VNum 100%float))
    "quantity" = VNum PrimFloat.nan
  /\ validateRequiredNumber
       (Samples.lineItem "Item" (VNum PrimFloat.nan) (VNum 100%float))
       "quantity" "lineItems[0].quantity" quantityOptions []
     = (None,
        [ issue INVALID_TYPE "lineItems[0].quantity" "quantity must be a number"
            None ]).
Proof. split; vm_compute; reflexivity. Qed.

(** A line item whose quantity is the string ["12abc"] is accepted with
    quantity 12. *)
Example validateLineItem_12abc :
  validateLineItem (Samples.lineItem "Item" (VStr "12abc") (VStr "100.50"))
    "lineItems[0]" []
  = (Some (LineItem.mk "Item" 12%float 100.5%float None), []).
Proof. vm_compute. reflexivity. Qed.

(** X5. The numbers the validator accepts.  A required or optional number
    is read from a number that is not NaN or from a string that
    [parseFloat] reads as one ([numericReading]); what is read is accepted
    as a [quantity] exactly when it is above zero, as a [unitPrice]
    exactly when it is zero or above, and as a [taxRate] exactly when it
    is between 0 and 1, bounds included.  Infinity is a quantity and a
    unit price like any other. *)
Theorem numeric_fields_accepted_ranges :
  (forall obj field path q,
      resultOf (validateRequiredNumber obj field path quantityOptions) = Some q
      <-> numericReading (getField obj field) = Some q
          /\ PrimFloat.ltb PrimFloat.zero q = true)
  /\ (forall obj field path p,
        resultOf (validateRequiredNumber obj field path unitPriceOptions) = Some p
        <-> numericReading (getField obj field) = Some p
            /\ PrimFloat.leb PrimFloat.zero p = true)
  /\ (forall obj field path r,
        resultOf (validateOptionalNumber obj field path taxRateOptions) = Some r
        <-> numericReading (getField obj field) = Some r
            /\ PrimFloat.leb PrimFloat.zero r = true
            /\ PrimFloat.leb r PrimFloat.one = true).
Proof.
  assert (Hzero : JsNumber.isNaN PrimFloat.zero = false) by reflexivity.
  assert (Hone : JsNumber.isNaN PrimFloat.one = false) by reflexivity.
  split; [ | split ].
  - intros obj field path q. rewrite required_number_reading.
    destruct (numericReading (getField obj field)) as [x |] eqn:Hr.
    2: { split; [ discriminate | intros [[=] _] ]. }
    pose proof (ltb_zero_positive x (numericReading_not_NaN _ _ Hr)) as Hp.
    unfold validateNumberValue, resultOf, quantityOptions, unitPriceOptions;
      cbn [rn_allowNegative rn_allowZero orDefault negb andb].
    destruct (JsNumber.lt x PrimFloat.zero);
      cbn [negb andb bind ret push fst snd] in *.
    { split; [ discriminate | intros [[= <-] H]; congruence ]. }
    destruct (JsNumber.strictEq x PrimFloat.zero);
      cbn [negb andb bind ret push fst snd] in *.
    { split; [ discriminate | intros [[= <-] H]; congruence ]. }
    split; [ intros [= <-]; auto | intros [[= <-] _]; reflexivity ].
  - intros obj field path p. rewrite required_number_reading.
    destruct (numericReading (getField obj field)) as [x |] eqn:Hr.
    2: { split; [ discriminate | intros [[=] _] ]. }
    pose proof (leb_not_ltb x PrimFloat.zero (numericReading_not_NaN _ _ Hr) Hzero)
      as Hp.
    unfold validateNumberValue, resultOf, quantityOptions, unitPriceOptions;
      cbn [rn_allowNegative rn_allowZero orDefault negb andb].
    destruct (JsNumber.lt x PrimFloat.zero);
      cbn [negb andb bind ret push fst snd] in *.
    { split; [ discriminate | intros [[= <-] H]; congruence ]. }
    split; [ intros [= <-]; auto | intros [[= <-] _]; reflexivity ].
  - intros obj field path r. rewrite optional_taxRate_reading.
    destruct (numericReading (getField obj field)) as [x |] eqn:Hr.
    2: { split; [ discriminate | intros [[=] _] ]. }
    pose proof (leb_not_ltb x PrimFloat.zero (numericReading_not_NaN _ _ Hr) Hzero)
      as Hp.
    pose proof (leb_not_ltb PrimFloat.one x Hone (numericReading_not_NaN _ _ Hr))
      as Hg.
    change (JsNumber.lt PrimFloat.one x) with (JsNumber.gt x PrimFloat.one) in Hg.
    destruct (JsNumber.lt x PrimFloat.zero); cbn [negb andb] in *.
    { split; [ discriminate | intros [[= <-] [H _]]; congruence ]. }
    destruct (JsNumber.gt x PrimFloat.one); cbn [negb andb] in *.
    { split; [ discriminate | intros [[= <-] [_ H]]; congruence ]. }
    split; [ intros [= <-]; auto | intros [[= <-] _]; reflexivity ].
Qed.

(* ====================================================================== *)
(** * The dates the validator accepts *)
(* ====================================================================== *)

Section GregorianCalendar.

Import JsDate.

Ltac month_before :=
  repeat match goal with
         | |- context [Z.pos ?p - 1] =>
             let v := eval compute in (Z.pos p - 1) in
             change (Z.pos p - 1) with v
         end.

Lemma DayFromYear_monotone a b : a <= b -> DayFromYear a <= DayFromYear b.
Proof.
  intros H. unfold DayFromYear. Z.to_euclidean_division_equations; lia.
Qed.

Lemma YearFromDay_unique y d :
  DayFromYear y <= d < DayFromYear (y + 1) -> YearFromDay d = y.
Proof.
  intros H. pose proof (YearFromDay_spec d) as Hs.
  destruct (Z.lt_trichotomy (YearFromDay d) y) as [Hlt | [Heq | Hgt]].
  - pose proof (DayFromYear_monotone (YearFromDay d + 1) y ltac:(lia)). lia.
  - exact Heq.
  - pose proof (DayFromYear_monotone (y + 1) (YearFromDay d) ltac:(lia)). lia.
Qed.

Lemma isLeap_leapDays y :
  leapDays y = if Gregorian.isLeap y then 1 else 0.
Proof.
  unfold leapDays, isLeapYear, Gregorian.isLeap.
  destruct (y mod 4 =? 0), (y mod 100 =? 0), (y mod 400 =? 0); reflexivity.
Qed.

Lemma daysInMonth_range y m : 28 <= Gregorian.daysInMonth y m <= 31.
Proof.
  unfold Gregorian.daysInMonth.
  destruct (Gregorian.isLeap y);
    repeat match goal with
           | |- context [match ?x with _ => _ end] => destruct x
           end; lia.
Qed.

(** The round trip through a date succeeds on the days of the calendar
    and on no other triple. *)
Lemma roundTrips_calendar y m d :
  roundTrips y m d = Gregorian.isDate y m d.
Proof.
  unfold roundTrips, ofCalendar, Gregorian.isDate.
  destruct ((1 <=? m) && (m <=? 12) && (1 <=? d)) eqn:Hmd;
    [ | reflexivity ].
  apply andb_true_iff in Hmd. destruct Hmd as [Hmd Hd1].
  apply andb_true_iff in Hmd. destruct Hmd as [Hm1 Hm12].
  apply Z.leb_le in Hm1, Hm12, Hd1.
  destruct (d <=? 31) eqn:Hd31; cbn [andb].
  2: { apply Z.leb_gt in Hd31. symmetry. apply Z.leb_gt.
       pose proof (daysInMonth_range y m). lia. }
  apply Z.leb_le in Hd31.
  unfold getUTCFullYear, getUTCMonth, getUTCDate, DateFromTime, MonthFromTime,
    DayWithinYear, YearFromTime.
  rewrite Day_of_day.
  pose proof (leapDays_range y) as Hl.
  assert (Hc : m = 1 \/ m = 2 \/ m = 3 \/ m = 4 \/ m = 5 \/ m = 6 \/ m = 7
               \/ m = 8 \/ m = 9 \/ m = 10 \/ m = 11 \/ m = 12) by lia.
  assert (Hy : YearFromDay (MakeDay y (m - 1) d) = y).
  { apply YearFromDay_unique. rewrite DayFromYear_succ. unfold MakeDay.
    assert (0 <= monthStart (leapDays y) (m - 1) + d - 1 < 365 + leapDays y).
    { repeat destruct Hc as [-> | Hc]; try subst m; month_before;
        cbn [monthStart]; lia. }
    lia. }
  rewrite Hy, Z.eqb_refl. cbn [andb].
  unfold MakeDay.
  replace (DayFromYear y + monthStart (leapDays y) (m - 1) + d - 1 - DayFromYear y)
    with (monthStart (leapDays y) (m - 1) + d - 1) by lia.
  unfold Gregorian.daysInMonth. rewrite isLeap_leapDays in *.
  unfold monthOfDay.
  repeat destruct Hc as [-> | Hc]; try subst m;
    destruct (Gregorian.isLeap y);
    month_before; cbn [monthStart]; cbv iota;
    repeat match goal with
           | |- context [if ?a <? ?b then _ else _] =>
               destruct (Z.ltb_spec a b)
           end; cbn [monthStart];
    repeat match goal with
           | |- context [?a =? ?b] => destruct (Z.eqb_spec a b)
           | |- context [?a <=? ?b] => destruct (Z.leb_spec a b)
           end; cbn [andb]; try reflexivity; lia.
Qed.

End GregorianCalendar.

(** X6. The dates the validator accepts.  A date given as a string is
    accepted exactly when the string, trimmed, has the shape YYYY-MM-DD
    and names a day of the Gregorian calendar: a month from 1 to 12 and a
    day from 1 to the length of that month, 29 for February in a leap
    year (a year divisible by 4, and by 400 if by 100) and 28 otherwise.
    What is stored is the trimmed string.  The empty string gives no
    value. *)
Theorem validateIsoDate_accepts_calendar_days
    (obj : value) (field path : string) (required : bool) (s : string) :
  getField obj field = VStr s ->
  resultOf (validateIsoDate obj field path required)
  = if Gregorian.isDateText (JsString.trim s) then Some (JsString.trim s)
    else None.
Proof.
  intros Hf.
  pose proof (validateIsoDate_cases obj field path required []) as H.
  rewrite Hf in H. unfold resultOf, Gregorian.isDateText.
  destruct s as [| c s].
  - cbn in H. rewrite H. reflexivity.
  - cbn [JsString.isEmpty] in H.
    destruct (JsDate.isoDateParts (JsString.trim (String c s)))
      as [[[y m] d] |].
    + rewrite <- roundTrips_calendar.
      destruct (JsDate.roundTrips y m d).
      * now rewrite H.
      * destruct H as [message H]. now rewrite H.
    + now rewrite H.
Qed.

Lemma validateIsoDate_accepts_calendar_days_witness :
  resultOf (validateIsoDate (VObj [ ("issueDate", VStr " 2024-02-29 ") ])
              "issueDate" "header.issueDate" true)
  = Some "2024-02-29"
  /\ resultOf (validateIsoDate (VObj [ ("issueDate", VStr "1900-02-29") ])
                 "issueDate" "header.issueDate" true)
     = None.
Proof.
  split.
  - apply (validateIsoDate_accepts_calendar_days
             (VObj [ ("issueDate", VStr " 2024-02-29 ") ])
             "issueDate" "header.issueDate" true " 2024-02-29 ").
    reflexivity.
  - apply (validateIsoDate_accepts_calendar_days
             (VObj [ ("issueDate", VStr "1900-02-29") ])
             "issueDate" "header.issueDate" true "1900-02-29").
    reflexivity.
Defined.

(* ====================================================================== *)
(** * What an accepted draft holds *)
(* ====================================================================== *)

(** The groups of an accepted input: each group validator returned the
    part of the draft, and none reported an issue. *)
Lemma validateDraft_valid_groups input draft :
  validateDraft input = Valid draft ->
  isObject input = true
  /\ resultOf (validateBusiness (getField input "business") "business")
     = Some (InvoiceDraft.business draft)
  /\ resultOf (validateClient (getField input "client") "client")
     = Some (InvoiceDraft.client draft)
  /\ resultOf (validateHeader (getField input "header") "header")
     = Some (InvoiceDraft.header draft)
  /\ resultOf (validateLineItems (getField input "lineItems") "lineItems")
     = Some (InvoiceDraft.lineItems draft)
  /\ groupIssues input = [].
Proof.
  intros Hv.
  destruct (isObject input) eqn:Hobj.
  2: { unfold validateDraft in Hv. rewrite Hobj in Hv. discriminate. }
  destruct (validateDraft_cases input Hobj)
    as [[_ Hv'] | [Hnil (b & c & h & l & Hb & Hc & Hh & Hl & Hv')]];
    rewrite Hv' in Hv; [ discriminate | ].
  injection Hv as <-. cbn. auto 10.
Qed.

(** The fields of an accepted header, the dates apart. *)
Lemma validateHeader_fields input path h :
  resultOf (validateHeader input path) = Some h ->
  Normal.trimmed (InvoiceHeader.invoiceNumber h)
  /\ JsString.isEmpty (InvoiceHeader.issueDate h) = false
  /\ isSupportedCurrency (InvoiceHeader.currency h) = true
  /\ match InvoiceHeader.taxRate h with
     | Some r => Normal.taxRate r
     | None => True
     end
  /\ Normal.trimmedOption (InvoiceHeader.notes h).
Proof.
  unfold validateHeader.
  destruct (isObject input); cbn [negb]; [ | discriminate ].
  split_binds.
  destruct (resultOf (validateRequiredString input "invoiceNumber" _))
    as [n |] eqn:En; [ | discriminate ].
  destruct (resultOf (validateIsoDate input "issueDate" _ true))
    as [i |] eqn:Ei; [ | discriminate ].
  destruct (resultOf (validateCurrency input "currency" _))
    as [c |] eqn:Ec; [ | discriminate ].
  destruct (_ || _) eqn:Eor; [ discriminate | ].
  intros [= <-]. cbn.
  split; [ eapply requiredString_result; eassumption | ].
  split; [ eapply validateIsoDate_some; eassumption | ].
  split; [ eapply currency_result; eassumption | ].
  split; [ | apply optionalString_result ].
  destruct (resultOf (validateOptionalNumber input "taxRate" _ _))
    as [r |] eqn:Er; [ eapply taxRate_result; eassumption | exact I ].
Qed.

(** X3. What an accepted draft holds.  In every draft that
    [validateDraft] returns, the required strings are trimmed and not
    empty, an optional string is absent or trimmed and not empty, the
    currency is one of the supported codes, a tax rate is a number from 0
    to 1, there is at least one line item, and every line item has a
    quantity that is not NaN, not negative and not zero and a unit price
    that is not NaN and not negative.  When the dates of the input, where
    they are native dates, have a year of four digits, the dates of the
    draft are calendar dates of the shape YYYY-MM-DD and the due date is
    not before the issue date. *)
Theorem validateDraft_valid_draft_is_normal
    (input : value) (draft : InvoiceDraft.t) :
  validateDraft input = Valid draft ->
  let header := InvoiceDraft.header draft in
  Normal.business (InvoiceDraft.business draft)
  /\ Normal.client (InvoiceDraft.client draft)
  /\ Normal.trimmed (InvoiceHeader.invoiceNumber header)
  /\ isSupportedCurrency (InvoiceHeader.currency header) = true
  /\ match InvoiceHeader.taxRate header with
     | Some r => Normal.taxRate r
     | None => True
     end
  /\ Normal.trimmedOption (InvoiceHeader.notes header)
  /\ Forall Normal.lineItem (InvoiceDraft.lineItems draft)
  /\ InvoiceDraft.lineItems draft <> []
  /\ (fourDigitYears input = true -> Normal.draft draft).
Proof.
  intros Hv.
  destruct (validateDraft_valid_groups input draft Hv)
    as (_ & Hb & Hc & Hh & Hl & _).
  destruct (validateHeader_fields _ _ _ Hh) as (Hn & _ & Hcur & Hrate & Hnotes).
  destruct (validateLineItems_result _ _ _ Hl) as [Hall Hne].
  cbv zeta.
  split; [ eapply validateBusiness_result; eassumption | ].
  split; [ eapply validateClient_result; eassumption | ].
  repeat (split; [ assumption | ]).
  intros Hy. now apply (validateDraft_result input).
Qed.

Lemma validateDraft_valid_draft_is_normal_witness :
  Normal.business (InvoiceDraft.business Samples.normalised)
  /\ isSupportedCurrency
       (InvoiceHeader.currency (InvoiceDraft.header Samples.normalised)) = true
  /\ Forall Normal.lineItem (InvoiceDraft.lineItems Samples.normalised).
Proof.
  destruct (validateDraft_valid_draft_is_normal Samples.toNormalise
              Samples.normalised)
    as (Hb & _ & _ & Hc & _ & _ & Hl & _).
  - vm_compute. reflexivity.
  - exact (conj Hb (conj Hc Hl)).
Defined.

(* ====================================================================== *)
(** * The line items of an accepted draft *)
(* ====================================================================== *)

(** The loop keeps the items it was given and adds the item of each
    element, in the order of the array. *)
Lemma validateLineItemsLoop_items rest path :
  forall i acc hasError items,
    resultOf (validateLineItemsLoop rest path i acc hasError) = (items, false) ->
    exists validated,
      items = (acc ++ validated)%list
      /\ List.length validated = List.length rest
      /\ forall k x,
           nth_error rest k = Some x ->
           exists item,
             nth_error validated k = Some item
             /\ resultOf (validateLineItem x
                            (path ++ "[" ++ JsString.ofNat (i + k) ++ "]"))
                = Some item.
Proof.
  induction rest as [| x rest IH]; intros i acc hasError items;
    cbn [validateLineItemsLoop].
  - cbn. intros [= <- _]. exists []. rewrite app_nil_r.
    split; [ reflexivity | split; [ reflexivity | ] ].
    intros k y Hk. now destruct k.
  - split_binds.
    destruct (resultOf (validateLineItem x _)) as [it |] eqn:Ex.
    + intros Hres.
      destruct (IH _ _ _ _ Hres) as (validated & -> & Hlen & Hnth).
      exists (it :: validated). rewrite <- app_assoc.
      split; [ reflexivity | split; [ cbn; now rewrite Hlen | ] ].
      intros [| k] y Hk; cbn in Hk.
      * injection Hk as <-. exists it. rewrite Nat.add_0_r. now split.
      * destruct (Hnth k y Hk) as (item & Hitem & Hval).
        exists item. rewrite Nat.add_succ_r. now split.
    + intros Hres.
      pose proof (validateLineItemsLoop_sticky rest path (S i) acc) as Hs.
      rewrite Hres in Hs. discriminate.
Qed.

(** X4. The line items of an accepted draft.  When [validateDraft]
    accepts an input, [lineItems] of the input is an array, and the line
    items of the draft are the items that [validateLineItem] returns for
    the elements of that array, one for each element and in the order of
    the array: no element is left out, repeated or moved. *)
Theorem validateDraft_keeps_line_items (input : value) (draft : InvoiceDraft.t) :
  validateDraft input = Valid draft ->
  exists elements,
    getField input "lineItems" = VArr elements
    /\ List.length (InvoiceDraft.lineItems draft) = List.length elements
    /\ forall k x,
         nth_error elements k = Some x ->
         exists item,
           nth_error (InvoiceDraft.lineItems draft) k = Some item
           /\ resultOf (validateLineItem x
                          ("lineItems[" ++ JsString.ofNat k ++ "]"))
              = Some item.
Proof.
  intros Hv.
  destruct (validateDraft_valid_groups input draft Hv)
    as (_ & _ & _ & _ & Hl & _).
  revert Hl. unfold validateLineItems.
  destruct (getField input "lineItems")
    as [ | | b | x | s | t | [| e l] | fs ]; try discriminate.
  split_binds.
  destruct (resultOf (validateLineItemsLoop (e :: l) "lineItems" 0 [] false))
    as [items hasError] eqn:E.
  destruct hasError; cbn; [ discriminate | ].
  intros [= <-].
  destruct (validateLineItemsLoop_items _ _ _ _ _ _ E)
    as (validated & -> & Hlen & Hnth).
  exists (e :: l). split; [ reflexivity | ].
  split; [ exact Hlen | exact Hnth ].
Qed.

Lemma validateDraft_keeps_line_items_witness :
  exists elements,
    getField Samples.toNormalise "lineItems" = VArr elements
    /\ List.length (InvoiceDraft.lineItems Samples.normalised)
       = List.length elements.
Proof.
  destruct (validateDraft_keeps_line_items Samples.toNormalise Samples.normalised)
    as (elements & Hl & Hn & _).
  - vm_compute. reflexivity.
  - exists elements. exact (conj Hl Hn).
Defined.

(* ====================================================================== *)
(** * Where issues point *)
(* ====================================================================== *)

Lemma path_issue code path message hint :
  Issue.path (issue code path message hint) = path.
Proof.
  unfold issue. destruct hint as [h |]; [ destruct (JsString.isEmpty h) | ];
    reflexivity.
Qed.

Lemma pathsIn_nil paths : pathsIn paths [].
Proof. intros i []. Qed.

Lemma pathsIn_one paths i : In (Issue.path i) paths -> pathsIn paths [ i ].
Proof. now intros H j [<- | []]. Qed.

Lemma pathsIn_app paths l r :
  pathsIn paths l -> pathsIn paths r -> pathsIn paths (l ++ r).
Proof. intros Hl Hr i H. apply in_app_or in H. destruct H; auto. Qed.

Lemma pathsIn_incl paths paths' issues :
  incl paths paths' -> pathsIn paths issues -> pathsIn paths' issues.
Proof. intros Hi H i Hin. apply Hi. now apply H. Qed.

Ltac field_paths :=
  unfold issuesOf;
  repeat match goal with
         | |- context [match ?x with _ => _ end] => destruct x
         end;
  cbn; first [ apply pathsIn_nil
             | apply pathsIn_one; rewrite ?path_issue; now left ].

Lemma validateRequiredString_paths obj field path :
  pathsIn [ path ] (issuesOf (validateRequiredString obj field path)).
Proof. unfold validateRequiredString. field_paths. Qed.

Lemma validateOptionalString_paths obj field path :
  pathsIn [ path ] (issuesOf (validateOptionalString obj field path)).
Proof. unfold validateOptionalString. field_paths. Qed.

Lemma validateRequiredNumber_paths obj field path options :
  pathsIn [ path ] (issuesOf (validateRequiredNumber obj field path options)).
Proof. unfold validateRequiredNumber, validateNumberValue. field_paths. Qed.

Lemma validateOptionalNumber_paths obj field path options :
  pathsIn [ path ] (issuesOf (validateOptionalNumber obj field path options)).
Proof. unfold validateOptionalNumber. field_paths. Qed.

Lemma validateIsoDate_paths obj field path required :
  pathsIn [ path ] (issuesOf (validateIsoDate obj field path required)).
Proof. unfold validateIsoDate. field_paths. Qed.

Lemma validateCurrency_paths obj field path :
  pathsIn [ path ] (issuesOf (validateCurrency obj field path)).
Proof.
  unfold validateCurrency. split_binds.
  apply pathsIn_app; [ apply validateRequiredString_paths | ].
  field_paths.
Qed.

Lemma pathsIn_field basePath fields field issues :
  In field fields ->
  pathsIn [ basePath ++ "." ++ field ] issues ->
  pathsIn (fieldPaths basePath fields) issues.
Proof.
  intros Hf H. eapply pathsIn_incl; [ | exact H ].
  intros p [<- | []]. right. apply in_map_iff. now exists field.
Qed.

Ltac reports_paths :=
  repeat first
    [ apply Forall_nil
    | apply Forall_cons
    | apply pathsIn_one; rewrite path_issue; now left
    | (eapply pathsIn_field;
       [ | first [ apply validateRequiredString_paths
                 | apply validateOptionalString_paths
                 | apply validateRequiredNumber_paths
                 | apply validateOptionalNumber_paths
                 | apply validateIsoDate_paths
                 | apply validateCurrency_paths ] ];
       cbn; tauto) ].

Lemma businessReports_paths input basePath :
  Forall (pathsIn (fieldPaths basePath businessFields))
    (Exhaustive.businessReports input basePath).
Proof.
  unfold Exhaustive.businessReports. destruct (isObject input); reports_paths.
Qed.

Lemma clientReports_paths input basePath :
  Forall (pathsIn (fieldPaths basePath clientFields))
    (Exhaustive.clientReports input basePath).
Proof.
  unfold Exhaustive.clientReports. destruct (isObject input); reports_paths.
Qed.

Lemma headerReports_paths input basePath :
  Forall (pathsIn (fieldPaths basePath headerFields))
    (Exhaustive.headerReports input basePath).
Proof.
  unfold Exhaustive.headerReports, Exhaustive.dateOrderReport.
  destruct (isObject input); reports_paths.
  repeat match goal with
         | |- context [match ?x with _ => _ end] => destruct x
         end;
    first [ apply pathsIn_nil
          | apply pathsIn_one; rewrite path_issue; cbn; tauto ].
Qed.

Lemma lineItemReports_paths input basePath :
  Forall (pathsIn (fieldPaths basePath lineItemFields))
    (Exhaustive.lineItemReports input basePath).
Proof.
  unfold Exhaustive.lineItemReports. destruct (isObject input); reports_paths.
Qed.

(** The path of an issue of an input object: one of the paths of the
    three objects and of the array, or one of the paths of an element of
    the array. *)
Lemma issue_path_cases input i :
  isObject input = true ->
  In i (groupIssues input) ->
  In (Issue.path i) groupPaths
  \/ exists elements k,
       getField input "lineItems" = VArr elements
       /\ (k < List.length elements)%nat
       /\ In (Issue.path i) (lineItemPaths k).
Proof.
  intros Hobj Hin.
  rewrite groupIssues_exhaustive in Hin.
  apply in_concat in Hin. destruct Hin as (report & Hr & Hi).
  unfold Exhaustive.fieldReports in Hr.
  assert (Hgroup : incl (fieldPaths "business" businessFields) groupPaths
                   /\ incl (fieldPaths "client" clientFields) groupPaths
                   /\ incl (fieldPaths "header" headerFields) groupPaths).
  { unfold groupPaths. repeat split; intros p Hp; rewrite !in_app_iff; tauto. }
  destruct Hgroup as (Hb & Hc & Hh).
  rewrite !in_app_iff in Hr. destruct Hr as [Hr | [Hr | [Hr | Hr]]].
  - left. apply Hb.
    pose proof (businessReports_paths (getField input "business") "business") as H.
    rewrite Forall_forall in H. now apply (H report Hr).
  - left. apply Hc.
    pose proof (clientReports_paths (getField input "client") "client") as H.
    rewrite Forall_forall in H. now apply (H report Hr).
  - left. apply Hh.
    pose proof (headerReports_paths (getField input "header") "header") as H.
    rewrite Forall_forall in H. now apply (H report Hr).
  - unfold Exhaustive.lineItemsReports in Hr.
    destruct (getField input "lineItems")
      as [ | | b0 | x | s | t | [| e rest] | fs ] eqn:Hl;
      try (left; destruct Hr as [<- | []]; destruct Hi as [<- | []];
           rewrite path_issue; unfold groupPaths; rewrite !in_app_iff;
           right; right; right; now left).
    right.
    apply in_elementReports in Hr. destruct Hr as (k & x & Hk & Hr).
    exists (e :: rest), k. split; [ reflexivity | ].
    split; [ apply nth_error_Some; congruence | ].
    pose proof (lineItemReports_paths x
                  ("lineItems" ++ "[" ++ JsString.ofNat (0 + k) ++ "]")) as H.
    rewrite Forall_forall in H. apply (H report Hr i Hi).
Qed.

(** X2. Where issues point.  The path of every issue that
    [validateDraft] returns is the empty path when the input is not an
    object; otherwise it is the path of one of the objects [business],
    [client] and [header], of one of their fields, of the array
    [lineItems], of one of its elements [lineItems[k]] with [k] below the
    length of the array, or of one of the four fields of such an
    element. *)
Theorem validateDraft_issue_paths
    (input : value) (issues : list Issue.t) (i : Issue.t) :
  validateDraft input = Invalid issues ->
  In i issues ->
  (isObject input = false /\ Issue.path i = "")
  \/ (isObject input = true /\ In (Issue.path i) groupPaths)
  \/ (isObject input = true
      /\ exists elements k,
           getField input "lineItems" = VArr elements
           /\ (k < List.length elements)%nat
           /\ In (Issue.path i) (lineItemPaths k)).
Proof.
  intros Hv Hin.
  destruct (isObject input) eqn:Hobj.
  2: { left. unfold validateDraft in Hv. rewrite Hobj in Hv.
       injection Hv as <-. destruct Hin as [<- | []].
       split; reflexivity. }
  right.
  destruct (validateDraft_cases input Hobj)
    as [[_ Hv'] | [_ (b & c & h & l & _ & _ & _ & _ & Hv')]];
    rewrite Hv' in Hv; [ | discriminate ].
  injection Hv as <-.
  destruct (issue_path_cases input i Hobj Hin) as [H | H]; auto.
Qed.

Lemma validateDraft_issue_paths_witness :
  exists k, In "lineItems[0].unitPrice" (lineItemPaths k).
Proof.
  destruct (validateDraft_issue_paths Samples.severalInvalid
              [ issue MISSING_REQUIRED "client.name" "name is required" None;
                issue INVALID_VALUE "header.currency"
                  ("currency " ++ quote ++ "FAKE" ++ quote
                     ++ " is not a recognized currency code")
                  (Some "Use ISO 4217 codes like EUR, USD, GBP");
                issue NEGATIVE_NUMBER "lineItems[0].unitPrice"
                  "unitPrice cannot be negative" (Some "Use a positive number");
                issue MISSING_REQUIRED "lineItems[2].description"
                  "description cannot be empty" None ]
              (issue NEGATIVE_NUMBER "lineItems[0].unitPrice"
                 "unitPrice cannot be negative" (Some "Use a positive number")))
    as [[H _] | [[_ H] | (_ & elements & k & _ & _ & H)]].
  - vm_compute. reflexivity.
  - cbn. tauto.
  - discriminate H.
  - exfalso. cbn in H.
    repeat (destruct H as [H | H]; [ discriminate H | ]). exact H.
  - exists k. exact H.
Defined.

(* ====================================================================== *)
(** * The currency code *)
(* ====================================================================== *)

(** X22. The currency code.  A currency given as a string is accepted
    exactly when the string, trimmed and in upper case, is one of the
    supported codes, whatever the case of its letters and the blanks
    around it; what is stored is the trimmed string in upper case. *)
Theorem validateCurrency_any_case
    (obj : value) (field path : string) (s : string) :
  getField obj field = VStr s ->
  let code := JsString.toUpperCase (JsString.trim s) in
  resultOf (validateCurrency obj field path)
  = if isSupportedCurrency code then Some code else None.
Proof.
  intros Hf. cbv zeta. unfold validateCurrency. split_binds.
  unfold validateRequiredString, resultOf at 1 2. rewrite Hf. cbn [isNullish].
  destruct (JsString.isEmpty (JsString.trim s)) eqn:Ee; cbn.
  - destruct (JsString.trim s); [ reflexivity | discriminate ].
  - rewrite Ee.
    destruct (isSupportedCurrency (JsString.toUpperCase (JsString.trim s)));
      reflexivity.
Qed.

Lemma validateCurrency_any_case_witness :
  resultOf (validateCurrency (VObj [ ("currency", VStr " eur ") ]) "currency"
              "header.currency")
  = Some "EUR".
Proof.
  apply (validateCurrency_any_case (VObj [ ("currency", VStr " eur ") ])
           "currency" "header.currency" " eur ").
  reflexivity.
Defined.

(* ====================================================================== *)
(** * The totals of an accepted draft *)
(* ====================================================================== *)

(** X7. No negative amount.  For every draft that [validateDraft]
    returns, no line amount, and neither the subtotal, the tax amount nor
    the total that [computeInvoice] computes, is below zero.  (An amount
    can be NaN: the product of an infinite quantity and a unit price of
    zero, and what is computed from it.) *)
Theorem computeInvoice_no_negative_amount (input : value) (draft : InvoiceDraft.t) :
  validateDraft input = Valid draft ->
  let totals := InvoiceComputed.computed (computeInvoice draft) in
  Forall (fun amount => JsNumber.lt amount PrimFloat.zero = false)
    (ComputedTotals.lineItemAmounts totals)
  /\ JsNumber.lt (ComputedTotals.subtotal totals) PrimFloat.zero = false
  /\ JsNumber.lt (ComputedTotals.taxAmount totals) PrimFloat.zero = false
  /\ JsNumber.lt (ComputedTotals.total totals) PrimFloat.zero = false.
Proof.
  intros Hv.
  destruct (validateDraft_valid_groups input draft Hv)
    as (_ & _ & _ & Hh & Hl & _).
  destruct (validateLineItems_result _ _ _ Hl) as [Hall _].
  destruct (validateHeader_fields _ _ _ Hh) as (_ & _ & _ & Hrate & _).
  cbn.
  assert (Hamounts :
            Forall (fun amount => JsNumber.lt amount PrimFloat.zero = false)
              (map (fun item => PrimFloat.mul (LineItem.quantity item)
                                  (LineItem.unitPrice item))
                 (InvoiceDraft.lineItems draft))).
  { apply Forall_map. eapply Forall_impl; [ | exact Hall ].
    intros item (_ & _ & Hq & _ & _ & Hp & _). now apply mul_not_negative. }
  assert (Hsub : JsNumber.lt
                   (fold_left (fun sum amount => PrimFloat.add sum amount)
                      (map (fun item => PrimFloat.mul (LineItem.quantity item)
                                          (LineItem.unitPrice item))
                         (InvoiceDraft.lineItems draft)) PrimFloat.zero)
                   PrimFloat.zero = false)
    by (apply sum_not_negative; [ reflexivity | exact Hamounts ]).
  assert (Htax : JsNumber.lt
                   (orDefault (InvoiceHeader.taxRate (InvoiceDraft.header draft))
                      PrimFloat.zero) PrimFloat.zero = false).
  { destruct (InvoiceHeader.taxRate (InvoiceDraft.header draft)) as [r |];
      [ apply Hrate | reflexivity ]. }
  split; [ exact Hamounts | ].
  split; [ exact Hsub | ].
  split; [ now apply mul_not_negative | ].
  apply add_not_negative; [ exact Hsub | now apply mul_not_negative ].
Qed.

Lemma computeInvoice_no_negative_amount_witness :
  JsNumber.lt
    (ComputedTotals.total
       (InvoiceComputed.computed (computeInvoice Samples.normalised)))
    PrimFloat.zero
  = false.
Proof.
  destruct (computeInvoice_no_negative_amount Samples.toNormalise
              Samples.normalised)
    as (_ & _ & _ & H).
  - vm_compute. reflexivity.
  - exact H.
Defined.

(** X8. Computing again changes nothing.  [computeInvoice] returns the
    four fields of the draft as they are; applied to what [computeInvoice]
    returned, [recomputeInvoice] returns the same invoice; and applying
    [recomputeInvoice] twice is the same as applying it once. *)
Theorem recomputeInvoice_idempotent :
  (forall draft, draftOf (computeInvoice draft) = draft)
  /\ (forall draft, recomputeInvoice (computeInvoice draft) = computeInvoice draft)
  /\ (forall invoice,
        recomputeInvoice (recomputeInvoice invoice) = recomputeInvoice invoice).
Proof.
  assert (H : forall draft, draftOf (computeInvoice draft) = draft)
    by (now intros [b c h l]).
  split; [ exact H | ].
  split; intros x; unfold recomputeInvoice; now rewrite H.
Qed.

(* ====================================================================== *)
(** * The locale of a currency *)
(* ====================================================================== *)

(** The capitals of [e] with an acute accent and of the sharp s. *)
Example toUpperCase_latin1 :
  JsString.toUpperCase (String (ascii_of_nat 233) "t" ++ String (ascii_of_nat 223) "")
  = String (ascii_of_nat 201) "TSS".
Proof. vm_compute. reflexivity. Qed.

Lemma toUpperCase_append a b :
  JsString.toUpperCase (a ++ b)
  = JsString.toUpperCase a ++ JsString.toUpperCase b.
Proof.
  induction a as [| c a IH].
  - reflexivity.
  - change (JsString.toUpperCase (String c a ++ b))
      with (JsString.upperChar c ++ JsString.toUpperCase (a ++ b)).
    change (JsString.toUpperCase (String c a))
      with (JsString.upperChar c ++ JsString.toUpperCase a).
    rewrite IH. clear IH.
    induction (JsString.upperChar c) as [| x u IHu]; cbn;
      [ reflexivity | now rewrite IHu ].
Qed.

Lemma upperChar_idempotent c :
  JsString.toUpperCase (JsString.upperChar c) = JsString.upperChar c.
Proof.
  destruct c as [[] [] [] [] [] [] [] []]; vm_compute; reflexivity.
Qed.

Lemma toUpperCase_idempotent s :
  JsString.toUpperCase (JsString.toUpperCase s) = JsString.toUpperCase s.
Proof.
  induction s as [| c s IH]; [ reflexivity | ].
  change (JsString.toUpperCase (String c s))
    with (JsString.upperChar c ++ JsString.toUpperCase s).
  now rewrite toUpperCase_append, upperChar_idempotent, IH.
Qed.

Lemma supported_currency_cases c :
  isSupportedCurrency c = true -> In c SUPPORTED_CURRENCIES.
Proof.
  unfold isSupportedCurrency. intros H.
  apply existsb_exists in H. destruct H as (x & Hin & Hx).
  apply String.eqb_eq in Hx. now subst.
Qed.

(** X12. The locale of a currency.  [getLocale] does not depend on the
    case of the letters of the code; and for each of the thirty supported
    currencies but one it is the locale that [CURRENCY_LOCALE_MAP] gives
    for the code: the table has no entry for HRK, whose locale is the
    default, en-US. *)
Theorem getLocale_of_supported_currency :
  (forall currency,
      getLocale (JsString.toUpperCase currency) = getLocale currency)
  /\ (forall currency,
        isSupportedCurrency currency = true ->
        if String.eqb currency "HRK"
        then localeOf CURRENCY_LOCALE_MAP currency = None
             /\ getLocale currency = DEFAULT_LOCALE
        else localeOf CURRENCY_LOCALE_MAP currency = Some (getLocale currency)).
Proof.
  split.
  - intros currency. unfold getLocale, getLocaleForCurrency.
    now rewrite toUpperCase_idempotent.
  - intros currency H. apply supported_currency_cases in H.
    unfold SUPPORTED_CURRENCIES in H. cbn [In] in H.
    repeat (destruct H as [<- | H]; [ vm_compute; auto | ]).
    destruct H.
Qed.

Lemma getLocale_of_supported_currency_witness :
  localeOf CURRENCY_LOCALE_MAP "CHF" = Some (getLocale "CHF").
Proof.
  exact (proj2 getLocale_of_supported_currency "CHF" eq_refl).
Defined.

(* ====================================================================== *)
(** * The order of the two dates *)
(* ====================================================================== *)

(** X27. The order of the two dates, for years of four digits.  For an
    input whose dates, where they are native dates, have a UTC year from
    0000 to 9999, and whose [issueDate] and [dueDate] both validate on
    their own, the two validated dates are real calendar days written
    YYYY-MM-DD, and [validateDraft] reports a DATE_ORDER issue at
    ["header.dueDate"] if and only if the due date is before the issue
    date in the calendar: an earlier year, or the same year and an earlier
    month, or the same month and an earlier day. *)
Theorem dueDate_order_calendar (input : value) (issueDate dueDate : string) :
  fourDigitYears input = true ->
  resultOf (validateIsoDate (getField input "header") "issueDate"
              "header.issueDate" true) = Some issueDate ->
  resultOf (validateIsoDate (getField input "header") "dueDate"
              "header.dueDate" false) = Some dueDate ->
  exists yi mi di yd md dd,
    JsDate.isoDateParts issueDate = Some (yi, mi, di)
    /\ JsDate.isoDateParts dueDate = Some (yd, md, dd)
    /\ Gregorian.isDate yi mi di = true
    /\ Gregorian.isDate yd md dd = true
    /\ ((exists issues i,
            validateDraft input = Invalid issues
            /\ In i issues
            /\ Issue.code i = DATE_ORDER
            /\ Issue.path i = "header.dueDate")
        <-> yd < yi \/ (yd = yi /\ (md < mi \/ (md = mi /\ dd < di)))).
Proof.
  intros Hy Hi Hd.
  unfold fourDigitYears in Hy. apply andb_true_iff in Hy.
  destruct Hy as [Hy1 Hy2].
  pose proof (isoDate_result _ _ _ _ _ Hi Hy1) as Ci.
  pose proof (isoDate_result _ _ _ _ _ Hd Hy2) as Cd.
  unfold Normal.isCalendarDate in Ci, Cd.
  destruct (JsDate.isoDateParts issueDate) as [[[yi mi] di] |] eqn:Ei;
    [ | discriminate ].
  destruct (JsDate.isoDateParts dueDate) as [[[yd md] dd] |] eqn:Ed;
    [ | discriminate ].
  rewrite roundTrips_calendar in Ci, Cd.
  exists yi, mi, di, yd, md, dd.
  repeat (split; [ reflexivity || assumption | ]).
  destruct dueDate_order_strings as (Hrule & Hcalendar & _).
  destruct (Hrule input issueDate dueDate Hi Hd) as [Hiff _].
  rewrite Hiff. exact (Hcalendar dueDate issueDate _ _ _ _ _ _ Ed Ei).
Qed.

Lemma dueDate_order_calendar_witness :
  exists yi mi di yd md dd,
    JsDate.isoDateParts "2025-01-15" = Some (yi, mi, di)
    /\ JsDate.isoDateParts "2025-01-14" = Some (yd, md, dd)
    /\ Gregorian.isDate yi mi di = true
    /\ Gregorian.isDate yd md dd = true
    /\ ((exists issues i,
            validateDraft (Samples.dueOn "2025-01-14") = Invalid issues
            /\ In i issues
            /\ Issue.code i = DATE_ORDER
            /\ Issue.path i = "header.dueDate")
        <-> yd < yi \/ (yd = yi /\ (md < mi \/ (md = mi /\ dd < di)))).
Proof.
  apply (dueDate_order_calendar (Samples.dueOn "2025-01-14")
           "2025-01-15" "2025-01-14"); vm_compute; reflexivity.
Defined.

(* ====================================================================== *)
(** * Optional fields on the formatted invoice *)
(* ====================================================================== *)

(** The due date of an accepted header, when there is one, is not
    empty. *)
Lemma validateHeader_dueDate input path h :
  resultOf (validateHeader input path) = Some h ->
  match InvoiceHeader.dueDate h with
  | Some d => JsString.isEmpty d = false
  | None => True
  end.
Proof.
  unfold validateHeader.
  destruct (isObject input); cbn [negb]; [ | discriminate ].
  split_binds.
  destruct (resultOf (validateRequiredString input "invoiceNumber" _))
    as [n |]; [ | discriminate ].
  destruct (resultOf (validateIsoDate input "issueDate" _ true))
    as [i |]; [ | discriminate ].
  destruct (resultOf (validateCurrency input "currency" _))
    as [c |]; [ | discriminate ].
  destruct (_ || _); [ discriminate | ].
  intros [= <-]. cbn [InvoiceHeader.dueDate].
  destruct (resultOf (validateIsoDate input "dueDate" _ false)) as [d |];
    [ | exact I ].
  unfold whenTruthy, falsy. destruct (JsString.isEmpty d) eqn:E; [ exact I | exact E ].
Qed.

Lemma trimmedOption_filled o :
  Normal.trimmedOption o ->
  match o with Some s => s <> "" | None => True end.
Proof.
  destruct o as [s |]; [ | trivial ].
  intros [H _]. now apply isEmpty_false_iff.
Qed.

Section Formatting.

Variable NumberFormat_currency :
  string -> string -> CurrencyDisplay.t -> option (JsNumber.number -> string).
Variable NumberFormat_decimal : string -> option (JsNumber.number -> string).
Variable DateTimeFormat : string -> DateStyle.t -> option (Z -> string).
Variable Date_parse_fallback : string -> option Z.

Abbreviation formatWith :=
  (formatInvoice NumberFormat_currency NumberFormat_decimal DateTimeFormat
     Date_parse_fallback).

Lemma formatLineItemsFrom_nth lineItems amounts cf nf :
  forall index k item,
    nth_error lineItems k = Some item ->
    exists formatted,
      nth_error (formatLineItemsFrom index lineItems amounts cf nf) k
      = Some formatted
      /\ FormattedLineItem.unit formatted = orEmpty (LineItem.unit item).
Proof.
  induction lineItems as [| x rest IH]; intros index k item Hk.
  - now destruct k.
  - destruct k as [| k]; cbn in Hk |- *.
    + injection Hk as ->. eexists. split; reflexivity.
    + now apply IH.
Qed.

(** The date formatter of the host writes a date as a text that is not
    empty. *)
Hypothesis DateTimeFormat_nonempty :
  forall locale style formatter date,
    DateTimeFormat locale style = Some formatter -> formatter date <> "".

(** C8. On the output of [formatInvoice], for every computed invoice and
    every options value, an optional field that is absent on the draft
    (the phone, the logo URL and the tax id of the business, the email of
    the client, the due date, the tax rate and the notes of the header,
    the unit of a line item) is the empty string; every field of the
    output is a string, none can be [null] or [undefined].  An optional
    string that is present is copied as it is, a tax rate that is present
    is written by [toFixed(0)], which is never empty, and a due date that
    is present and not empty is written by the date formatter.  On the
    invoice computed from a draft that [validateDraft] returned (where an
    empty optional string counts as absent and is left out), every
    optional field that is present is rendered with a content that is not
    empty. *)
Theorem formatInvoice_optional_fields
    (invoice : InvoiceComputed.t) (options : option FormatOptions.t)
    (out : FormattedInvoice.t) :
  formatWith invoice options = Some out ->
  let business := InvoiceComputed.business invoice in
  let client := InvoiceComputed.client invoice in
  let header := InvoiceComputed.header invoice in
  let copied (field : option string) (rendered : string) :=
    match field with
    | None => rendered = ""
    | Some s => rendered = s
    end in
  let filled {A} (field : option A) (rendered : string) :=
    match field with
    | None => rendered = ""
    | Some _ => rendered <> ""
    end in
  (copied (Business.phone business)
     (FormattedBusiness.phone (FormattedInvoice.business out))
   /\ copied (Business.logoUrl business)
        (FormattedBusiness.logoUrl (FormattedInvoice.business out))
   /\ copied (Business.taxId business)
        (FormattedBusiness.taxId (FormattedInvoice.business out))
   /\ copied (Client.email client)
        (FormattedClient.email (FormattedInvoice.client out))
   /\ copied (InvoiceHeader.notes header)
        (FormattedHeader.notes (FormattedInvoice.header out))
   /\ match InvoiceHeader.dueDate header with
      | None => FormattedHeader.dueDate (FormattedInvoice.header out) = ""
      | Some d =>
          (d = "" -> FormattedHeader.dueDate (FormattedInvoice.header out) = "")
          /\ (d <> "" -> FormattedHeader.dueDate (FormattedInvoice.header out) <> "")
      end
   /\ match InvoiceHeader.taxRate header with
      | None => FormattedHeader.taxRateDisplay (FormattedInvoice.header out) = ""
      | Some rate =>
          FormattedHeader.taxRateDisplay (FormattedInvoice.header out)
          = JsNumber.toFixed0 (PrimFloat.mul rate 100%float)
          /\ FormattedHeader.taxRateDisplay (FormattedInvoice.header out) <> ""
      end
   /\ (forall k item,
         nth_error (InvoiceComputed.lineItems invoice) k = Some item ->
         exists formatted,
           nth_error (FormattedInvoice.lineItems out) k = Some formatted
           /\ copied (LineItem.unit item) (FormattedLineItem.unit formatted)))
  /\ (forall input draft,
        validateDraft input = Valid draft ->
        invoice = computeInvoice draft ->
        filled (Business.phone business)
          (FormattedBusiness.phone (FormattedInvoice.business out))
        /\ filled (Business.logoUrl business)
             (FormattedBusiness.logoUrl (FormattedInvoice.business out))
        /\ filled (Business.taxId business)
             (FormattedBusiness.taxId (FormattedInvoice.business out))
        /\ filled (Client.email client)
             (FormattedClient.email (FormattedInvoice.client out))
        /\ filled (InvoiceHeader.notes header)
             (FormattedHeader.notes (FormattedInvoice.header out))
        /\ filled (InvoiceHeader.dueDate header)
             (FormattedHeader.dueDate (FormattedInvoice.header out))
        /\ filled (InvoiceHeader.taxRate header)
             (FormattedHeader.taxRateDisplay (FormattedInvoice.header out))
        /\ (forall k item,
              nth_error (InvoiceComputed.lineItems invoice) k = Some item ->
              exists formatted,
                nth_error (FormattedInvoice.lineItems out) k = Some formatted
                /\ filled (LineItem.unit item)
                     (FormattedLineItem.unit formatted))).
Proof.
  intros Hout business client header copied filled.
  assert (Hcopied :
    copied (Business.phone business)
      (FormattedBusiness.phone (FormattedInvoice.business out))
    /\ copied (Business.logoUrl business)
         (FormattedBusiness.logoUrl (FormattedInvoice.business out))
    /\ copied (Business.taxId business)
         (FormattedBusiness.taxId (FormattedInvoice.business out))
    /\ copied (Client.email client)
         (FormattedClient.email (FormattedInvoice.client out))
    /\ copied (InvoiceHeader.notes header)
         (FormattedHeader.notes (FormattedInvoice.header out))
    /\ match InvoiceHeader.dueDate header with
       | None => FormattedHeader.dueDate (FormattedInvoice.header out) = ""
       | Some d =>
           (d = "" -> FormattedHeader.dueDate (FormattedInvoice.header out) = "")
           /\ (d <> "" -> FormattedHeader.dueDate (FormattedInvoice.header out) <> "")
       end
    /\ match InvoiceHeader.taxRate header with
       | None => FormattedHeader.taxRateDisplay (FormattedInvoice.header out) = ""
       | Some rate =>
           FormattedHeader.taxRateDisplay (FormattedInvoice.header out)
           = JsNumber.toFixed0 (PrimFloat.mul rate 100%float)
           /\ FormattedHeader.taxRateDisplay (FormattedInvoice.header out) <> ""
       end
    /\ (forall k item,
          nth_error (InvoiceComputed.lineItems invoice) k = Some item ->
          exists formatted,
            nth_error (FormattedInvoice.lineItems out) k = Some formatted
            /\ copied (LineItem.unit item) (FormattedLineItem.unit formatted))).
  { subst business client header copied. clear filled. revert Hout.
    unfold formatInvoice, createCurrencyFormatter, createNumberFormatter,
      createDateFormatter.
    destruct (NumberFormat_currency _ _ _) as [cf |]; [ | discriminate ].
    destruct (NumberFormat_decimal _) as [nf |]; [ | discriminate ].
    destruct (DateTimeFormat _ _) as [df |] eqn:Hdf; [ | discriminate ].
    unfold formatHeader, formatDate.
    destruct (parseIsoDate _ (InvoiceHeader.issueDate _)) as [t |];
      [ | discriminate ].
    destruct (InvoiceComputed.business invoice) as [bn ba be bp bl bt].
    destruct (InvoiceComputed.client invoice) as [cn ca ce].
    destruct (InvoiceComputed.header invoice) as [hn hi hd hc hr ho].
    cbn [InvoiceHeader.dueDate InvoiceHeader.taxRate InvoiceHeader.notes
         InvoiceHeader.invoiceNumber InvoiceHeader.currency
         InvoiceHeader.issueDate].
    assert (Hitems : forall amounts k item,
               nth_error (InvoiceComputed.lineItems invoice) k = Some item ->
               exists formatted,
                 nth_error
                   (formatLineItems (InvoiceComputed.lineItems invoice) amounts
                      cf nf) k
                 = Some formatted
                 /\ match LineItem.unit item with
                    | None => FormattedLineItem.unit formatted = ""
                    | Some s => FormattedLineItem.unit formatted = s
                    end).
    { intros amounts k item Hk.
      destruct (formatLineItemsFrom_nth _ amounts cf nf 0%nat k item Hk)
        as (f & Hf & Hu).
      exists f. split; [ exact Hf | ]. rewrite Hu.
      now destruct (LineItem.unit item). }
    assert (Hrate : forall r, JsNumber.toFixed0 r <> "").
    { intros r. apply isEmpty_false_iff, toFixed0_nonempty. }
    destruct hd as [d |].
    - destruct (JsString.isEmpty d) eqn:Hd.
      + intros [= <-]. cbn.
        destruct bp, bl, bt, ce, ho, hr; cbn; repeat split; auto;
          intros Hne; apply isEmpty_false_iff in Hne; congruence.
      + destruct (parseIsoDate _ d) as [td |]; [ | discriminate ].
        intros [= <-]. cbn.
        destruct bp, bl, bt, ce, ho, hr; cbn; repeat split; auto;
          try (intros ->; discriminate);
          try (intros _; eapply DateTimeFormat_nonempty; eassumption).
    - intros [= <-]. cbn.
      destruct bp, bl, bt, ce, ho, hr; cbn; repeat split; auto. }
  split; [ exact Hcopied | ].
  intros input draft Hv ->.
  destruct (validateDraft_valid_groups input draft Hv)
    as (_ & Hb & Hc & Hh & Hl & _).
  pose proof (validateBusiness_result _ _ _ Hb) as (_ & _ & _ & Hp & Hlogo & Htax).
  pose proof (validateClient_result _ _ _ Hc) as (_ & _ & He).
  destruct (validateHeader_fields _ _ _ Hh) as (_ & _ & _ & _ & Hnotes).
  pose proof (validateHeader_dueDate _ _ _ Hh) as Hdue.
  destruct (validateLineItems_result _ _ _ Hl) as [Hall _].
  apply trimmedOption_filled in Hp, Hlogo, Htax, He, Hnotes.
  subst business client header copied filled.
  cbn [computeInvoice InvoiceComputed.business InvoiceComputed.client
       InvoiceComputed.header InvoiceComputed.lineItems] in *.
  destruct Hcopied as (C1 & C2 & C3 & C4 & C5 & C6 & C7 & C8).
  repeat split.
  - destruct (Business.phone _); [ now rewrite C1 | exact C1 ].
  - destruct (Business.logoUrl _); [ now rewrite C2 | exact C2 ].
  - destruct (Business.taxId _); [ now rewrite C3 | exact C3 ].
  - destruct (Client.email _); [ now rewrite C4 | exact C4 ].
  - destruct (InvoiceHeader.notes _); [ now rewrite C5 | exact C5 ].
  - destruct (InvoiceHeader.dueDate _) as [d |]; [ | exact C6 ].
    apply C6. now apply isEmpty_false_iff.
  - destruct (InvoiceHeader.taxRate _); [ apply C7 | exact C7 ].
  - intros k item Hk. destruct (C8 k item Hk) as (f & Hf & Hu).
    exists f. split; [ exact Hf | ].
    rewrite Forall_forall in Hall.
    pose proof (Hall item (nth_error_In _ _ Hk)) as (_ & _ & _ & _ & _ & _ & Hunit).
    apply trimmedOption_filled in Hunit.
    destruct (LineItem.unit item); [ now rewrite Hu | exact Hu ].
Qed.

End Formatting.

Lemma dateFormat_nonempty locale style formatter date :
  Samples.dateFormat locale style = Some formatter -> formatter date <> "".
Proof.
  intros [= <-]. apply isEmpty_false_iff, isoDatePart_nonempty.
Qed.

Lemma formatInvoice_optional_fields_witness :
  exists out,
    formatInvoice Samples.currencyFormat Samples.decimalFormat
      Samples.dateFormat Samples.dateParse Samples.computedDue None = Some out
    /\ FormattedBusiness.phone (FormattedInvoice.business out) = ""
    /\ FormattedHeader.dueDate (FormattedInvoice.header out) <> ""
    /\ FormattedHeader.taxRateDisplay (FormattedInvoice.header out) = "".
Proof.
  eexists. split; [ vm_compute; reflexivity | ].
  destruct (formatInvoice_optional_fields Samples.currencyFormat
              Samples.decimalFormat Samples.dateFormat Samples.dateParse
              dateFormat_nonempty Samples.computedDue None _ eq_refl)
    as [_ H].
  destruct (H (Samples.dueOn "2025-01-20") Samples.draftDue)
    as (Hphone & _ & _ & _ & _ & Hdue & Hrate & _);
    [ vm_compute; reflexivity | reflexivity | ].
  exact (conj Hphone (conj Hdue Hrate)).
Defined.

(* ====================================================================== *)
(** * What the formatter writes *)
(* ====================================================================== *)

Section FormattedValues.

Variable NumberFormat_currency :
  string -> string -> CurrencyDisplay.t -> option (JsNumber.number -> string).
Variable NumberFormat_decimal : string -> option (JsNumber.number -> string).
Variable DateTimeFormat : string -> DateStyle.t -> option (Z -> string).
Variable Date_parse_fallback : string -> option Z.

Abbreviation formatted :=
  (formatInvoice NumberFormat_currency NumberFormat_decimal DateTimeFormat
     Date_parse_fallback).
Abbreviation computedAndFormatted :=
  (processDraft NumberFormat_currency NumberFormat_decimal DateTimeFormat
     Date_parse_fallback).
Abbreviation processed :=
  (processInvoice NumberFormat_currency NumberFormat_decimal DateTimeFormat
     Date_parse_fallback).

Lemma formatLineItemsFrom_amounts cf nf (f : LineItem.t -> JsNumber.number)
    lineItems :
  forall before,
    formatLineItemsFrom (List.length before) lineItems
      (before ++ map f lineItems) cf nf
    = map (fun item => lineOf cf nf item (f item)) lineItems.
Proof.
  induction lineItems as [| item rest IH]; intros before;
    cbn [formatLineItemsFrom map].
  - reflexivity.
  - f_equal.
    + unfold lineOf. f_equal. f_equal. rewrite app_nth2 by lia.
      now rewrite Nat.sub_diag.
    + specialize (IH (before ++ [ f item ])%list).
      rewrite length_app, <- app_assoc in IH. cbn in IH.
      rewrite Nat.add_1_r in IH. exact IH.
Qed.

Lemma formatLineItemsFrom_missing cf nf lineItems amounts :
  forall index,
    (List.length amounts <= index)%nat ->
    formatLineItemsFrom index lineItems amounts cf nf
    = map (fun item => lineOf cf nf item PrimFloat.zero) lineItems.
Proof.
  induction lineItems as [| item rest IH]; intros index Hle;
    cbn [formatLineItemsFrom map].
  - reflexivity.
  - f_equal.
    + unfold lineOf. f_equal. f_equal. now apply nth_overflow.
    + apply IH. lia.
Qed.

(** X9. The lines of a formatted invoice.  When [processDraft] returns
    for a draft, the formatted invoice has one line for each line item of
    the draft, in the same order; the line copies the description, writes
    the quantity with the number formatter and the unit price with the
    currency formatter, and its amount is the product of the quantity and
    the unit price written with the currency formatter; the three totals
    are the computed totals written with the same currency formatter.  The
    formatters are those of the currency of the header and of the locale
    of the options or, without one, of the currency. *)
Theorem processDraft_line_items
    (draft : InvoiceDraft.t) (options : option FormatOptions.t)
    (computed : InvoiceComputed.t) (invoice : FormattedInvoice.t) :
  computedAndFormatted draft options = Some (computed, invoice) ->
  let header := InvoiceDraft.header draft in
  let locale := resolvedLocale (InvoiceHeader.currency header) options in
  exists cf nf,
    createCurrencyFormatter NumberFormat_currency (InvoiceHeader.currency header)
      locale (FormatOptions.currencyDisplay (orDefault options FormatOptions.empty))
    = Some cf
    /\ createNumberFormatter NumberFormat_decimal locale = Some nf
    /\ FormattedInvoice.lineItems invoice
       = map (fun item =>
                lineOf cf nf item
                  (PrimFloat.mul (LineItem.quantity item) (LineItem.unitPrice item)))
           (InvoiceDraft.lineItems draft)
    /\ FormattedInvoice.totals invoice
       = FormattedTotals.mk
           (cf (ComputedTotals.subtotal (InvoiceComputed.computed computed)))
           (cf (ComputedTotals.taxAmount (InvoiceComputed.computed computed)))
           (cf (ComputedTotals.total (InvoiceComputed.computed computed))).
Proof.
  unfold processDraft, formatInvoice, resolvedLocale, createCurrencyFormatter,
    createNumberFormatter, createDateFormatter.
  cbn [computeInvoice InvoiceComputed.header InvoiceComputed.lineItems
       InvoiceComputed.computed ComputedTotals.lineItemAmounts].
  destruct (FormatOptions.currencyDisplay (orDefault options FormatOptions.empty))
    as [display |]; cbn [orDefault];
    (destruct (NumberFormat_currency _ _ _) as [cf |]; [ | discriminate ]);
    (destruct (NumberFormat_decimal _) as [nf |]; [ | discriminate ]);
    (destruct (DateTimeFormat _ _) as [df |]; [ | discriminate ]);
    (destruct (formatHeader _ _ df) as [h |]; [ | discriminate ]);
    intros [= <- <-]; exists cf, nf;
    (split; [ reflexivity | split; [ reflexivity | ] ]);
    cbn [FormattedInvoice.lineItems FormattedInvoice.totals];
    (split; [ | reflexivity ]);
    unfold formatLineItems;
    apply (formatLineItemsFrom_amounts cf nf
             (fun item => PrimFloat.mul (LineItem.quantity item)
                            (LineItem.unitPrice item))
             (InvoiceDraft.lineItems draft) []).
Qed.

(** X10. A line without a computed amount.  Whenever [formatInvoice]
    formats an invoice, it also formats the same invoice with an empty
    list of computed amounts (totals that are stale or were never
    computed): the missing amounts make nothing throw.  The output then
    has the same business, client, header and totals, and one line for
    each line item, in which the amount is the number 0 written with the
    currency formatter. *)
Theorem formatInvoice_missing_amounts
    (invoice : InvoiceComputed.t) (options : option FormatOptions.t)
    (out : FormattedInvoice.t) :
  formatted invoice options = Some out ->
  let totals := InvoiceComputed.computed invoice in
  let currency := InvoiceHeader.currency (InvoiceComputed.header invoice) in
  let bare :=
    InvoiceComputed.mk (InvoiceComputed.business invoice)
      (InvoiceComputed.client invoice) (InvoiceComputed.header invoice)
      (InvoiceComputed.lineItems invoice)
      (ComputedTotals.mk [] (ComputedTotals.subtotal totals)
         (ComputedTotals.taxAmount totals) (ComputedTotals.total totals)) in
  exists cf nf out',
    createCurrencyFormatter NumberFormat_currency currency
      (resolvedLocale currency options)
      (FormatOptions.currencyDisplay (orDefault options FormatOptions.empty))
    = Some cf
    /\ createNumberFormatter NumberFormat_decimal
         (resolvedLocale currency options) = Some nf
    /\ formatted bare options = Some out'
    /\ FormattedInvoice.lineItems out'
       = map (fun item => lineOf cf nf item PrimFloat.zero)
           (InvoiceComputed.lineItems invoice)
    /\ FormattedInvoice.business out' = FormattedInvoice.business out
    /\ FormattedInvoice.client out' = FormattedInvoice.client out
    /\ FormattedInvoice.header out' = FormattedInvoice.header out
    /\ FormattedInvoice.totals out' = FormattedInvoice.totals out.
Proof.
  unfold formatInvoice, resolvedLocale, createCurrencyFormatter,
    createNumberFormatter, createDateFormatter.
  cbv zeta.
  cbn [InvoiceComputed.header InvoiceComputed.business InvoiceComputed.client
       InvoiceComputed.lineItems InvoiceComputed.computed
       ComputedTotals.lineItemAmounts].
  destruct (FormatOptions.currencyDisplay (orDefault options FormatOptions.empty))
    as [display |]; cbn [orDefault];
    (destruct (NumberFormat_currency _ _ _) as [cf |]; [ | discriminate ]);
    (destruct (NumberFormat_decimal _) as [nf |]; [ | discriminate ]);
    (destruct (DateTimeFormat _ _) as [df |]; [ | discriminate ]);
    (destruct (formatHeader _ _ df) as [h |]; [ | discriminate ]);
    intros [= <-]; exists cf, nf; eexists;
    (split; [ reflexivity | ]); (split; [ reflexivity | ]);
    (split; [ reflexivity | ]);
    cbn [FormattedInvoice.lineItems FormattedInvoice.business
         FormattedInvoice.client FormattedInvoice.header
         FormattedInvoice.totals];
    (split; [ unfold formatLineItems; apply formatLineItemsFrom_missing;
              cbn; lia
            | repeat split ]).
Qed.

(** X11. The standalone formatters.  What [formatInvoice] writes for the
    issue date is what [formatIsoDate] writes for it with the locale and
    the date style of the invoice; and, when the currency is displayed as
    a symbol (the default), what it writes for the subtotal, the tax
    amount and the total is what [formatCurrency] writes for these
    numbers with the currency of the header and the locale of the
    options. *)
Theorem formatInvoice_agrees_with_utilities
    (invoice : InvoiceComputed.t) (options : option FormatOptions.t)
    (out : FormattedInvoice.t) :
  formatted invoice options = Some out ->
  let opts := orDefault options FormatOptions.empty in
  let header := InvoiceComputed.header invoice in
  let totals := InvoiceComputed.computed invoice in
  let locale := resolvedLocale (InvoiceHeader.currency header) options in
  formatIsoDate DateTimeFormat Date_parse_fallback
    (InvoiceHeader.issueDate header) (Some locale)
    (FormatOptions.dateFormat opts)
  = Some (FormattedHeader.issueDate (FormattedInvoice.header out))
  /\ (orDefault (FormatOptions.currencyDisplay opts) CurrencyDisplay.symbol
      = CurrencyDisplay.symbol ->
      let money amount :=
        formatCurrency NumberFormat_currency amount
          (InvoiceHeader.currency header) (FormatOptions.locale opts) in
      money (ComputedTotals.subtotal totals)
      = Some (FormattedTotals.subtotal (FormattedInvoice.totals out))
      /\ money (ComputedTotals.taxAmount totals)
         = Some (FormattedTotals.taxAmount (FormattedInvoice.totals out))
      /\ money (ComputedTotals.total totals)
         = Some (FormattedTotals.total (FormattedInvoice.totals out))).
Proof.
  unfold formatInvoice, formatIsoDate, formatCurrency, resolvedLocale,
    createCurrencyFormatter, createNumberFormatter, createDateFormatter.
  cbv zeta. cbn [orDefault].
  destruct (NumberFormat_currency _ _ _) as [cf |] eqn:Hcf; [ | discriminate ].
  destruct (NumberFormat_decimal _) as [nf |]; [ | discriminate ].
  destruct (DateTimeFormat _ _) as [df |] eqn:Hdf; [ | discriminate ].
  unfold formatHeader.
  destruct (formatDate _ (InvoiceHeader.issueDate _) df) as [issueDate |] eqn:Hi;
    [ | discriminate ].
  destruct (match InvoiceHeader.dueDate (InvoiceComputed.header invoice) with
            | Some d => _
            | None => _
            end) as [dueDate |]; [ | discriminate ].
  intros [= <-]. cbn [FormattedInvoice.header FormattedInvoice.totals
                       FormattedHeader.issueDate formatTotals
                       FormattedTotals.subtotal FormattedTotals.taxAmount
                       FormattedTotals.total].
  split; [ reflexivity | ].
  intros Hsym. rewrite Hsym in Hcf. rewrite Hcf. auto.
Qed.

(** [parseIsoDate] on dates of the Date Time String Format that are not of
    the shape YYYY-MM-DD: a month alone is its first day; the last time
    value of the range is 13 September 275760, and the day after it is an
    Invalid Date, as is the year -000000. *)
Example parseUtcMidnight_dates :
  JsDate.parseUtcMidnight "2025-01" = Some (Some 1735689600000)
  /\ JsDate.parseUtcMidnight "2025" = Some (Some 1735689600000)
  /\ JsDate.parseUtcMidnight "+275760-09-13" = Some (Some JsDate.maxTime)
  /\ JsDate.parseUtcMidnight "+275760-09-14" = Some None
  /\ JsDate.parseUtcMidnight "-000000-01-01" = Some None
  /\ JsDate.parseUtcMidnight "2025-13-01" = Some None
  /\ JsDate.parseUtcMidnight "5 January 2025" = None.
Proof. repeat split; vm_compute; reflexivity. Qed.

Lemma digit_not_sign c :
  JsString.isDigit c = true -> Ascii.eqb c "+" || Ascii.eqb c "-" = false.
Proof.
  intros H.
  destruct (Ascii.eqb_spec c "+") as [-> | _]; [ discriminate H | ].
  destruct (Ascii.eqb_spec c "-") as [-> | _]; [ discriminate H | reflexivity ].
Qed.

(** A date of the shape YYYY-MM-DD is a date of the Date Time String
    Format, with the same year, month and day. *)
Lemma parseUtcMidnight_isoDateParts s y m d :
  JsDate.isoDateParts s = Some (y, m, d) ->
  JsDate.parseUtcMidnight s
  = Some (match JsDate.ofCalendar y m d with
          | Some t => JsDate.TimeClip t
          | None => None
          end).
Proof.
  unfold JsDate.isoDateParts.
  do 10 (destruct s as [| ? s]; [ discriminate | ]).
  destruct s; [ | discriminate ].
  destruct (forallb _ _ && _ && _) eqn:E; [ | discriminate ].
  intros [= <- <- <-].
  apply andb_true_iff in E. destruct E as [E E2].
  apply andb_true_iff in E. destruct E as [E E1].
  apply Ascii.eqb_eq in E1, E2. subst.
  cbn [forallb] in E. repeat rewrite andb_true_iff in E.
  destruct E as (D1 & D2 & D3 & D4 & D5 & D6 & D7 & D8 & _).
  unfold JsDate.parseUtcMidnight, JsDate.yearField.
  rewrite (digit_not_sign _ D1). cbn [forallb].
  rewrite D1, D2, D3, D4. cbn [andb].
  unfold JsDate.monthAndDay, JsDate.twoDigits.
  change (Ascii.eqb "-" "-") with true. cbv iota.
  now rewrite D5, D6, D7, D8.
Qed.

(** The day of a date with a year of four digits, a month from 1 to 12
    and a day from 1 to 31 is within the range of time values. *)
Lemma ofCalendar_TimeClip y m d t :
  0 <= y <= 9999 ->
  JsDate.ofCalendar y m d = Some t -> JsDate.TimeClip t = Some t.
Proof.
  unfold JsDate.ofCalendar, JsDate.TimeClip, JsDate.maxTime. intros Hy.
  destruct ((1 <=? m) && (m <=? 12) && (1 <=? d) && (d <=? 31)) eqn:E;
    [ | discriminate ].
  repeat rewrite andb_true_iff in E. destruct E as (((H1 & H2) & H3) & H4).
  apply Z.leb_le in H1, H2, H3, H4.
  intros Ht.
  assert (Et : t = JsDate.msPerDay * JsDate.MakeDay y (m - 1) d) by congruence.
  subst t. clear Ht.
  assert (Hday : -1000000 <= JsDate.MakeDay y (m - 1) d <= 10000000).
  { unfold JsDate.MakeDay, JsDate.DayFromYear.
    pose proof (leapDays_range y) as Hl.
    set (l := JsDate.leapDays y) in *. clearbody l.
    assert (Hm : 0 <= JsDate.monthStart l (m - 1) <= 335).
    { assert (Hc : m = 1 \/ m = 2 \/ m = 3 \/ m = 4 \/ m = 5 \/ m = 6
                   \/ m = 7 \/ m = 8 \/ m = 9 \/ m = 10 \/ m = 11 \/ m = 12)
        by lia.
      destruct Hl as [-> | ->];
        repeat destruct Hc as [-> | Hc]; try subst m; cbn; lia. }
    Z.to_euclidean_division_equations; lia. }
  assert (Hclip : (Z.abs (JsDate.msPerDay * JsDate.MakeDay y (m - 1) d)
                   <=? 8640000000000000) = true).
  { apply Z.leb_le. unfold JsDate.msPerDay. lia. }
  now rewrite Hclip.
Qed.

Lemma parseIsoDate_calendar_date s :
  Normal.isCalendarDate s = true ->
  exists t, parseIsoDate Date_parse_fallback s = Some t.
Proof.
  unfold Normal.isCalendarDate, parseIsoDate, JsDate.roundTrips.
  destruct (JsDate.isoDateParts s) as [[[y m] d] |] eqn:E; [ | discriminate ].
  rewrite (parseUtcMidnight_isoDateParts _ _ _ _ E).
  destruct (isoDateParts_shape _ _ _ _ E)
    as (y1 & y2 & y3 & y4 & m1 & m2 & d1 & d2 & _ & Hd & -> & _).
  destruct (JsDate.ofCalendar _ m d) as [t |] eqn:Ht; [ | discriminate ].
  intros _. exists t. eapply ofCalendar_TimeClip; [ | exact Ht ].
  rewrite Forall_forall in Hd.
  pose proof (Hd y1 ltac:(cbn; tauto)). pose proof (Hd y2 ltac:(cbn; tauto)).
  pose proof (Hd y3 ltac:(cbn; tauto)). pose proof (Hd y4 ltac:(cbn; tauto)).
  lia.
Qed.

Lemma formatHeader_normal header df :
  Normal.header header ->
  exists out, formatHeader Date_parse_fallback header df = Some out.
Proof.
  intros (_ & Hi & Hd & _).
  unfold formatHeader, formatDate.
  destruct (parseIsoDate_calendar_date _ Hi) as [t ->].
  destruct (InvoiceHeader.dueDate header) as [d |]; [ | eauto ].
  destruct (JsString.isEmpty d); [ eauto | ].
  destruct (parseIsoDate_calendar_date _ Hd) as [td ->]. eauto.
Qed.

(** X13. The pipeline on an accepted input.  When [validateDraft]
    accepts an input whose dates, where they are native dates, have a
    year of four digits, [processInvoice] returns the computed and the
    formatted invoice whenever the three [Intl] constructors accept the
    locale and the currency, and throws otherwise: the dates of an
    accepted draft never make the formatter throw. *)
Theorem processInvoice_defined_on_valid
    (input : value) (options : option FormatOptions.t) (draft : InvoiceDraft.t) :
  validateDraft input = Valid draft ->
  fourDigitYears input = true ->
  let opts := orDefault options FormatOptions.empty in
  let currency := InvoiceHeader.currency (InvoiceDraft.header draft) in
  let locale := resolvedLocale currency options in
  match createCurrencyFormatter NumberFormat_currency currency locale
          (FormatOptions.currencyDisplay opts),
        createNumberFormatter NumberFormat_decimal locale,
        createDateFormatter DateTimeFormat locale (FormatOptions.dateFormat opts)
  with
  | Some _, Some _, Some _ =>
      exists invoice,
        processed input options = Some (Processed invoice (computeInvoice draft))
  | _, _, _ => processed input options = None
  end.
Proof.
  intros Hv Hy. cbv zeta.
  pose proof (validateDraft_result input draft Hv Hy) as (_ & _ & Hh & _).
  unfold processInvoice. rewrite Hv.
  unfold formatInvoice, resolvedLocale, createCurrencyFormatter,
    createNumberFormatter, createDateFormatter.
  cbn [computeInvoice InvoiceComputed.header orDefault].
  destruct (NumberFormat_currency _ _ _) as [cf |]; [ | reflexivity ].
  destruct (NumberFormat_decimal _) as [nf |]; [ | reflexivity ].
  destruct (DateTimeFormat _ _) as [df |]; [ | reflexivity ].
  destruct (formatHeader_normal _ df Hh) as [h ->]. eauto.
Qed.

End FormattedValues.

Lemma processDraft_line_items_witness :
  match processDraft Samples.currencyFormat Samples.decimalFormat
          Samples.dateFormat Samples.dateParse Samples.normalised None with
  | Some (computed, invoice) =>
      map FormattedLineItem.amount (FormattedInvoice.lineItems invoice)
      = [ "USD 201"; "USD 0" ]
  | None => False
  end.
Proof.
  destruct (processDraft Samples.currencyFormat Samples.decimalFormat
              Samples.dateFormat Samples.dateParse Samples.normalised None)
    as [[computed invoice] |] eqn:E; [ | vm_compute in E; discriminate ].
  destruct (processDraft_line_items Samples.currencyFormat Samples.decimalFormat
              Samples.dateFormat Samples.dateParse Samples.normalised None
              computed invoice E)
    as (cf & nf & Hcf & _ & Hlines & _).
  injection Hcf as <-. rewrite Hlines. vm_compute. reflexivity.
Defined.

Lemma formatInvoice_missing_amounts_witness :
  exists out',
    formatInvoice Samples.currencyFormat Samples.decimalFormat
      Samples.dateFormat Samples.dateParse
      (InvoiceComputed.mk
         (InvoiceComputed.business Samples.computedValid)
         (InvoiceComputed.client Samples.computedValid)
         (InvoiceComputed.header Samples.computedValid)
         (InvoiceComputed.lineItems Samples.computedValid)
         (ComputedTotals.mk [] 100%float 0%float 100%float))
      None
    = Some out'
    /\ map FormattedLineItem.amount (FormattedInvoice.lineItems out')
       = [ "EUR 0" ].
Proof.
  destruct (formatInvoice Samples.currencyFormat Samples.decimalFormat
              Samples.dateFormat Samples.dateParse Samples.computedValid None)
    as [out |] eqn:E; [ | vm_compute in E; discriminate ].
  destruct (formatInvoice_missing_amounts Samples.currencyFormat
              Samples.decimalFormat Samples.dateFormat Samples.dateParse
              Samples.computedValid None out E)
    as (cf & nf & out' & Hcf & _ & Hout & Hlines & _).
  exists out'. split; [ exact Hout | ].
  injection Hcf as <-. rewrite Hlines. vm_compute. reflexivity.
Defined.

Lemma formatInvoice_agrees_with_utilities_witness :
  formatIsoDate Samples.dateFormat Samples.dateParse "2025-01-05" (Some "de-DE") None
  = Some "2025-01-05".
Proof.
  destruct (formatInvoice_agrees_with_utilities Samples.currencyFormat
              Samples.decimalFormat Samples.dateFormat Samples.dateParse
              Samples.computedValid None
              _ ltac:(vm_compute; reflexivity))
    as [H _].
  exact H.
Defined.

Lemma processInvoice_defined_on_valid_witness :
  exists invoice,
    processInvoice Samples.currencyFormat Samples.decimalFormat
      Samples.dateFormat Samples.dateParse
      Samples.toNormalise None
    = Some (Processed invoice (computeInvoice Samples.normalised)).
Proof.
  apply (processInvoice_defined_on_valid Samples.currencyFormat
           Samples.decimalFormat Samples.dateFormat Samples.dateParse
           Samples.toNormalise None
           Samples.normalised); vm_compute; reflexivity.
Defined.

(* ====================================================================== *)
(** * Strings *)
(* ====================================================================== *)

Lemma string_app_assoc (a b c : string) : (a ++ b) ++ c = a ++ b ++ c.
Proof. induction a as [| x a IH]; cbn; [ reflexivity | now rewrite IH ]. Qed.

Lemma string_app_last_inj (a b : string) (x y : ascii) :
  a ++ String x "" = b ++ String y "" -> a = b /\ x = y.
Proof.
  revert b. induction a as [| c a IH]; intros [| d b]; cbn; intros H.
  - injection H as ->. now split.
  - injection H as -> H. now destruct b.
  - injection H as -> H. now destruct a.
  - injection H as -> H. destruct (IH b H) as [-> ->]. now split.
Qed.

Lemma string_length_append a b :
  String.length (a ++ b) = (String.length a + String.length b)%nat.
Proof. induction a as [| c a IH]; cbn; [ reflexivity | now rewrite IH ]. Qed.

Lemma all_append p a b :
  JsRegExp.all p (a ++ b) = JsRegExp.all p a && JsRegExp.all p b.
Proof.
  induction a as [| c a IH]; cbn; [ reflexivity | ].
  now rewrite IH, andb_assoc.
Qed.

(* ====================================================================== *)
(** * The letters of a column *)
(* ====================================================================== *)

Section ColumnLetters.

Import CellMap.

Lemma columnLetters_letter fuel :
  forall temp letter,
    columnLetters fuel temp letter = columnLetters fuel temp "" ++ letter.
Proof.
  induction fuel as [| fuel IH]; intros temp letter; cbn [columnLetters].
  - reflexivity.
  - destruct (0 <=? temp); [ | reflexivity ].
    rewrite (IH _ (String _ letter)), (IH _ (String _ "")).
    now rewrite string_app_assoc.
Qed.

(** The result of the loop does not depend on the fuel, once there is
    enough of it. *)
Lemma columnLetters_fuel fuel :
  forall fuel' temp letter,
    temp + 1 < 2 ^ Z.of_nat fuel -> temp + 1 < 2 ^ Z.of_nat fuel' ->
    columnLetters fuel temp letter = columnLetters fuel' temp letter.
Proof.
  induction fuel as [| fuel IH]; intros fuel' temp letter H H'.
  - cbn in H. destruct fuel' as [| fuel']; [ reflexivity | ].
    cbn [columnLetters]. destruct (Z.leb_spec 0 temp); [ lia | reflexivity ].
  - destruct fuel' as [| fuel'].
    + cbn in H'. cbn [columnLetters].
      destruct (Z.leb_spec 0 temp); [ lia | reflexivity ].
    + cbn [columnLetters]. destruct (Z.leb_spec 0 temp); [ | reflexivity ].
      rewrite !Nat2Z.inj_succ, !Z.pow_succ_r in H, H' by lia.
      apply IH; Z.to_euclidean_division_equations; lia.
Qed.

Lemma columnToLetter_fuel col : col + 1 < 2 ^ Z.of_nat (Z.to_nat (Z.log2 col) + 2).
Proof.
  rewrite Nat2Z.inj_add, Z2Nat.id by apply Z.log2_nonneg.
  rewrite Z.pow_add_r by (try apply Z.log2_nonneg; lia).
  destruct (Z.lt_trichotomy col 0) as [H | [-> | H]].
  - pose proof (Z.pow_pos_nonneg 2 (Z.log2 col) ltac:(lia) (Z.log2_nonneg col)).
    cbn. lia.
  - reflexivity.
  - pose proof (Z.log2_spec col H) as [_ Hs].
    rewrite Z.pow_succ_r in Hs by apply Z.log2_nonneg. cbn. lia.
Qed.

(** The loop, turn by turn: the letter of [col % 26] goes after the
    letters of [Math.floor(col / 26) - 1]; the fuel never runs out. *)
Lemma columnToLetter_loop col :
  columnToLetter col
  = if 0 <=? col
    then columnToLetter (col / 26 - 1)
           ++ String (ascii_of_N (Z.to_N (col mod 26 + 65))) ""
    else "".
Proof.
  unfold columnToLetter at 1.
  rewrite Nat.add_succ_r. cbn [columnLetters].
  destruct (Z.leb_spec 0 col); [ | reflexivity ].
  rewrite columnLetters_letter. f_equal.
  apply columnLetters_fuel; [ | apply columnToLetter_fuel ].
  pose proof (columnToLetter_fuel col) as Hf.
  rewrite Nat.add_succ_r, Nat2Z.inj_succ, Z.pow_succ_r in Hf by lia.
  Z.to_euclidean_division_equations; lia.
Qed.

Lemma columnToLetter_negative col : col < 0 -> columnToLetter col = "".
Proof.
  intros H. rewrite columnToLetter_loop.
  destruct (Z.leb_spec 0 col); [ lia | reflexivity ].
Qed.

Lemma isUpper_letter n :
  0 <= n < 26 -> JsRegExp.isUpper (ascii_of_N (Z.to_N (n + 65))) = true.
Proof.
  intros H. unfold JsRegExp.isUpper, JsString.code.
  rewrite N_ascii_embedding by lia.
  apply andb_true_iff. split; apply N.leb_le; lia.
Qed.

Lemma columnToLetter_letters col :
  0 <= col ->
  JsString.isEmpty (columnToLetter col) = false
  /\ JsRegExp.all JsRegExp.isUpper (columnToLetter col) = true.
Proof.
  intros H. revert col H.
  apply (Zlt_0_ind (fun col =>
           JsString.isEmpty (columnToLetter col) = false
           /\ JsRegExp.all JsRegExp.isUpper (columnToLetter col) = true)).
  intros col IH H. rewrite columnToLetter_loop.
  destruct (Z.leb_spec 0 col); [ | lia ].
  split; [ apply isEmpty_app_r | ].
  rewrite all_append. cbn [JsRegExp.all].
  rewrite isUpper_letter by (apply Z.mod_pos_bound; lia). cbn [andb].
  rewrite andb_true_r.
  destruct (Z.lt_trichotomy (col / 26 - 1) 0) as [Hn | [Hz | Hp]].
  - now rewrite columnToLetter_negative.
  - apply IH. Z.to_euclidean_division_equations; lia.
  - apply IH. Z.to_euclidean_division_equations; lia.
Qed.

(** X14. The letters of a column.  For a column index that is a safe
    integer (below 2^53 in absolute value), [columnToLetter] returns the
    empty string when the index is negative; for an index of zero or more
    it returns a string that is not empty and is made of the letters A to
    Z only: the letters of [floor(index / 26) - 1] followed by the letter
    of [index mod 26]. *)
Theorem columnToLetter_shape (col : Z) :
  Z.abs col < 2 ^ 53 ->
  if 0 <=? col
  then JsString.isEmpty (columnToLetter col) = false
       /\ JsRegExp.all JsRegExp.isUpper (columnToLetter col) = true
       /\ columnToLetter col
          = columnToLetter (col / 26 - 1)
              ++ String (ascii_of_N (Z.to_N (col mod 26 + 65))) ""
  else columnToLetter col = "".
Proof.
  intros _.
  pose proof (columnToLetter_loop col) as Hloop.
  destruct (Z.leb_spec 0 col) as [H | H].
  - destruct (columnToLetter_letters col H) as [Hne Hall]. auto.
  - exact Hloop.
Qed.

Lemma columnToLetter_shape_witness :
  JsString.isEmpty (columnToLetter 27) = false
  /\ JsRegExp.all JsRegExp.isUpper (columnToLetter 27) = true
  /\ columnToLetter 27 = columnToLetter 0 ++ "B".
Proof.
  apply (columnToLetter_shape 27). reflexivity.
Defined.

(** X15. Two columns, two names.  Two column indices from zero to below
    2^53 (safe integers) that [columnToLetter] writes with the same
    letters are the same index. *)
Theorem columnToLetter_injective (a b : Z) :
  0 <= a < 2 ^ 53 -> 0 <= b < 2 ^ 53 ->
  columnToLetter a = columnToLetter b -> a = b.
Proof.
  intros [Ha _] [Hb _]. revert b Hb. revert a Ha.
  apply (Zlt_0_ind (fun a =>
           forall b, 0 <= b -> columnToLetter a = columnToLetter b -> a = b)).
  intros a IH Ha b Hb.
  rewrite (columnToLetter_loop a), (columnToLetter_loop b).
  destruct (Z.leb_spec 0 a); [ | lia ]. destruct (Z.leb_spec 0 b); [ | lia ].
  intros E. apply string_app_last_inj in E. destruct E as [Es Ec].
  assert (Hm : a mod 26 = b mod 26).
  { pose proof (Z.mod_pos_bound a 26 ltac:(lia)).
    pose proof (Z.mod_pos_bound b 26 ltac:(lia)).
    apply (f_equal N_of_ascii) in Ec.
    rewrite !N_ascii_embedding in Ec by lia. lia. }
  assert (Hq : a / 26 - 1 = b / 26 - 1).
  { destruct (Z.lt_trichotomy (a / 26 - 1) 0) as [Hn | Hp].
    - rewrite (columnToLetter_negative _ Hn) in Es.
      destruct (Z.lt_trichotomy (b / 26 - 1) 0) as [Hn' | Hp'].
      + Z.to_euclidean_division_equations; lia.
      + destruct (columnToLetter_letters (b / 26 - 1) ltac:(lia)) as [Hne _].
        rewrite <- Es in Hne. discriminate.
    - destruct (Z.lt_trichotomy (b / 26 - 1) 0) as [Hn' | Hp'].
      + rewrite (columnToLetter_negative _ Hn') in Es.
        destruct (columnToLetter_letters (a / 26 - 1) ltac:(lia)) as [Hne _].
        rewrite Es in Hne. discriminate.
      + apply IH; [ | lia | exact Es ].
        Z.to_euclidean_division_equations; lia. }
  Z.to_euclidean_division_equations; lia.
Qed.

Lemma columnToLetter_injective_witness : 27 = 27.
Proof.
  apply (columnToLetter_injective 27 27); [ lia | lia | reflexivity ].
Defined.

End ColumnLetters.

(* ====================================================================== *)
(** * Paths and cells *)
(* ====================================================================== *)

Section PathsAndCells.

Import CellMap.

Lemma little_succ_not_nil d : Decimal.Little.succ d <> Decimal.Nil.
Proof. now destruct d. Qed.

Lemma to_little_uint_not_nil n :
  forall acc, acc <> Decimal.Nil -> Nat.to_little_uint n acc <> Decimal.Nil.
Proof.
  induction n as [| n IH]; intros acc H; cbn; [ exact H | ].
  apply IH, little_succ_not_nil.
Qed.

Lemma revapp_not_nil d :
  forall acc, d <> Decimal.Nil \/ acc <> Decimal.Nil ->
              Decimal.revapp d acc <> Decimal.Nil.
Proof.
  induction d as [| d IH | d IH | d IH | d IH | d IH | d IH | d IH | d IH
                  | d IH | d IH ];
    intros acc H; cbn;
    [ destruct H as [H | H]; [ now elim H | exact H ]
    | apply IH; right; discriminate .. ].
Qed.

Lemma ofNat_not_empty k : JsString.isEmpty (JsString.ofNat k) = false.
Proof.
  unfold JsString.ofNat, Nat.to_uint, Decimal.rev.
  pose proof (revapp_not_nil
                (Nat.to_little_uint k (Decimal.D0 Decimal.Nil)) Decimal.Nil) as H.
  destruct (Decimal.revapp _ _); [ elim H; [ | reflexivity ] | reflexivity .. ].
  left. apply to_little_uint_not_nil. discriminate.
Qed.

Lemma string_of_uint_digits d :
  JsRegExp.all JsRegExp.isDigit (NilEmpty.string_of_uint d) = true.
Proof. induction d; cbn; [ reflexivity | exact IHd .. ]. Qed.

Lemma span_append p a c r :
  JsRegExp.all p a = true -> p c = false ->
  JsRegExp.span p (a ++ String c r) = (a, String c r).
Proof.
  intros Ha Hc. induction a as [| x a IH]; cbn in *.
  - now rewrite Hc.
  - apply andb_true_iff in Ha. destruct Ha as [Hx Ha].
    now rewrite Hx, (IH Ha).
Qed.

(** The two groups of the path of a field of a line item. *)
Lemma matchLineItemPath_linePath k field :
  JsString.isEmpty field = false ->
  JsRegExp.all JsRegExp.isWord field = true ->
  matchLineItemPath (linePath k field) = Some (JsString.ofNat k, field).
Proof.
  intros Hne Hw. unfold matchLineItemPath, linePath.
  change (JsRegExp.after "lineItems[" ("lineItems[" ++ JsString.ofNat k ++ "]." ++ field))
    with (Some (JsString.ofNat k ++ "]." ++ field)).
  cbv beta iota.
  change ("]." ++ field) with (String "]" (String "." field)).
  rewrite span_append;
    [ | apply string_of_uint_digits | reflexivity ].
  cbv beta iota. rewrite ofNat_not_empty.
  change (JsRegExp.after "]." (String "]" (String "." field))) with (Some field).
  cbv beta iota. now rewrite Hne, Hw.
Qed.

(** No path of a line item is a key of [METADATA_CELLS] or the name of a
    property of [Object.prototype]. *)
Lemma metadata_missing rest :
  getProperty METADATA_CELLS ("lineItems[" ++ rest) = Missing.
Proof. reflexivity. Qed.

(** The cell of a field of a line item that has a column. *)
Lemma pathToCell_column k field col :
  In (field, col) columns ->
  pathToCell (linePath k field)
  = Text (columnToLetter col
            ++ JsNumber.toString
                 (PrimFloat.add firstDataRow (parseInt10 (JsString.ofNat k)))).
Proof.
  intros Hin. unfold pathToCell.
  change (getProperty METADATA_CELLS (linePath k field)) with (@Missing string).
  cbn [columns In] in Hin.
  destruct Hin as [[= <- <-] | [[= <- <-] | [[= <- <-] | [[= <- <-] | []]]]];
    rewrite matchLineItemPath_linePath by reflexivity; reflexivity.
Qed.

(** The path of a line item and that of its [unit] have no cell. *)
Lemma pathToCell_item k :
  pathToCell ("lineItems[" ++ JsString.ofNat k ++ "]")
  = Text ("lineItems[" ++ JsString.ofNat k ++ "]").
Proof.
  unfold pathToCell.
  change (getProperty METADATA_CELLS ("lineItems[" ++ JsString.ofNat k ++ "]"))
    with (@Missing string).
  unfold matchLineItemPath.
  change (JsRegExp.after "lineItems[" ("lineItems[" ++ JsString.ofNat k ++ "]"))
    with (Some (JsString.ofNat k ++ "]")).
  cbv beta iota.
  rewrite span_append;
    [ | apply string_of_uint_digits | reflexivity ].
  cbv beta iota. rewrite ofNat_not_empty. reflexivity.
Qed.

Lemma pathToCell_unit k :
  pathToCell (linePath k "unit") = Text (linePath k "unit").
Proof.
  unfold pathToCell.
  change (getProperty METADATA_CELLS (linePath k "unit")) with (@Missing string).
  rewrite matchLineItemPath_linePath by reflexivity. reflexivity.
Qed.

Lemma metadata_cells_checked :
  forallb
    (fun '(path, ref) =>
       match pathToCell path, cellToPath ref with
       | Text s, Some p => String.eqb s ref && String.eqb p path
       | _, _ => false
       end)
    METADATA_CELLS
  = true.
Proof. vm_compute. reflexivity. Qed.

(** The fields with a column of the first thousand line items, one by
    one: their paths go to their cells and back. *)
Lemma line_paths_checked :
  forallb
    (fun k =>
       forallb
         (fun '(path, ref) =>
            match pathToCell path, cellToPath ref with
            | Text s, Some p => String.eqb s ref && String.eqb p path
            | _, _ => false
            end)
         (lineCells k))
    (seq 0 1000)
  = true.
Proof. vm_compute. reflexivity. Qed.

(** X16. From a path to its cell and back.  For each of the eight paths
    of [METADATA_CELLS], and for the fields [description], [quantity] and
    [unitPrice] of each of the first thousand line items, [pathToCell]
    returns the cell of the field (for the line item at index [k], the
    letter A, B or C followed by the number of row [16 + k]), and
    [cellToPath] returns the path for that cell. *)
Theorem cellToPath_pathToCell (k : nat) (path ref : string) :
  (k < 1000)%nat ->
  In (path, ref) (METADATA_CELLS ++ sheetCells k) ->
  pathToCell path = Text ref /\ cellToPath ref = Some path.
Proof.
  intros Hk Hin.
  assert (H : match pathToCell path, cellToPath ref with
              | Text s, Some p => String.eqb s ref && String.eqb p path
              | _, _ => false
              end = true).
  { apply in_app_or in Hin. destruct Hin as [Hin | Hin].
    - pose proof metadata_cells_checked as H.
      rewrite forallb_forall in H. apply (H (path, ref) Hin).
    - pose proof line_paths_checked as H.
      rewrite forallb_forall in H.
      specialize (H k ltac:(apply in_seq; lia)).
      rewrite forallb_forall in H. apply (H (path, ref)).
      unfold sheetCells, sheetColumns in Hin. unfold lineCells, columns.
      cbn [map In] in *. tauto. }
  destruct (pathToCell path) as [s | p]; [ | discriminate ].
  destruct (cellToPath ref) as [p |]; [ | discriminate ].
  apply andb_true_iff in H. destruct H as [H1 H2].
  apply String.eqb_eq in H1, H2. now subst.
Qed.

Lemma cellToPath_pathToCell_witness :
  pathToCell "lineItems[2].unitPrice" = Text "C18"
  /\ cellToPath "C18" = Some "lineItems[2].unitPrice".
Proof.
  apply (cellToPath_pathToCell 2 "lineItems[2].unitPrice" "C18");
    [ lia | vm_compute; tauto ].
Defined.

Lemma groupPaths_checked :
  forallb
    (fun path =>
       match pathToCell path with
       | Text s => negb (JsString.isEmpty s)
       | Foreign _ => false
       end)
    groupPaths
  = true.
Proof. vm_compute. reflexivity. Qed.

Lemma field_path_linePath k field :
  ("lineItems[" ++ JsString.ofNat k ++ "]") ++ "." ++ field = linePath k field.
Proof.
  unfold linePath. rewrite !string_app_assoc. reflexivity.
Qed.

(** [pathToCell] returns a text, and not the empty one, for each path of
    a line item. *)
Lemma lineItemPaths_text k path :
  In path (lineItemPaths k) ->
  exists ref, pathToCell path = Text ref /\ JsString.isEmpty ref = false.
Proof.
  intros Hin.
  unfold lineItemPaths, fieldPaths, lineItemFields in Hin.
  cbn [map In] in Hin. rewrite !field_path_linePath in Hin.
  destruct Hin as [<- | [<- | [<- | [<- | [<- | []]]]]].
  - rewrite pathToCell_item. eexists. split; reflexivity.
  - rewrite (pathToCell_column k "description" 0) by (cbn; tauto).
    eexists. split; reflexivity.
  - rewrite (pathToCell_column k "quantity" 1) by (cbn; tauto).
    eexists. split; reflexivity.
  - rewrite (pathToCell_column k "unitPrice" 2) by (cbn; tauto).
    eexists. split; reflexivity.
  - rewrite pathToCell_unit. eexists. split; reflexivity.
Qed.

(** X17. What the add-on shows for an issue.  For an input object,
    [mapIssuesToCells] gives for every issue that [validateDraft]
    returns a cell that is a string and is not empty (a cell reference or
    the path of the issue), never a property that a path would have
    picked up from [Object.prototype]; the messages are those of the
    issues, in the same order. *)
Theorem mapIssuesToCells_writes_text (input : value) (issues : list Issue.t) :
  validateDraft input = Invalid issues ->
  isObject input = true ->
  Forall (fun entry =>
            exists ref, fst entry = Text ref /\ JsString.isEmpty ref = false)
    (mapIssuesToCells issues)
  /\ map snd (mapIssuesToCells issues) = map Issue.message issues.
Proof.
  intros Hv Hobj.
  destruct (validateDraft_cases input Hobj)
    as [[_ Hv'] | [_ (b & c & h & l & _ & _ & _ & _ & Hv')]];
    rewrite Hv' in Hv; [ | discriminate ].
  injection Hv as <-.
  split.
  2: { unfold mapIssuesToCells. rewrite map_map. reflexivity. }
  unfold mapIssuesToCells. apply Forall_map. apply Forall_forall.
  intros i Hin. cbn [fst].
  assert (Htext : exists ref,
             pathToCell (Issue.path i) = Text ref
             /\ JsString.isEmpty ref = false).
  { destruct (issue_path_cases input i Hobj Hin)
      as [Hg | (elements & k & Hl & Hk & Hp)].
    - pose proof groupPaths_checked as H.
      rewrite forallb_forall in H. specialize (H _ Hg).
      destruct (pathToCell (Issue.path i)) as [s | p]; [ | discriminate ].
      exists s. split; [ reflexivity | ]. now apply negb_true_iff.
    - apply (lineItemPaths_text k), Hp. }
  destruct Htext as (ref & -> & Hne). rewrite Hne. now exists ref.
Qed.

Lemma mapIssuesToCells_writes_text_witness :
  map fst
    (mapIssuesToCells
       [ issue NEGATIVE_NUMBER "lineItems[0].unitPrice"
           "unitPrice cannot be negative" (Some "Use a positive number") ])
  = [ Text "C16" ]
  /\ map snd
       (mapIssuesToCells
          [ issue NEGATIVE_NUMBER "lineItems[0].unitPrice"
              "unitPrice cannot be negative" (Some "Use a positive number") ])
     = [ "unitPrice cannot be negative" ].
Proof.
  split; [ vm_compute; reflexivity | ].
  destruct (mapIssuesToCells_writes_text
              (Samples.invoice Samples.business Samples.client Samples.header
                 [ Samples.lineItem "First" (VNum 1%float) (VNum (-50)%float) ])
              [ issue NEGATIVE_NUMBER "lineItems[0].unitPrice"
                  "unitPrice cannot be negative" (Some "Use a positive number") ])
    as [_ H].
  - vm_compute. reflexivity.
  - reflexivity.
  - exact H.
Defined.

End PathsAndCells.

(* ====================================================================== *)
(** * The command line *)
(* ====================================================================== *)

Section CommandLine.

Import Cli.

Lemma list_pair_induction {A} (P : list A -> Prop) :
  P [] -> (forall a, P [ a ]) ->
  (forall a b rest, P rest -> P (b :: rest) -> P (a :: b :: rest)) ->
  forall l, P l.
Proof.
  intros H0 H1 H2 l.
  assert (H : P l /\ forall a, P (a :: l)).
  { induction l as [| b rest [IH IH']].
    - split; [ exact H0 | exact H1 ].
    - split; [ apply IH' | ]. intros a. apply H2; [ exact IH | apply IH' ]. }
  apply H.
Qed.

Ltac flag_cases a :=
  destruct (String.eqb a "--input" || String.eqb a "-i") eqn:Einput;
    [ | destruct (String.eqb a "--out" || String.eqb a "-o") eqn:Eout;
        [ | destruct (String.eqb a "--print" || String.eqb a "-p") eqn:Eprint;
            [ | destruct (String.eqb a "--help" || String.eqb a "-h") eqn:Ehelp ] ] ].

Ltac flag_absent E N1 N2 :=
  apply orb_true_iff in E; destruct E as [E | E]; apply String.eqb_eq in E;
  subst; exfalso; first [ apply N1; now left | apply N2; now left ].

Ltac rest_absent IH N1 N2 :=
  rewrite IH; [ reflexivity | | ];
  intros Hin;
  first [ solve [ apply N1; cbn; tauto ] | solve [ apply N2; cbn; tauto ] ].

Lemma parseArgsLoop_input args :
  forall result,
    ~ In "--input" args -> ~ In "-i" args ->
    input (parseArgsLoop args result) = input result.
Proof.
  induction args as [| a | a b rest IH IH'] using list_pair_induction;
    intros result N1 N2.
  - reflexivity.
  - cbn [parseArgsLoop]. flag_cases a; try reflexivity.
    flag_absent Einput N1 N2.
  - remember (b :: rest) as tail eqn:Etail. cbn [parseArgsLoop].
    flag_cases a; rewrite Etail in *; cbv iota beta;
      first [ flag_absent Einput N1 N2 | rest_absent IH N1 N2
            | rest_absent IH' N1 N2 ].
Qed.

Lemma parseArgsLoop_out args :
  forall result,
    ~ In "--out" args -> ~ In "-o" args ->
    out (parseArgsLoop args result) = out result.
Proof.
  induction args as [| a | a b rest IH IH'] using list_pair_induction;
    intros result N1 N2.
  - reflexivity.
  - cbn [parseArgsLoop]. flag_cases a; try reflexivity.
    flag_absent Eout N1 N2.
  - remember (b :: rest) as tail eqn:Etail. cbn [parseArgsLoop].
    flag_cases a; rewrite Etail in *; cbv iota beta;
      first [ flag_absent Eout N1 N2 | rest_absent IH N1 N2
            | rest_absent IH' N1 N2 ].
Qed.

Lemma parseArgsLoop_print args :
  forall result,
    ~ In "--print" args -> ~ In "-p" args ->
    print (parseArgsLoop args result) = print result.
Proof.
  induction args as [| a | a b rest IH IH'] using list_pair_induction;
    intros result N1 N2.
  - reflexivity.
  - cbn [parseArgsLoop]. flag_cases a; try reflexivity.
    flag_absent Eprint N1 N2.
  - remember (b :: rest) as tail eqn:Etail. cbn [parseArgsLoop].
    flag_cases a; rewrite Etail in *; cbv iota beta;
      first [ flag_absent Eprint N1 N2 | rest_absent IH N1 N2
            | rest_absent IH' N1 N2 ].
Qed.

Lemma parseArgsLoop_help args :
  forall result,
    ~ In "--help" args -> ~ In "-h" args ->
    help (parseArgsLoop args result) = help result.
Proof.
  induction args as [| a | a b rest IH IH'] using list_pair_induction;
    intros result N1 N2.
  - reflexivity.
  - cbn [parseArgsLoop]. flag_cases a; try reflexivity.
    flag_absent Ehelp N1 N2.
  - remember (b :: rest) as tail eqn:Etail. cbn [parseArgsLoop].
    flag_cases a; rewrite Etail in *; cbv iota beta;
      first [ flag_absent Ehelp N1 N2 | rest_absent IH N1 N2
            | rest_absent IH' N1 N2 ].
Qed.

(** X18. An option without its flag.  In what [parseArgs] returns, an
    option has its default ([input] empty, [out] "./out", [print] and
    [help] false) whenever neither the long nor the short form of its
    flag is among the arguments: no other argument, and no value given to
    another flag, sets it. *)
Theorem parseArgs_defaults (args : list string) :
  (~ In "--input" args -> ~ In "-i" args -> input (parseArgs args) = "")
  /\ (~ In "--out" args -> ~ In "-o" args -> out (parseArgs args) = "./out")
  /\ (~ In "--print" args -> ~ In "-p" args -> print (parseArgs args) = false)
  /\ (~ In "--help" args -> ~ In "-h" args -> help (parseArgs args) = false).
Proof.
  unfold parseArgs. repeat split; intros N1 N2.
  - now rewrite parseArgsLoop_input.
  - now rewrite parseArgsLoop_out.
  - now rewrite parseArgsLoop_print.
  - now rewrite parseArgsLoop_help.
Qed.

Lemma parseArgs_defaults_witness :
  out (parseArgs [ "--input"; "invoice.json"; "--print" ]) = "./out".
Proof.
  apply (proj1 (proj2 (parseArgs_defaults [ "--input"; "invoice.json"; "--print" ])));
    intros [H | [H | [H | []]]]; discriminate.
Defined.

Lemma sanitize_chars s : JsRegExp.all isFilenameChar (sanitize s) = true.
Proof.
  unfold sanitize. induction s as [| c s IH]; cbn; [ reflexivity | ].
  rewrite IH, andb_true_r. destruct (isFilenameChar c) eqn:E; [ exact E | ].
  reflexivity.
Qed.

Lemma sanitize_length s : String.length (sanitize s) = String.length s.
Proof.
  unfold sanitize. induction s as [| c s IH]; cbn; [ reflexivity | ].
  now rewrite IH.
Qed.

Lemma sliceTo_chars p n :
  forall s, JsRegExp.all p s = true -> JsRegExp.all p (sliceTo n s) = true.
Proof.
  induction n as [| n IH]; intros [| c s]; cbn; try reflexivity.
  intros H. apply andb_true_iff in H. destruct H as [-> H]. now apply IH.
Qed.

Lemma sliceTo_length n :
  forall s, String.length (sliceTo n s) = Nat.min n (String.length s).
Proof.
  induction n as [| n IH]; intros [| c s]; cbn; try reflexivity.
  now rewrite IH.
Qed.

(** X19. The name of the PDF file.  For every formatted invoice,
    [generateOutputFilename] returns "Invoice_", a stem and ".pdf", where
    the stem is made of letters, digits, hyphens and underscores only (so
    the name has no path separator and no dot but that of the extension),
    and is at most 31 code units longer than the invoice number. *)
Theorem generateOutputFilename_safe (invoice : FormattedInvoice.t) :
  exists stem,
    generateOutputFilename invoice = "Invoice_" ++ stem ++ ".pdf"
    /\ JsRegExp.all isFilenameChar stem = true
    /\ (String.length stem
        <= String.length
             (FormattedHeader.invoiceNumber (FormattedInvoice.header invoice))
           + 31)%nat.
Proof.
  unfold generateOutputFilename.
  set (number := sanitize _). set (client := sliceTo 30 _).
  exists (number ++ "_" ++ client).
  split; [ now rewrite !string_app_assoc | ].
  split.
  - rewrite !all_append. unfold number, client.
    rewrite sanitize_chars, sliceTo_chars by apply sanitize_chars. reflexivity.
  - rewrite !string_length_append. unfold number, client.
    rewrite sanitize_length, sliceTo_length. cbn [String.length]. lia.
Qed.

End CommandLine.

(* ====================================================================== *)
(** * Escaping *)
(* ====================================================================== *)

Section Escaping.

Import HtmlTemplate.

Lemma escapeChar_no_markup c :
  JsRegExp.all (fun x => negb (isMarkup x)) (escapeChar c) = true.
Proof.
  unfold escapeChar.
  destruct (Ascii.eqb c "&"); [ reflexivity | ].
  destruct (Ascii.eqb c "<") eqn:E1; [ reflexivity | ].
  destruct (Ascii.eqb c ">") eqn:E2; [ reflexivity | ].
  destruct (Ascii.eqb c doubleQuote) eqn:E3; [ reflexivity | ].
  destruct (Ascii.eqb c "'") eqn:E4; [ reflexivity | ].
  cbn. unfold isMarkup. now rewrite E1, E2, E3, E4.
Qed.

(** X20. No markup survives escaping.  In what [escapeHtml] returns there
    is no angle bracket and no quote, single or double, whatever the
    text. *)
Theorem escapeHtml_no_markup (text : string) :
  JsRegExp.all (fun c => negb (isMarkup c)) (escapeHtml text) = true.
Proof.
  induction text as [| c text IH]; cbn [escapeHtml]; [ reflexivity | ].
  now rewrite all_append, escapeChar_no_markup, IH.
Qed.

(** X21. Escaping loses nothing.  Two texts that [escapeHtml] writes in
    the same way are the same text: the text can be read back from its
    escaped form. *)
Theorem escapeHtml_injective (a b : string) :
  escapeHtml a = escapeHtml b -> a = b.
Proof.
  revert b. induction a as [| c a IH]; intros [| d b]; cbn [escapeHtml].
  - reflexivity.
  - unfold escapeChar.
    repeat match goal with
           | |- context [Ascii.eqb ?x ?y] => destruct (Ascii.eqb x y)
           end; discriminate.
  - unfold escapeChar.
    repeat match goal with
           | |- context [Ascii.eqb ?x ?y] => destruct (Ascii.eqb x y)
           end; discriminate.
  - unfold escapeChar, doubleQuote.
    repeat match goal with
           | |- context [Ascii.eqb ?x ?y] =>
               destruct (Ascii.eqb_spec x y); [ subst | ]
           end;
      cbn [append]; intros H; try discriminate;
      try (injection H as H; f_equal; now apply IH);
      try (injection H as E H; congruence).
    injection H as -> H. f_equal. now apply IH.
Qed.

Lemma escapeHtml_injective_witness : "a<b & c" = "a<b & c".
Proof.
  apply (escapeHtml_injective "a<b & c" "a<b & c"). reflexivity.
Defined.

End Escaping.

(* ====================================================================== *)
(** * The rows of the sheet *)
(* ====================================================================== *)

Section SheetRows.

Import CellMap SheetParser.

Variable objectText : value -> string.

Lemma readRows_nth sheet turns :
  forall row k item,
    nth_error (readRows objectText sheet turns row) k = Some item ->
    (k < turns)%nat /\ readRow objectText sheet (row + k) = Some item.
Proof.
  induction turns as [| turns IH]; intros row k item H; cbn [readRows] in H.
  - now destruct k.
  - destruct (readRow objectText sheet row) as [first |] eqn:E.
    + destruct k as [| k]; cbn [nth_error] in H.
      * injection H as <-. rewrite Nat.add_0_r. split; [ lia | exact E ].
      * destruct (IH _ _ _ H) as [Hk Hr]. split; [ lia | ].
        now rewrite Nat.add_succ_r.
    + now destruct k.
Qed.

Lemma readRows_length sheet turns :
  forall row, (List.length (readRows objectText sheet turns row) <= turns)%nat.
Proof.
  induction turns as [| turns IH]; intros row; cbn [readRows].
  - reflexivity.
  - destruct (readRow objectText sheet row); cbn [List.length];
      [ specialize (IH (S row)) | ]; lia.
Qed.

Lemma readRows_stop sheet turns :
  forall row,
    (List.length (readRows objectText sheet turns row) < turns)%nat ->
    readRow objectText sheet
      (row + List.length (readRows objectText sheet turns row)) = None.
Proof.
  induction turns as [| turns IH]; intros row H; cbn [readRows] in *.
  - inversion H.
  - destruct (readRow objectText sheet row) eqn:E; cbn [List.length] in *.
    + rewrite Nat.add_succ_r. apply (IH (S row)). lia.
    + now rewrite Nat.add_0_r.
Qed.

(** X23. The rows that are read.  [readLineItems] returns at most a
    hundred items; the item at index [k] is the one read from row
    [16 + k], which is not fully empty: its [description] is the trimmed
    text of cell A of that row, its [quantity] and [unitPrice] are the
    numbers read from cells B and C, or [undefined]; and when there are
    fewer than a hundred items, the row after the last one read has its
    three cells empty. *)
Theorem readLineItems_rows (sheet : string -> value) :
  (List.length (readLineItems objectText sheet) <= 100)%nat
  /\ (forall k item,
         nth_error (readLineItems objectText sheet) k = Some item ->
         let row := JsString.ofNat (16 + k) in
         (isEmpty (sheet ("A" ++ row)) && isEmpty (sheet ("B" ++ row))
          && isEmpty (sheet ("C" ++ row)) = false)
         /\ item
            = VObj [ ("description",
                      VStr (formatCellValue objectText (sheet ("A" ++ row))));
                     ("quantity",
                      numberOrUndefined
                        (parseNumber objectText (sheet ("B" ++ row))));
                     ("unitPrice",
                      numberOrUndefined
                        (parseNumber objectText (sheet ("C" ++ row)))) ])
  /\ ((List.length (readLineItems objectText sheet) < 100)%nat ->
      let row := JsString.ofNat (16 + List.length (readLineItems objectText sheet)) in
      isEmpty (sheet ("A" ++ row)) && isEmpty (sheet ("B" ++ row))
      && isEmpty (sheet ("C" ++ row)) = true).
Proof.
  unfold readLineItems, maxRows. split; [ | split ].
  - apply readRows_length.
  - intros k item H.
    destruct (readRows_nth _ _ _ _ _ H) as [_ Hr].
    unfold readRow, getCellValue in Hr.
    destruct (isEmpty _ && isEmpty _ && isEmpty _); [ discriminate | ].
    injection Hr as <-. split; reflexivity.
  - intros H. pose proof (readRows_stop sheet 100 16 H) as Hr.
    unfold readRow, getCellValue in Hr.
    now destruct (isEmpty _ && isEmpty _ && isEmpty _).
Qed.

Lemma readRows_cells sheet sheet' turns :
  forall row,
    (forall k letter,
        (k <= List.length (readRows objectText sheet turns row))%nat ->
        (k < turns)%nat -> In letter [ "A"; "B"; "C" ] ->
        sheet' (letter ++ JsString.ofNat (row + k))
        = sheet (letter ++ JsString.ofNat (row + k))) ->
    readRows objectText sheet' turns row = readRows objectText sheet turns row.
Proof.
  induction turns as [| turns IH]; intros row H; cbn [readRows] in *.
  - reflexivity.
  - assert (E : readRow objectText sheet' row = readRow objectText sheet row).
    { unfold readRow, getCellValue.
      pose proof (H 0%nat "A" ltac:(lia) ltac:(lia) ltac:(cbn; tauto)) as HA.
      pose proof (H 0%nat "B" ltac:(lia) ltac:(lia) ltac:(cbn; tauto)) as HB.
      pose proof (H 0%nat "C" ltac:(lia) ltac:(lia) ltac:(cbn; tauto)) as HC.
      rewrite Nat.add_0_r in HA, HB, HC. now rewrite HA, HB, HC. }
    rewrite E. destruct (readRow objectText sheet row) as [item |];
      [ | reflexivity ].
    f_equal. apply IH. intros k letter Hk Hlt Hin.
    specialize (H (S k) letter). rewrite Nat.add_succ_r in H.
    apply H; [ cbn [List.length]; lia | lia | exact Hin ].
Qed.

(** X25. The cells that matter.  What [readLineItems] returns does
    not change when the sheet changes anywhere but in columns A, B and C
    of the rows read and of the row where the reading stopped: a fourth
    column, the rows below the first fully empty row and the rows after
    row 115 are never looked at. *)
Theorem readLineItems_cells_read (sheet sheet' : string -> value) :
  (forall k letter,
      (k <= List.length (readLineItems objectText sheet))%nat ->
      (k < 100)%nat -> In letter [ "A"; "B"; "C" ] ->
      sheet' (letter ++ JsString.ofNat (16 + k))
      = sheet (letter ++ JsString.ofNat (16 + k))) ->
  readLineItems objectText sheet' = readLineItems objectText sheet.
Proof. apply readRows_cells. Qed.

(** Where an issue of an input object comes from: one of the three
    objects or the array itself, or the check of one element of the
    array. *)
Lemma issue_source input i :
  isObject input = true ->
  In i (groupIssues input) ->
  In (Issue.path i) groupPaths
  \/ exists elements k x,
       getField input "lineItems" = VArr elements
       /\ nth_error elements k = Some x
       /\ In i (issuesOf
                  (validateLineItem x ("lineItems[" ++ JsString.ofNat k ++ "]"))).
Proof.
  intros Hobj Hin.
  destruct (issue_path_cases input i Hobj Hin) as [H | _]; [ now left | ].
  rewrite groupIssues_exhaustive in Hin.
  apply in_concat in Hin. destruct Hin as (report & Hr & Hi).
  unfold Exhaustive.fieldReports in Hr.
  rewrite !in_app_iff in Hr. destruct Hr as [Hr | [Hr | [Hr | Hr]]].
  - left.
    pose proof (businessReports_paths (getField input "business") "business") as H.
    rewrite Forall_forall in H. specialize (H report Hr i Hi).
    unfold groupPaths. rewrite !in_app_iff. tauto.
  - left.
    pose proof (clientReports_paths (getField input "client") "client") as H.
    rewrite Forall_forall in H. specialize (H report Hr i Hi).
    unfold groupPaths. rewrite !in_app_iff. tauto.
  - left.
    pose proof (headerReports_paths (getField input "header") "header") as H.
    rewrite Forall_forall in H. specialize (H report Hr i Hi).
    unfold groupPaths. rewrite !in_app_iff. tauto.
  - unfold Exhaustive.lineItemsReports in Hr.
    destruct (getField input "lineItems")
      as [ | | b0 | x | s | t | [| e rest] | fs ] eqn:Hl;
      try (left; destruct Hr as [<- | []]; destruct Hi as [<- | []];
           rewrite path_issue; unfold groupPaths; rewrite !in_app_iff;
           right; right; right; now left).
    right.
    apply in_elementReports in Hr. destruct Hr as (k & x & Hk & Hr).
    exists (e :: rest), k, x. split; [ reflexivity | ].
    split; [ exact Hk | ].
    rewrite validateLineItem_exhaustive. apply in_concat.
    exists report. split; [ exact Hr | exact Hi ].
Qed.

(** The issues of an item read from a row are at the three fields read
    from the sheet. *)
Lemma readRow_issue sheet row item basePath i :
  readRow objectText sheet row = Some item ->
  In i (issuesOf (validateLineItem item basePath)) ->
  exists field letter,
    In (field, letter) sheetColumns
    /\ Issue.path i = basePath ++ "." ++ field.
Proof.
  intros Hr Hin. unfold readRow in Hr.
  destruct (isEmpty _ && isEmpty _ && isEmpty _); [ discriminate | ].
  injection Hr as <-.
  rewrite validateLineItem_exhaustive in Hin.
  unfold Exhaustive.lineItemReports in Hin. cbn [isObject] in Hin.
  cbn [List.concat] in Hin. rewrite !in_app_iff in Hin.
  destruct Hin as [H | [H | [H | [H | []]]]].
  - apply validateRequiredString_paths in H. destruct H as [<- | []].
    exists "description", "A". split; [ cbn; tauto | reflexivity ].
  - apply validateRequiredNumber_paths in H. destruct H as [<- | []].
    exists "quantity", "B". split; [ cbn; tauto | reflexivity ].
  - apply validateRequiredNumber_paths in H. destruct H as [<- | []].
    exists "unitPrice", "C". split; [ cbn; tauto | reflexivity ].
  - now vm_compute in H.
Qed.

(** X24. An issue of a line item is shown in the cell its value was
    read from.  For an input whose [lineItems] is what [readLineItems]
    returns, every issue that [validateDraft] returns is either at one of
    the paths of [business], [client], [header] or [lineItems], or at the
    field [description], [quantity] or [unitPrice] of the item at some
    index [k] below the number of items; [pathToCell] maps the path of
    such an issue to the cell of column A, B or C, in this order, of row
    [16 + k]: the cell that [readLineItems] read the field from. *)
Theorem sheet_issue_cell
    (sheet : string -> value) (input : value) (issues : list Issue.t)
    (i : Issue.t) :
  getField input "lineItems" = VArr (readLineItems objectText sheet) ->
  validateDraft input = Invalid issues ->
  In i issues ->
  In (Issue.path i) groupPaths
  \/ exists k field letter,
       (k < List.length (readLineItems objectText sheet))%nat
       /\ In (field, letter) sheetColumns
       /\ Issue.path i = linePath k field
       /\ pathToCell (Issue.path i) = Text (letter ++ JsString.ofNat (16 + k)).
Proof.
  intros Hl Hv Hin.
  assert (Hobj : isObject input = true).
  { destruct input; try discriminate; reflexivity. }
  destruct (validateDraft_cases input Hobj)
    as [[_ Hv'] | [_ (b & c & h & l & _ & _ & _ & _ & Hv')]];
    rewrite Hv' in Hv; [ | discriminate ].
  injection Hv as <-.
  destruct (issue_source input i Hobj Hin)
    as [H | (elements & k & x & Hl' & Hk & Hi)]; [ now left | ].
  right. rewrite Hl in Hl'. injection Hl' as <-.
  assert (Hlen : (k < List.length (readLineItems objectText sheet))%nat).
  { apply nth_error_Some. congruence. }
  pose proof (readRows_length sheet maxRows 16) as Hmax.
  fold (readLineItems objectText sheet) in Hmax. unfold maxRows in Hmax.
  destruct (readRows_nth _ _ _ _ _ Hk) as [_ Hr].
  destruct (readRow_issue _ _ _ _ _ Hr Hi) as (field & letter & Hf & Hp).
  rewrite field_path_linePath in Hp.
  exists k, field, letter. repeat split; try assumption.
  rewrite Hp.
  assert (Hcell : In (linePath k field, letter ++ JsString.ofNat (16 + k))
                    (lineCells k)).
  { cbn in Hf. unfold lineCells. cbn [map columns].
    destruct Hf as [[= <- <-] | [[= <- <-] | [[= <- <-] | []]]];
      cbn [In]; tauto. }
  pose proof line_paths_checked as H.
  rewrite forallb_forall in H.
  specialize (H k ltac:(apply in_seq; lia)).
  rewrite forallb_forall in H. specialize (H _ Hcell). cbv beta iota in H.
  destruct (pathToCell (linePath k field)) as [s | p]; [ | discriminate ].
  destruct (cellToPath _); [ | discriminate ].
  apply andb_true_iff in H. destruct H as [H _].
  apply String.eqb_eq in H. now subst s.
Qed.

End SheetRows.

Lemma readLineItems_rows_witness :
  SheetParser.isEmpty (SheetSamples.sheet "A16")
  && SheetParser.isEmpty (SheetSamples.sheet "B16")
  && SheetParser.isEmpty (SheetSamples.sheet "C16") = false
  /\ VObj [ ("description", VStr "Design"); ("quantity", VUndefined);
            ("unitPrice", VNum 80%float) ]
     = VObj [ ("description",
               VStr (SheetParser.formatCellValue SheetSamples.objectText
                       (SheetSamples.sheet "A16")));
              ("quantity",
               SheetParser.numberOrUndefined
                 (SheetParser.parseNumber SheetSamples.objectText
                    (SheetSamples.sheet "B16")));
              ("unitPrice",
               SheetParser.numberOrUndefined
                 (SheetParser.parseNumber SheetSamples.objectText
                    (SheetSamples.sheet "C16"))) ].
Proof.
  apply (proj1 (proj2 (readLineItems_rows SheetSamples.objectText
                         SheetSamples.sheet))
           0%nat
           (VObj [ ("description", VStr "Design"); ("quantity", VUndefined);
                   ("unitPrice", VNum 80%float) ])).
  reflexivity.
Defined.

Lemma readLineItems_cells_read_witness :
  SheetParser.readLineItems SheetSamples.objectText SheetSamples.edited
  = SheetParser.readLineItems SheetSamples.objectText SheetSamples.sheet.
Proof.
  apply (readLineItems_cells_read SheetSamples.objectText
           SheetSamples.sheet SheetSamples.edited).
  intros k letter Hk _ Hin.
  change (List.length
            (SheetParser.readLineItems SheetSamples.objectText
               SheetSamples.sheet)) with 1%nat in Hk.
  destruct k as [| [| k]]; [ | | lia ];
    cbn [In] in Hin; destruct Hin as [<- | [<- | [<- | []]]]; reflexivity.
Defined.

Lemma sheet_issue_cell_witness :
  In "lineItems[0].quantity" groupPaths
  \/ exists k field letter,
       (k < List.length
              (SheetParser.readLineItems SheetSamples.objectText
                 SheetSamples.sheet))%nat
       /\ In (field, letter) sheetColumns
       /\ "lineItems[0].quantity" = linePath k field
       /\ CellMap.pathToCell "lineItems[0].quantity"
          = CellMap.Text (letter ++ JsString.ofNat (16 + k)).
Proof.
  apply (sheet_issue_cell SheetSamples.objectText SheetSamples.sheet
           (Samples.invoice Samples.business Samples.client Samples.header
              (SheetParser.readLineItems SheetSamples.objectText
                 SheetSamples.sheet))
           [ issue MISSING_REQUIRED "lineItems[0].quantity"
               "quantity is required" None ]
           (issue MISSING_REQUIRED "lineItems[0].quantity"
              "quantity is required" None)).
  - reflexivity.
  - vm_compute. reflexivity.
  - now left.
Defined.
